(** * Commit-activity time series: daily and weekly aggregation

    A shallow embedding of the data-processing part of
    [src/template/main.py]: [load_and_process_data],
    [calculate_rolling_average], [calculate_weekly_data], the
    percentage-change loop of [plot_percentage_change], the per-country
    loading loop of [plot_daily_activity], and the four plotting functions
    with their helpers and the script that runs them, as the calls they
    make.

    Conventions.
    - Python exceptions are values of [exn]; code that may raise lives in
      the [result] monad.
    - A [datetime] is a (year, month, day) triple; all datetimes of the
      program are at midnight.
    - Floats ([np.mean], the percentage change) are exact rationals kept in
      lowest terms, plus [NaN]; rounding of IEEE doubles is not modelled.
    - The numbers of an input file are integers, as commit counts are.  A
      document with a number that [json.load] reads as a float ([2.5],
      [1e999]) is outside the embedding: Python adds such a count like
      an integer, and nothing here says what follows.  "Any file" below
      means any file without such a number.
    - [defaultdict]s are [gmap]s read with a default; sets are [gset]s. *)

From Stdlib Require Import ZArith QArith Qreduction Lia Lqa Ascii.
From Stdlib Require Import DecimalString DecimalPos DecimalZ.
From stdpp Require Import gmap strings list sorting.

#[local] Set Warnings "-clear-no-such-hyp".
Local Open Scope Z_scope.

(** ** Exceptions and the error monad *)

Inductive exn : Type :=
  | FileNotFoundError
  | JSONDecodeError
  | AttributeError
  | TypeError
  | ValueError
  | OverflowError
  | IndexError.

Inductive result (A : Type) : Type :=
  | Ok (a : A)
  | Raise (e : exn).
Arguments Ok {A} a.
Arguments Raise {A} e.

#[global] Instance result_ret : MRet result := fun _ a => Ok a.
#[global] Instance result_bind : MBind result := fun _ _ f m =>
  match m with
  | Ok a => f a
  | Raise e => Raise e
  end.

(** [for x in l: st = f x st], stopping at the first exception. *)
Fixpoint for_each {A S : Type} (f : A → S → result S) (l : list A) (st : S)
  : result S :=
  match l with
  | [] => Ok st
  | x :: l' => st' ← f x st; for_each f l' st'
  end.

(** [[f x for x in l]], stopping at the first exception. *)
Fixpoint map_result {A B : Type} (f : A → result B) (l : list A)
  : result (list B) :=
  match l with
  | [] => Ok []
  | x :: l' => y ← f x; ys ← map_result f l'; Ok (y :: ys)
  end.

(** ** Characters, digits and integer formatting *)

Definition char_in (lo hi c : ascii) : bool :=
  (Ascii.leb lo c && Ascii.leb c hi)%bool.

Definition is_digit (c : ascii) : bool := char_in "0" "9" c.

Definition digit_val (c : ascii) : Z := Z.of_N (Ascii.N_of_ascii c) - 48.

(** [str(n)] for an integer. *)
Definition py_str (n : Z) : string := NilZero.string_of_int (Z.to_int n).

(** [int(s)]; only the digit strings cut out of a week label reach it. *)
Definition py_int (s : string) : result Z :=
  match NilZero.int_of_string s with
  | Some d => Ok (Z.of_int d)
  | None => Raise ValueError
  end.

Fixpoint zeros (n : nat) : string :=
  match n with
  | O => ""
  | S n' => String "0" (zeros n')
  end.

(** [f"{n:0wd}"] for a non-negative [n]: zero-padded to width [w]. *)
Definition zfill (w : nat) (s : string) : string :=
  zeros (w - String.length s) +:+ s.

(** [s.startswith(p)] *)
Fixpoint starts_with (p s : string) : bool :=
  match p, s with
  | "", _ => true
  | String a p', String b s' => (if decide (a = b) then starts_with p' s' else false)
  | _, _ => false
  end.

(** [s.split(sep)] for a non-empty separator, scanning left to right.
    [skip] counts the characters of a separator just recognised that are
    still to be dropped; [cur] is the current piece, reversed. *)
Fixpoint split_go (sep : string) (skip : nat) (cur : string) (s : string)
  : list string :=
  match s with
  | "" => [String.rev cur]
  | String c s' =>
      match skip with
      | S k => split_go sep k cur s'
      | O =>
          if starts_with sep s
          then String.rev cur :: split_go sep (String.length sep - 1) "" s'
          else split_go sep O (String c cur) s'
      end
  end.

Definition py_split (sep s : string) : list string := split_go sep O "" s.

(** ** Calendar dates *)

Record datetime : Type := mk_date { year : Z; month : Z; day : Z }.

#[global] Instance datetime_eq_dec : EqDecision datetime.
Proof. solve_decision. Defined.

Definition MAXYEAR : Z := 9999.

Definition is_leap (y : Z) : bool :=
  (y mod 4 =? 0) && (negb (y mod 100 =? 0) || (y mod 400 =? 0)).

Definition days_in_month (y m : Z) : Z :=
  if (m =? 2) && is_leap y then 29
  else match m with
       | 1 | 3 | 5 | 7 | 8 | 10 | 12 => 31
       | 4 | 6 | 9 | 11 => 30
       | 2 => 28
       | _ => -1
       end.

Definition days_before_month_table (m : Z) : Z :=
  match m with
  | 1 => 0 | 2 => 31 | 3 => 59 | 4 => 90 | 5 => 120 | 6 => 151
  | 7 => 181 | 8 => 212 | 9 => 243 | 10 => 273 | 11 => 304 | 12 => 334
  | _ => -1
  end.

Definition days_before_month (y m : Z) : Z :=
  days_before_month_table m + (if (2 <? m) && is_leap y then 1 else 0).

Definition days_before_year (y : Z) : Z :=
  let y' := y - 1 in y' * 365 + y' / 4 - y' / 100 + y' / 400.

(** [date.toordinal()]: 0001-01-01 is day 1. *)
Definition toordinal (d : datetime) : Z :=
  days_before_year (year d) + days_before_month (year d) (month d) + day d.

Definition valid_date (d : datetime) : bool :=
  (1 <=? year d) && (year d <=? MAXYEAR) &&
  (1 <=? month d) && (month d <=? 12) &&
  (1 <=? day d) && (day d <=? days_in_month (year d) (month d)).

(** [a <= b] on datetimes: comparison of the (year, month, day) tuples. *)
Definition date_leb (a b : datetime) : bool :=
  (year a <? year b) ||
  ((year a =? year b) &&
   ((month a <? month b) || ((month a =? month b) && (day a <=? day b)))).

(** [d + timedelta(days=1)]: the next calendar day; [OverflowError] past
    9999-12-31. *)
Definition add_one_day (d : datetime) : result datetime :=
  if day d <? days_in_month (year d) (month d)
  then Ok (mk_date (year d) (month d) (day d + 1))
  else if month d <? 12
  then Ok (mk_date (year d) (month d + 1) 1)
  else if year d <? MAXYEAR
  then Ok (mk_date (year d + 1) 1 1)
  else Raise OverflowError.

(** [date.fromordinal(n)], as CPython's [_ord2ymd]. *)
Definition fromordinal (n0 : Z) : datetime :=
  let n := n0 - 1 in
  let n400 := n / 146097 in
  let n := n mod 146097 in
  let n100 := n / 36524 in
  let n := n mod 36524 in
  let n4 := n / 1461 in
  let n := n mod 1461 in
  let n1 := n / 365 in
  let n := n mod 365 in
  let y := n400 * 400 + 1 + n100 * 100 + n4 * 4 + n1 in
  if (n1 =? 4) || (n100 =? 4) then mk_date (y - 1) 12 31
  else
    let leapyear := (n1 =? 3) && (negb (n4 =? 24) || (n100 =? 3)) in
    let m := Z.shiftr (n + 50) 5 in
    let preceding := days_before_month_table m + (if (2 <? m) && leapyear then 1 else 0) in
    if n <? preceding
    then
      let m' := m - 1 in
      let dim := (if (m' =? 2) && leapyear then 29 else days_in_month 1 m') in
      mk_date y m' (n - (preceding - dim) + 1)
    else mk_date y m (n - preceding + 1).

Definition MAXORDINAL : Z := 3652059.

(** *** [strptime(s, "%Y-%m-%d")]

    CPython turns the format into the regular expression
    [(\d\d\d\d)-(1[0-2]|0[1-9]|[1-9])-(3[0-1]|[1-2]\d|0[1-9]|[1-9]| [1-9])],
    matches it at the start of the string, rejects unconverted trailing
    data, and then builds the date, rejecting year 0 and days past the end
    of the month.  Every failure is a [ValueError]. *)

Definition first_of {A : Type} (alts : list (option A)) : option A :=
  foldr (fun a r => match a with Some x => Some x | None => r end) None alts.

Definition is_char (c x : ascii) : bool := bool_decide (x = c).

(** The literal text [p] at the start of [s]; what follows it. *)
Fixpoint strip_prefix (p s : string) : option string :=
  match p, s with
  | "", _ => Some s
  | String a p', String b s' => if is_char a b then strip_prefix p' s' else None
  | _, _ => None
  end.

(** A month followed by the literal [-]. *)
Definition match_month (s : string) : option (Z * string) :=
  first_of
    [ match s with
      | String a (String b (String c r)) =>
          if is_char "1" a && char_in "0" "2" b && is_char "-" c
          then Some (10 + digit_val b, r) else None
      | _ => None
      end;
      match s with
      | String a (String b (String c r)) =>
          if is_char "0" a && char_in "1" "9" b && is_char "-" c
          then Some (digit_val b, r) else None
      | _ => None
      end;
      match s with
      | String a (String c r) =>
          if char_in "1" "9" a && is_char "-" c
          then Some (digit_val a, r) else None
      | _ => None
      end ].

(** A day of the month; the first alternative that matches wins. *)
Definition match_day (s : string) : option (Z * string) :=
  first_of
    [ match s with
      | String a (String b r) =>
          if is_char "3" a && char_in "0" "1" b
          then Some (30 + digit_val b, r) else None
      | _ => None
      end;
      match s with
      | String a (String b r) =>
          if char_in "1" "2" a && is_digit b
          then Some (10 * digit_val a + digit_val b, r) else None
      | _ => None
      end;
      match s with
      | String a (String b r) =>
          if is_char "0" a && char_in "1" "9" b
          then Some (digit_val b, r) else None
      | _ => None
      end;
      match s with
      | String a r => if char_in "1" "9" a then Some (digit_val a, r) else None
      | _ => None
      end;
      match s with
      | String a (String b r) =>
          if is_char " " a && char_in "1" "9" b
          then Some (digit_val b, r) else None
      | _ => None
      end ].

Definition match_year (s : string) : option (Z * string) :=
  match s with
  | String a (String b (String c (String d r))) =>
      if is_digit a && is_digit b && is_digit c && is_digit d
      then Some (1000 * digit_val a + 100 * digit_val b
                 + 10 * digit_val c + digit_val d, r)
      else None
  | _ => None
  end.

Definition strptime_ymd (s : string) : result datetime :=
  match match_year s with
  | Some (y, r0) =>
      match strip_prefix "-" r0 with
      | Some r1 =>
          match match_month r1 with
          | Some (m, r2) =>
              match match_day r2 with
              | Some (d, r3) =>
                  if bool_decide (r3 = "") && valid_date (mk_date y m d)
                  then Ok (mk_date y m d)
                  else Raise ValueError
              | None => Raise ValueError
              end
          | None => Raise ValueError
          end
      | None => Raise ValueError
      end
  | None => Raise ValueError
  end.

(** *** [d.strftime("%Y-%m-%d")]

    [%m] and [%d] are always two digits.  [%Y] is handed to the C library:
    some zero-pad the year to four digits, glibc prints it as it is, so
    the choice is a parameter of the platform. *)
Definition strftime_ymd (pads_year : bool) (d : datetime) : string :=
  (if pads_year then zfill 4 (py_str (year d)) else py_str (year d))
  +:+ "-" +:+ zfill 2 (py_str (month d))
  +:+ "-" +:+ zfill 2 (py_str (day d)).

(** *** ISO calendar *)

Definition isoweek1monday (y : Z) : Z :=
  let firstday := toordinal (mk_date y 1 1) in
  let firstweekday := (firstday + 6) mod 7 in
  let week1monday := firstday - firstweekday in
  if 3 <? firstweekday then week1monday + 7 else week1monday.

(** [d.isocalendar()]: (ISO year, ISO week, ISO weekday). *)
Definition isocalendar (d : datetime) : Z * Z * Z :=
  let y := year d in
  let week1monday := isoweek1monday y in
  let today := toordinal d in
  let week := (today - week1monday) / 7 in
  let wday := (today - week1monday) mod 7 in
  if week <? 0 then
    let w1 := isoweek1monday (y - 1) in
    (y - 1, (today - w1) / 7 + 1, (today - w1) mod 7 + 1)
  else if (52 <=? week) && (isoweek1monday (y + 1) <=? today) then
    (y + 1, 1, wday + 1)
  else (y, week + 1, wday + 1).

(** [f"{year}-W{week:02d}"] *)
Definition week_label (y w : Z) : string :=
  py_str y +:+ "-W" +:+ zfill 2 (py_str w).

(** *** [strptime(s, "%G-W%V-%u")]

    The regular expression is
    [(\d\d\d\d)-W(5[0-3]|0[1-9]|[1-4]\d|\d)-([1-7])]; the literal [W] of the
    format has to be in the string. *)

(** An ISO week number followed by the literal [-]. *)
Definition match_isoweek (s : string) : option (Z * string) :=
  first_of
    [ match s with
      | String a (String b (String c r)) =>
          if is_char "5" a && char_in "0" "3" b && is_char "-" c
          then Some (50 + digit_val b, r) else None
      | _ => None
      end;
      match s with
      | String a (String b (String c r)) =>
          if is_char "0" a && char_in "1" "9" b && is_char "-" c
          then Some (digit_val b, r) else None
      | _ => None
      end;
      match s with
      | String a (String b (String c r)) =>
          if char_in "1" "4" a && is_digit b && is_char "-" c
          then Some (10 * digit_val a + digit_val b, r) else None
      | _ => None
      end;
      match s with
      | String a (String c r) =>
          if is_digit a && is_char "-" c then Some (digit_val a, r) else None
      | _ => None
      end ].

(** [d.isoweekday()] *)
Definition isoweekday (d : datetime) : Z :=
  let r := toordinal d mod 7 in if r =? 0 then 7 else r.

(** The date of ISO year [g], week [v], weekday [u], as [_strptime] finds it. *)
Definition date_of_iso (g v u : Z) : result datetime :=
  if (g <? 1) || (MAXYEAR <? g) then Raise ValueError
  else
    let correction := isoweekday (mk_date g 1 4) + 3 in
    let ordinal := v * 7 + u - correction in
    let '(y, julian) :=
      if ordinal <? 1
      then (g - 1, ordinal + toordinal (mk_date g 1 1)
                   - toordinal (mk_date (g - 1) 1 1))
      else (g, ordinal) in
    if y <? 1 then Raise ValueError
    else
      let n := julian - 1 + toordinal (mk_date y 1 1) in
      if (1 <=? n) && (n <=? MAXORDINAL) then Ok (fromordinal n)
      else Raise ValueError.

Definition strptime_GVu (s : string) : result datetime :=
  match match_year s with
  | Some (g, r0) =>
      match strip_prefix "-W" r0 with
      | Some r1 =>
          match match_isoweek r1 with
          | Some (v, String u r2) =>
              if char_in "1" "7" u && bool_decide (r2 = "")
              then date_of_iso g v (digit_val u)
              else Raise ValueError
          | _ => Raise ValueError
          end
      | None => Raise ValueError
      end
  | None => Raise ValueError
  end.

(** ** Floats *)

Inductive pyfloat : Type :=
  | Num (q : Q)
  | NaN.

Definition Qsum (l : list Q) : Q := foldr Qplus (0 # 1)%Q l.

(** [np.mean(l)]: the mean of an empty slice is [nan] (with a warning), not
    an exception. *)
Definition np_mean (l : list Q) : pyfloat :=
  match l with
  | [] => NaN
  | _ => Num (Qred (Qsum l / inject_Z (Z.of_nat (length l))))
  end.

(** [x != 0] *)
Definition float_nonzero (x : pyfloat) : bool :=
  match x with
  | Num q => negb (Qeq_bool q (0 # 1)%Q)
  | NaN => true
  end.

Definition float_sub (x y : pyfloat) : pyfloat :=
  match x, y with
  | Num a, Num b => Num (Qred (a - b))
  | _, _ => NaN
  end.

(** [x / y] for [y != 0] *)
Definition float_div (x y : pyfloat) : pyfloat :=
  match x, y with
  | Num a, Num b => Num (Qred (a / b))
  | _, _ => NaN
  end.

Definition float_mul (x y : pyfloat) : pyfloat :=
  match x, y with
  | Num a, Num b => Num (Qred (a * b))
  | _, _ => NaN
  end.

(** ** List slices *)

(** A slice bound as Python normalises it: negative bounds count from the
    end, and the result is clamped to [0, len]. *)
Definition slice_bound (len i : Z) : Z :=
  Z.max 0 (Z.min len (if i <? 0 then i + len else i)).

(** [l[a:b]] *)
Definition py_slice {A : Type} (l : list A) (a b : Z) : list A :=
  let len := Z.of_nat (length l) in
  let a' := slice_bound len a in
  let b' := slice_bound len b in
  take (Z.to_nat (b' - a')) (drop (Z.to_nat a') l).

(** ** RollingAverage *)

Definition calculate_rolling_average (data_series : list Q) (window_size : Z)
  : list pyfloat :=
  match data_series with
  | [] => []
  | _ =>
      (fun k : nat =>
         let i := Z.of_nat k in
         if i <? window_size - 1
         then np_mean (py_slice data_series 0 (i + 1))
         else np_mean (py_slice data_series (i - window_size + 1) (i + 1)))
      <$> seq 0 (length data_series)
  end.

(** ** Input files *)

#[local] Set Warnings "-register-all".

(** A parsed JSON document.  Objects keep their members in file order; a
    number is an integer, as the counts of the input format are.  There
    is no constructor for a float: documents with one are not covered. *)
Inductive json : Type :=
  | JNull
  | JBool (b : bool)
  | JInt (n : Z)
  | JStr (s : string)
  | JArr (l : list json)
  | JObj (members : list (string * json)).

Inductive file_state : Type :=
  | Missing
  | Malformed
  | Parsed (j : json).

Inductive log_line : Type :=
  | ErrorProcesando (json_file : string) (e : exn)
  | ErrorProcesandoSemanales (json_file : string) (e : exn).

(** What a run can see and change: the files, how the platform's
    [strftime] prints [%Y], and what has been printed so far. *)
Record world : Type := mk_world {
  files : string → file_state;
  pads_year : bool;
  stdout : list log_line
}.

Definition print (l : log_line) (w : world) : world :=
  mk_world (files w) (pads_year w) (stdout w ++ [l]).

(** [with open(json_file) as f: data = json.load(f)] *)
Definition read_json (w : world) (json_file : string) : result json :=
  match files w json_file with
  | Missing => Raise FileNotFoundError
  | Malformed => Raise JSONDecodeError
  | Parsed j => Ok j
  end.

(** [d.items()] *)
Definition py_items (d : json) : result (list (string * json)) :=
  match d with
  | JObj members => Ok members
  | _ => Raise AttributeError
  end.

Fixpoint assoc (k : string) (members : list (string * json)) : option json :=
  match members with
  | [] => None
  | (k', v) :: rest => if decide (k = k') then Some v else assoc k rest
  end.

(** [stats.get("daily_commits", {})] *)
Definition get_daily_commits (stats : json) : result json :=
  match stats with
  | JObj members => Ok (default (JObj []) (assoc "daily_commits" members))
  | _ => Raise AttributeError
  end.

(** The integer [cnt] stands for in [total += cnt] and [cnt > 0]; [True]
    and [False] are the integers 1 and 0; [None], a string, a list and a
    dict are a [TypeError].  (A float would be added like an integer; it
    is not a value of [json].) *)
Definition int_of_json (cnt : json) : result Z :=
  match cnt with
  | JInt n => Ok n
  | JBool b => Ok (if b then 1 else 0)
  | _ => Raise TypeError
  end.

(** ** Aggregation tables

    The pair of [defaultdict]s both builders fill: a total per key and the
    set of users with a positive count per key. *)
Record tables : Type := mk_tables {
  commits_by : gmap string Z;
  active_users_by : gmap string (gset string)
}.

Definition no_tables : tables := mk_tables ∅ ∅.

(** [commits_by[k]] and [len(active_users_by[k])], with the defaults. *)
Definition commits_at (t : tables) (k : string) : Z :=
  default 0 (commits_by t !! k).
Definition users_at (t : tables) (k : string) : gset string :=
  default ∅ (active_users_by t !! k).
Definition active_at (t : tables) (k : string) : Z :=
  Z.of_nat (size (users_at t k)).

(** [commits_by[k] += cnt; if cnt > 0: active_users_by[k].add(user_id)] *)
Definition accumulate (k user_id : string) (cnt : Z) (t : tables) : tables :=
  mk_tables
    (<[k := commits_at t k + cnt]> (commits_by t))
    (if 0 <? cnt
     then <[k := users_at t k ∪ {[user_id]}]> (active_users_by t)
     else active_users_by t).

(** [sorted(commits_by.keys())] *)
Definition sorted_keys (t : tables) : list string :=
  merge_sort String.le (elements (dom (commits_by t))).

(** ** DailySeriesBuilder *)

Record daily_series : Type := mk_daily {
  fechas : list datetime;
  commits_rolling_avg : list pyfloat;
  users_rolling_avg : list pyfloat;
  raw_commits : list Z;
  raw_users : list Z
}.

Definition empty_daily : daily_series := mk_daily [] [] [] [] [].

Definition add_daily_record (user_id : string) (rec : string * json)
    (t : tables) : result tables :=
  let '(fecha_str, cnt) := rec in
  _ ← strptime_ymd fecha_str;
  n ← int_of_json cnt;
  Ok (accumulate fecha_str user_id n t).

Definition add_daily_user (u : string * json) (t : tables) : result tables :=
  let '(user_id, stats) := u in
  dc ← get_daily_commits stats;
  recs ← py_items dc;
  for_each (add_daily_record user_id) recs t.

Definition aggregate_daily (data : json) : result tables :=
  users ← py_items data;
  for_each add_daily_user users no_tables.

(** [while current <= end: date_range.append(current); current += 1 day].
    The loop runs once per day from [current] to [end_]; [fuel] bounds the
    number of iterations. *)
Fixpoint date_range_loop (fuel : nat) (current end_ : datetime)
  : result (list datetime) :=
  match fuel with
  | O => Ok []
  | S fuel' =>
      if date_leb current end_ then
        next ← add_one_day current;
        rest ← date_range_loop fuel' next end_;
        Ok (current :: rest)
      else Ok []
  end.

Definition date_range (first end_ : datetime) : result (list datetime) :=
  date_range_loop (Z.to_nat (toordinal end_ - toordinal first + 1)) first end_.

(** The value a day of the completed range gets: the table's, or zero. *)
Definition filled_count (pads : bool) (t : tables) (d : datetime) : Z :=
  let date_str := strftime_ymd pads d in
  if decide (date_str ∈ dom (commits_by t)) then commits_at t date_str else 0.
Definition filled_users (pads : bool) (t : tables) (d : datetime) : Z :=
  let date_str := strftime_ymd pads d in
  if decide (date_str ∈ dom (commits_by t)) then active_at t date_str else 0.

(** Lines 63-78: one entry per day of the range. *)
Definition fill_series (pads : bool) (t : tables) (date_range : list datetime)
  : list datetime * list Z * list Z :=
  (date_range,
   filled_count pads t <$> date_range,
   filled_users pads t <$> date_range).

(** Lines 51-86: with more than one recorded date, the three series are
    replaced by their completion over the whole range of days. *)
Definition complete_series (pads : bool) (t : tables)
    (fechas_dt : list datetime) (counts active_users : list Z)
  : result (list datetime * list Z * list Z) :=
  if (1 <? length fechas_dt)%nat then
    match head fechas_dt, last fechas_dt with
    | Some first, Some end_ =>
        complete_dates ← date_range first end_;
        Ok (fill_series pads t complete_dates)
    | _, _ => Raise IndexError
    end
  else
    match fechas_dt with
    | [] => Ok (fechas_dt, [], [])
    | _ => Ok (fechas_dt, counts, active_users)
    end.

Definition load_and_process_body (w : world) (json_file : string)
    (window_size : Z) : result daily_series :=
  data ← read_json w json_file;
  t ← aggregate_daily data;
  let fechas_s := sorted_keys t in
  match fechas_s with
  | [] => Ok empty_daily
  | _ =>
      fechas_dt ← map_result strptime_ymd fechas_s;
      let counts : list Z := commits_at t <$> fechas_s in
      let active_users : list Z := active_at t <$> fechas_s in
      completed ← complete_series (pads_year w) t fechas_dt counts active_users;
      let '(fechas_dt, counts, active_users) := completed in
      Ok (mk_daily fechas_dt
            (calculate_rolling_average (inject_Z <$> counts) window_size)
            (calculate_rolling_average (inject_Z <$> active_users) window_size)
            counts active_users)
  end.

(** The [try ... except Exception] around the body: any exception is
    printed and the empty series returned. *)
Definition load_and_process_data (w : world) (json_file : string)
    (window_size : Z) : daily_series * world :=
  match load_and_process_body w json_file window_size with
  | Ok r => (r, w)
  | Raise e => (empty_daily, print (ErrorProcesando json_file e) w)
  end.

(** ** WeeklySeriesBuilder *)

Record weekly_series : Type := mk_weekly {
  week_dates : list datetime;
  week_commits : list Z;
  week_users : list Z;
  week_labels : list string
}.

Definition empty_weekly : weekly_series := mk_weekly [] [] [] [].

(** The ISO week label of a date string, [f"{year}-W{week:02d}"]. *)
Definition week_key_of (date_obj : datetime) : string :=
  let '(y, wk, _) := isocalendar date_obj in week_label y wk.

Definition add_weekly_record (user_id : string) (rec : string * json)
    (t : tables) : result tables :=
  let '(fecha_str, cnt) := rec in
  date_obj ← strptime_ymd fecha_str;
  let week_key := week_key_of date_obj in
  n ← int_of_json cnt;
  Ok (accumulate week_key user_id n t).

Definition add_weekly_user (u : string * json) (t : tables) : result tables :=
  let '(user_id, stats) := u in
  dc ← get_daily_commits stats;
  recs ← py_items dc;
  for_each (add_weekly_record user_id) recs t.

Definition aggregate_weekly (data : json) : result tables :=
  users ← py_items data;
  for_each add_weekly_user users no_tables.

(** Lines 163-167: the first day of a labelled week.  The string handed to
    [strptime] is [f"{year}-{week_num}-1"]; the format is ["%G-W%V-%u"]. *)
Definition week_start_string (y week_num : Z) : string :=
  py_str y +:+ "-" +:+ py_str week_num +:+ "-1".

Definition week_to_date (week_key : string) : result datetime :=
  match py_split "-W" week_key with
  | [year_str; week_str] =>
      y ← py_int year_str;
      week_num ← py_int week_str;
      strptime_GVu (week_start_string y week_num)
  | _ => Raise ValueError
  end.

Definition calculate_weekly_body (w : world) (json_file : string)
  : result weekly_series :=
  data ← read_json w json_file;
  t ← aggregate_weekly data;
  let weeks := sorted_keys t in
  match weeks with
  | [] => Ok empty_weekly
  | _ =>
      dates ← map_result week_to_date weeks;
      Ok (mk_weekly dates (commits_at t <$> weeks) (active_at t <$> weeks) weeks)
  end.

Definition calculate_weekly_data (w : world) (json_file : string)
  : weekly_series * world :=
  match calculate_weekly_body w json_file with
  | Ok r => (r, w)
  | Raise e => (empty_weekly, print (ErrorProcesandoSemanales json_file e) w)
  end.

(** ** PercentageChangeCalculator

    Lines 417-444 of [plot_percentage_change], for one country. *)

Record pct_series : Type := mk_pct {
  fechas_pct : list datetime;
  pct_change : list pyfloat
}.

Definition day_change (today yesterday : pyfloat) : pyfloat :=
  if float_nonzero yesterday
  then float_mul (float_div (float_sub today yesterday) yesterday)
                 (Num (100 # 1)%Q)
  else if float_nonzero today then Num (100 # 1)%Q else Num (0 # 1)%Q.

(** [l[i]] *)
Definition index {A : Type} (l : list A) (i : nat) : result A :=
  match l !! i with
  | Some x => Ok x
  | None => Raise IndexError
  end.

Definition percentage_change (country_data : daily_series) : result pct_series :=
  match fechas country_data, commits_rolling_avg country_data with
  | [], _ | _, [] => Ok (mk_pct [] [])
  | _, _ =>
      steps ← map_result
        (fun i : nat =>
           today ← index (commits_rolling_avg country_data) i;
           yesterday ← index (commits_rolling_avg country_data) (i - 1);
           fecha ← index (fechas country_data) i;
           Ok (fecha, day_change today yesterday))
        (seq 1 (length (commits_rolling_avg country_data) - 1));
      Ok (mk_pct (steps.*1) (steps.*2))
  end.

(** ** Loading every country

    The loops at lines 214-231 and 689-704: one file per country, each
    loaded by its builder, the results kept by country. *)

Definition data_dir : string := "../data".

(** [os.path.join(a, b)] on a POSIX system. *)
Definition ends_with_slash (a : string) : bool :=
  match String.rev a with
  | String c _ => bool_decide (c = "/"%char)
  | "" => false
  end.

Definition path_join (a b : string) : string :=
  if starts_with "/" b then b
  else if decide (a = "") then b
  else if ends_with_slash a then a +:+ b
  else a +:+ "/" +:+ b.

Definition country_file (country : string) : string :=
  path_join data_dir (country +:+ "_data.json").

Definition load_daily_countries (w : world) (countries : list string)
    (window_size : Z) : gmap string daily_series * world :=
  foldl (fun '(all_data, w) country =>
           let '(country_data, w') :=
             load_and_process_data w (country_file country) window_size in
           (<[country := country_data]> all_data, w'))
        (∅, w) countries.

Definition load_weekly_countries (w : world) (countries : list string)
  : gmap string weekly_series * world :=
  foldl (fun '(all_data, w) country =>
           let '(country_data, w') :=
             calculate_weekly_data w (country_file country) in
           (<[country := country_data]> all_data, w'))
        (∅, w) countries.

(** ** Charts

    The plotting functions are embedded by what they ask of the outside,
    in order: the directory made, figures opened and closed, series drawn,
    the marks of the highlighted period, the limits of the y axis, files
    saved and lines printed.  Titles, axis labels, colours, tick formats,
    grid, legend and layout do not bear on any of these and are left out.
    What the two builders print stays in the [world]; what the plotting
    functions print is among their calls.  A number handed to matplotlib
    is a float; an integer is the float of the same value.

    One exception of matplotlib is part of the embedding: [set_ylim]
    refuses a limit that is [nan].  Only the percentage-change charts can
    hand it one; in the other charts the limits are 0 and [ylim_top],
    numbers by construction, and the call is recorded as it is. *)

Inductive call : Type :=
  | Makedirs (path : string)
  | Subplots
  | Plot (xs : list datetime) (ys : list pyfloat)
  | Axhline
  | Axvspan (xmin xmax : datetime)
  | Axvline (x : datetime)
  | SetYlim (bottom top : pyfloat)
  | Savefig (fname : string)
  | Close
  | PrintLine (msg : string).

(** The calls made, and how the code ended. *)
Definition outcome : Type := list call * result unit.

Definition calls_of (o : outcome) : list call := o.1.

(** [a] and then, unless it raised, [b]. *)
Definition and_then (a b : outcome) : outcome :=
  match a with
  | (cs, Ok _) => (cs ++ b.1, b.2)
  | (cs, Raise e) => (cs, Raise e)
  end.

(** [for x in l: f x] *)
Definition for_each_call {A : Type} (f : A → outcome) (l : list A) : outcome :=
  foldr (fun x rest => and_then (f x) rest) ([], Ok tt) l.

Definition float_of_int (n : Z) : pyfloat := Num (inject_Z n).

(** [x > y] and [x < y] on floats; false when either is [nan]. *)
Definition float_gt (x y : pyfloat) : bool :=
  match x, y with
  | Num a, Num b => negb (Qle_bool a b)
  | _, _ => false
  end.

Definition float_lt (x y : pyfloat) : bool := float_gt y x.

Definition float_add (x y : pyfloat) : pyfloat :=
  match x, y with
  | Num a, Num b => Num (Qred (a + b))
  | _, _ => NaN
  end.

(** [max(first, *rest)] and [min(first, *rest)]: the value kept is replaced
    when a later one compares greater (smaller). *)
Definition py_max {A : Type} (gt : A → A → bool) (first : A) (rest : list A)
  : A :=
  foldl (fun m x => if gt x m then x else m) first rest.

Definition py_min {A : Type} (lt : A → A → bool) (first : A) (rest : list A)
  : A :=
  foldl (fun m x => if lt x m then x else m) first rest.

(** [d[k] = v] on a dict: a new key goes last, an old key keeps its
    place. *)
Fixpoint dict_set {V : Type} (k : string) (v : V) (d : list (string * V))
  : list (string * V) :=
  match d with
  | [] => [(k, v)]
  | (k', v') :: d' =>
      if decide (k = k') then (k, v) :: d' else (k', v') :: dict_set k v d'
  end.

(** [axvspan] over the highlighted period and an [axvline] at each end. *)
Definition highlight (show_highlight : bool) (hl_start_dt hl_end_dt : datetime)
  : list call :=
  if show_highlight
  then [Axvspan hl_start_dt hl_end_dt; Axvline hl_start_dt; Axvline hl_end_dt]
  else [].

(** [ax.set_ylim(bottom=..., top=...)]: matplotlib raises [ValueError]
    ("Axis limits cannot be NaN or Inf") when a limit is [nan]; the
    limits are then not set and the call is not recorded. *)
Definition set_ylim (bottom top : pyfloat) : outcome :=
  match bottom, top with
  | Num _, Num _ => ([SetYlim bottom top], Ok tt)
  | _, _ => ([], Raise ValueError)
  end.

(** [m * 1.1 if m > 0 else 1], for an integer and for a float. *)
Definition ylim_top_int (m : Z) : pyfloat :=
  if 0 <? m then float_mul (float_of_int m) (Num (11 # 10)%Q)
  else float_of_int 1.

Definition ylim_top (m : pyfloat) : pyfloat :=
  if float_gt m (float_of_int 0) then float_mul m (Num (11 # 10)%Q)
  else float_of_int 1.

(** *** [plot_daily_raw_activity] *)

(** Lines 286-303: one country of the loading loop.  The builder catches
    every exception itself, so the handler for [FileNotFoundError] around
    the call is never entered; the same holds in the other three loading
    loops. *)
Definition load_raw_country
    (st : list (string * daily_series) * Z * Z * world) (country : string)
  : list (string * daily_series) * Z * Z * world :=
  let '(all_data, max_commits_overall, max_users_overall, w) := st in
  let json_file := path_join data_dir (country +:+ "_data.json") in
  let '(country_data, w') := load_and_process_data w json_file 7 in
  let max_commits_overall :=
    match raw_commits country_data with
    | [] => max_commits_overall
    | x :: l => py_max Z.gtb max_commits_overall [py_max Z.gtb x l]
    end in
  let max_users_overall :=
    match raw_users country_data with
    | [] => max_users_overall
    | x :: l => py_max Z.gtb max_users_overall [py_max Z.gtb x l]
    end in
  (dict_set country country_data all_data,
   max_commits_overall, max_users_overall, w').

Definition load_raw_countries (w : world) (countries : list string)
  : list (string * daily_series) * Z * Z * world :=
  foldl load_raw_country ([], 0, 0, w) countries.

(** Lines 306-346: the figure of one country. *)
Definition raw_individual_plot (hl_start_dt hl_end_dt : datetime)
    (output_dir : string) (show_highlight : bool)
    (item : string * daily_series) : list call :=
  let '(country, data_dict) := item in
  match fechas data_dict, raw_commits data_dict with
  | [], _ | _, [] =>
      [PrintLine ("No hay datos de commits para graficar de "
                  +:+ country +:+ ".")]
  | _, x :: l =>
      let local_max_value := py_max Z.gtb x l in
      let output_file := path_join output_dir (country +:+ "_commits_raw.png") in
      [Subplots;
       Plot (fechas data_dict) (float_of_int <$> raw_commits data_dict)]
      ++ highlight show_highlight hl_start_dt hl_end_dt
      ++ [SetYlim (float_of_int 0) (ylim_top_int local_max_value);
          Savefig output_file;
          Close;
          PrintLine ("Figura guardada como: " +:+ output_file)]
  end.

(** Lines 352-357: the series drawn on the comparative figure, and
    [has_data]. *)
Definition raw_comparative_series (all_data : list (string * daily_series))
  : list call * bool :=
  foldl (fun '(cs, has_data) '(country, data_dict) =>
           match fechas data_dict, raw_commits data_dict with
           | [], _ | _, [] => (cs, has_data)
           | _, _ =>
               (cs ++ [Plot (fechas data_dict)
                         (float_of_int <$> raw_commits data_dict)],
                true)
           end)
        ([], false) all_data.

(** Lines 349-389. *)
Definition raw_comparative_plot (all_data : list (string * daily_series))
    (hl_start_dt hl_end_dt : datetime) (max_commits_overall : Z)
    (output_dir : string) (show_highlight : bool) : list call :=
  let '(series, has_data) := raw_comparative_series all_data in
  [Subplots] ++ series
  ++ (if has_data then
        let output_file := path_join output_dir "comparacion_commits_raw.png" in
        highlight show_highlight hl_start_dt hl_end_dt
        ++ [SetYlim (float_of_int 0) (ylim_top_int max_commits_overall);
            Savefig output_file;
            PrintLine ("Figura comparativa guardada como: " +:+ output_file)]
      else
        [PrintLine
           "No hay datos para la gráfica comparativa después del filtrado."])
  ++ [Close].

Definition plot_daily_raw_activity (w : world) (countries : list string)
    (highlight_start highlight_end output_dir : string)
    (show_highlight : bool) : outcome * world :=
  match strptime_ymd highlight_start with
  | Raise e => (([Makedirs output_dir], Raise e), w)
  | Ok hl_start_dt =>
      match strptime_ymd highlight_end with
      | Raise e => (([Makedirs output_dir], Raise e), w)
      | Ok hl_end_dt =>
          let '(all_data, max_commits_overall, _, w') :=
            load_raw_countries w countries in
          (([Makedirs output_dir]
            ++ concat (raw_individual_plot hl_start_dt hl_end_dt output_dir
                         show_highlight <$> all_data)
            ++ raw_comparative_plot all_data hl_start_dt hl_end_dt
                 max_commits_overall output_dir show_highlight,
            Ok tt), w')
      end
  end.

(** *** [plot_daily_activity] and its two helpers *)

(** The numeric columns of a daily series, by the key of the dict. *)
Inductive daily_column : Type :=
  | commits_rolling_avg_key
  | users_rolling_avg_key
  | raw_commits_key
  | raw_users_key.

Definition daily_column_name (data_key : daily_column) : string :=
  match data_key with
  | commits_rolling_avg_key => "commits_rolling_avg"
  | users_rolling_avg_key => "users_rolling_avg"
  | raw_commits_key => "raw_commits"
  | raw_users_key => "raw_users"
  end.

(** [data_dict[data_key]] *)
Definition daily_column_of (data_dict : daily_series) (data_key : daily_column)
  : list pyfloat :=
  match data_key with
  | commits_rolling_avg_key => commits_rolling_avg data_dict
  | users_rolling_avg_key => users_rolling_avg data_dict
  | raw_commits_key => float_of_int <$> raw_commits data_dict
  | raw_users_key => float_of_int <$> raw_users data_dict
  end.

(** Lines 562-607, for one country. *)
Definition create_individual_plot (hl_start_dt hl_end_dt : datetime)
    (data_key : daily_column) (filename_suffix output_dir : string)
    (show_highlight : bool) (item : string * daily_series) : list call :=
  let '(country, data_dict) := item in
  match fechas data_dict, daily_column_of data_dict data_key with
  | [], _ | _, [] =>
      [PrintLine ("No hay datos de " +:+ daily_column_name data_key
                  +:+ " para graficar de " +:+ country
                  +:+ " después del filtrado.")]
  | _, x :: l =>
      let local_max_value := py_max float_gt x l in
      let output_file :=
        path_join output_dir (country +:+ "_" +:+ filename_suffix +:+ ".png") in
      [Subplots; Plot (fechas data_dict) (daily_column_of data_dict data_key)]
      ++ highlight show_highlight hl_start_dt hl_end_dt
      ++ [SetYlim (float_of_int 0) (ylim_top local_max_value);
          Savefig output_file;
          Close;
          PrintLine ("Figura guardada como: " +:+ output_file)]
  end.

Definition create_individual_plots (all_data : list (string * daily_series))
    (hl_start_dt hl_end_dt : datetime) (data_key : daily_column)
    (filename_suffix output_dir : string) (show_highlight : bool)
  : list call :=
  concat (create_individual_plot hl_start_dt hl_end_dt data_key
            filename_suffix output_dir show_highlight <$> all_data).

(** Lines 615-625: the series drawn on the comparative figure, and
    [has_data]. *)
Definition comparative_series (all_data : list (string * daily_series))
    (data_key : daily_column) : list call * bool :=
  foldl (fun '(cs, has_data) '(country, data_dict) =>
           match fechas data_dict, daily_column_of data_dict data_key with
           | [], _ | _, [] => (cs, has_data)
           | _, _ =>
               (cs ++ [Plot (fechas data_dict)
                         (daily_column_of data_dict data_key)],
                true)
           end)
        ([], false) all_data.

Definition create_comparative_plot (all_data : list (string * daily_series))
    (hl_start_dt hl_end_dt : datetime) (data_key : daily_column)
    (max_value : pyfloat) (filename output_dir : string)
    (show_highlight : bool) : list call :=
  let '(series, has_data) := comparative_series all_data data_key in
  [Subplots] ++ series
  ++ (if has_data then
        let output_file := path_join output_dir (filename +:+ ".png") in
        highlight show_highlight hl_start_dt hl_end_dt
        ++ [SetYlim (float_of_int 0) (ylim_top max_value);
            Savefig output_file;
            PrintLine ("Figura comparativa guardada como: " +:+ output_file)]
      else
        [PrintLine ("No hay datos para la gráfica comparativa " +:+ filename
                    +:+ " después del filtrado.")])
  ++ [Close].

(** Lines 214-231: one country of the loading loop. *)
Definition load_daily_country (window_size : Z)
    (st : list (string * daily_series) * pyfloat * pyfloat * world)
    (country : string)
  : list (string * daily_series) * pyfloat * pyfloat * world :=
  let '(all_data, max_commits_overall_comparative,
        max_users_overall_comparative, w) := st in
  let json_file := path_join data_dir (country +:+ "_data.json") in
  let '(country_data, w') := load_and_process_data w json_file window_size in
  let all_data := dict_set country country_data all_data in
  let max_commits_overall_comparative :=
    match commits_rolling_avg country_data with
    | [] => max_commits_overall_comparative
    | x :: l =>
        py_max float_gt max_commits_overall_comparative [py_max float_gt x l]
    end in
  let max_users_overall_comparative :=
    match users_rolling_avg country_data with
    | [] => max_users_overall_comparative
    | x :: l =>
        py_max float_gt max_users_overall_comparative [py_max float_gt x l]
    end in
  (all_data, max_commits_overall_comparative,
   max_users_overall_comparative, w').

Definition plot_daily_activity (w : world) (countries : list string)
    (highlight_start highlight_end : string) (window_size : Z)
    (output_dir : string) (show_highlight : bool) : outcome * world :=
  match strptime_ymd highlight_start with
  | Raise e => (([Makedirs output_dir], Raise e), w)
  | Ok hl_start_dt =>
      match strptime_ymd highlight_end with
      | Raise e => (([Makedirs output_dir], Raise e), w)
      | Ok hl_end_dt =>
          let '(all_data, max_commits_overall_comparative, _, w') :=
            foldl (load_daily_country window_size)
              ([], float_of_int 0, float_of_int 0, w) countries in
          (([Makedirs output_dir]
            ++ create_individual_plots all_data hl_start_dt hl_end_dt
                 commits_rolling_avg_key "commits_diarios" output_dir
                 show_highlight
            ++ create_comparative_plot all_data hl_start_dt hl_end_dt
                 commits_rolling_avg_key max_commits_overall_comparative
                 "comparacion_commits_diarios" output_dir show_highlight,
            Ok tt), w')
      end
  end.

(** *** [plot_percentage_change] *)

(** Lines 412-455: one country of the loading loop.  The changes are
    those of [percentage_change]; the limits follow them down and up. *)
Definition load_pct_country (window_size : Z)
    (st : list (string * pct_series) * pyfloat * pyfloat * list call * world)
    (country : string)
  : list (string * pct_series) * pyfloat * pyfloat * list call * world
    * result unit :=
  let '(all_data, min_pct_change, max_pct_change, printed, w) := st in
  let json_file := path_join data_dir (country +:+ "_data.json") in
  let '(country_data, w') := load_and_process_data w json_file window_size in
  match fechas country_data, commits_rolling_avg country_data with
  | [], _ | _, [] =>
      (dict_set country (mk_pct [] []) all_data,
       min_pct_change, max_pct_change,
       printed ++ [PrintLine ("No hay suficientes datos para " +:+ country
                              +:+ " después del filtrado.")],
       w', Ok tt)
  | _, _ =>
      match percentage_change country_data with
      | Raise e =>
          (all_data, min_pct_change, max_pct_change, printed, w', Raise e)
      | Ok r =>
          let all_data := dict_set country r all_data in
          match pct_change r with
          | [] =>
              (all_data, min_pct_change, max_pct_change, printed, w', Ok tt)
          | x :: l =>
              let current_min := py_min float_lt x l in
              let current_max := py_max float_gt x l in
              (all_data,
               py_min float_lt min_pct_change [current_min],
               py_max float_gt max_pct_change [current_max],
               printed, w', Ok tt)
          end
      end
  end.

Fixpoint load_pct_countries (window_size : Z) (countries : list string)
    (st : list (string * pct_series) * pyfloat * pyfloat * list call * world)
  : list (string * pct_series) * pyfloat * pyfloat * list call * world
    * result unit :=
  match countries with
  | [] => (st, Ok tt)
  | country :: rest =>
      match load_pct_country window_size st country with
      | (st', Ok _) => load_pct_countries window_size rest st'
      | (st', Raise e) => (st', Raise e)
      end
  end.

(** Lines 458-506, for one country.  When [set_ylim] raises, the figure
    is neither saved nor closed. *)
Definition pct_individual_plot (hl_start_dt hl_end_dt : datetime)
    (output_dir : string) (show_highlight : bool)
    (item : string * pct_series) : outcome :=
  let '(country, data_dict) := item in
  match fechas_pct data_dict, pct_change data_dict with
  | [], _ | _, [] => ([], Ok tt)
  | _, x :: l =>
      let buffer := float_of_int 10 in
      let y_min := float_sub (py_min float_lt x l) buffer in
      let y_max := float_add (py_max float_gt x l) buffer in
      let output_file :=
        path_join output_dir (country +:+ "_cambio_porcentual.png") in
      and_then
        ([Subplots; Plot (fechas_pct data_dict) (pct_change data_dict);
          Axhline]
         ++ highlight show_highlight hl_start_dt hl_end_dt, Ok tt)
        (and_then (set_ylim y_min y_max)
           ([Savefig output_file;
             Close;
             PrintLine ("Figura guardada como: " +:+ output_file)], Ok tt))
  end.

Definition pct_comparative_series (all_data : list (string * pct_series))
  : list call * bool :=
  foldl (fun '(cs, has_data) '(country, data_dict) =>
           match fechas_pct data_dict, pct_change data_dict with
           | [], _ | _, [] => (cs, has_data)
           | _, _ =>
               (cs ++ [Plot (fechas_pct data_dict) (pct_change data_dict)],
                true)
           end)
        ([], false) all_data.

(** Lines 509-558. *)
Definition pct_comparative_plot (all_data : list (string * pct_series))
    (hl_start_dt hl_end_dt : datetime) (min_pct_change max_pct_change : pyfloat)
    (output_dir : string) (show_highlight : bool) : outcome :=
  let '(series, has_data) := pct_comparative_series all_data in
  and_then ([Subplots] ++ series, Ok tt)
    (and_then
       (if has_data then
          let buffer := float_of_int 10 in
          let output_file :=
            path_join output_dir "comparacion_cambio_porcentual.png" in
          and_then
            ([Axhline] ++ highlight show_highlight hl_start_dt hl_end_dt,
             Ok tt)
            (and_then
               (set_ylim (float_sub min_pct_change buffer)
                         (float_add max_pct_change buffer))
               ([Savefig output_file;
                 PrintLine ("Figura comparativa guardada como: "
                            +:+ output_file)], Ok tt))
        else
          ([PrintLine
              "No hay datos para la gráfica comparativa de cambio porcentual."],
           Ok tt))
       ([Close], Ok tt)).

Definition plot_percentage_change (w : world) (countries : list string)
    (highlight_start highlight_end : string) (window_size : Z)
    (show_highlight : bool) (output_dir : string) : outcome * world :=
  match strptime_ymd highlight_start with
  | Raise e => (([Makedirs output_dir], Raise e), w)
  | Ok hl_start_dt =>
      match strptime_ymd highlight_end with
      | Raise e => (([Makedirs output_dir], Raise e), w)
      | Ok hl_end_dt =>
          match load_pct_countries window_size countries
                  ([], float_of_int 0, float_of_int 0, [], w) with
          | (_, _, _, printed, w', Raise e) =>
              (([Makedirs output_dir] ++ printed, Raise e), w')
          | (all_data, min_pct_change, max_pct_change, printed, w', Ok _) =>
              (and_then ([Makedirs output_dir] ++ printed, Ok tt)
                 (and_then
                    (for_each_call
                       (pct_individual_plot hl_start_dt hl_end_dt output_dir
                          show_highlight)
                       all_data)
                    (pct_comparative_plot all_data hl_start_dt hl_end_dt
                       min_pct_change max_pct_change output_dir
                       show_highlight)),
               w')
          end
      end
  end.

(** *** [plot_weekly_activity] and its two helpers *)

(** The numeric columns of a weekly series, by the key of the dict. *)
Inductive weekly_column : Type :=
  | commits_key
  | active_users_key.

Definition weekly_column_name (data_key : weekly_column) : string :=
  match data_key with
  | commits_key => "commits"
  | active_users_key => "active_users"
  end.

Definition weekly_column_of (data_dict : weekly_series)
    (data_key : weekly_column) : list Z :=
  match data_key with
  | commits_key => week_commits data_dict
  | active_users_key => week_users data_dict
  end.

(** [d + timedelta(days=n)] *)
Definition add_days (n : nat) (d : datetime) : result datetime :=
  Nat.iter n (fun r => r ≫= add_one_day) (Ok d).

(** Lines 801-805: the positions of the week labels from
    [highlight_week_start] to [highlight_week_end], compared as strings. *)
Definition highlight_indices (week_labels : list string)
    (highlight_week_start highlight_week_end : string) : list nat :=
  (fun p : nat * string => p.1)
  <$> filter (fun p : nat * string =>
                String.le highlight_week_start p.2
                ∧ String.le p.2 highlight_week_end)
        (imap (fun i week_label => (i, week_label)) week_labels).

(** Lines 807-813: the span to shade, if there is one. *)
Definition weekly_span (data_dict : weekly_series)
    (highlight_week_start highlight_week_end : string)
  : result (option (datetime * datetime)) :=
  match highlight_indices (week_labels data_dict)
          highlight_week_start highlight_week_end with
  | [] => Ok None
  | i :: rest =>
      match week_dates data_dict with
      | [] => Ok None
      | _ =>
          if (default i (last rest) <? length (week_dates data_dict))%nat then
            let min_idx := py_min Nat.ltb i rest in
            let max_idx := py_max (fun a b => Nat.ltb b a) i rest in
            if (min_idx <? length (week_dates data_dict))%nat then
              start_date_span ← index (week_dates data_dict) min_idx;
              last_week ← index (week_dates data_dict) max_idx;
              end_date_span ← add_days 7 last_week;
              Ok (Some (start_date_span, end_date_span))
            else Ok None
          else Ok None
      end
  end.

Definition shade (span : result (option (datetime * datetime))) : outcome :=
  match span with
  | Ok (Some (start_date_span, end_date_span)) =>
      ([Axvspan start_date_span end_date_span], Ok tt)
  | Ok None => ([], Ok tt)
  | Raise e => ([], Raise e)
  end.

(** Lines 782-836, for one country. *)
Definition create_weekly_individual_plot
    (highlight_week_start highlight_week_end : string)
    (data_key : weekly_column) (filename_suffix output_dir : string)
    (show_highlight : bool) (item : string * weekly_series) : outcome :=
  let '(country, data_dict) := item in
  match week_dates data_dict, weekly_column_of data_dict data_key with
  | [], _ | _, [] =>
      ([PrintLine ("No hay datos de " +:+ weekly_column_name data_key
                   +:+ " semanales para graficar de " +:+ country
                   +:+ " después del filtrado.")], Ok tt)
  | _, x :: l =>
      let local_max_value := py_max Z.gtb x l in
      let output_file :=
        path_join output_dir (country +:+ "_" +:+ filename_suffix +:+ ".png") in
      and_then
        ([Subplots;
          Plot (week_dates data_dict)
            (float_of_int <$> weekly_column_of data_dict data_key)], Ok tt)
        (and_then
           (if show_highlight
            then shade (weekly_span data_dict
                          highlight_week_start highlight_week_end)
            else ([], Ok tt))
           ([SetYlim (float_of_int 0) (ylim_top_int local_max_value);
             Savefig output_file;
             Close;
             PrintLine ("Figura guardada como: " +:+ output_file)], Ok tt))
  end.

Definition create_weekly_individual_plots
    (all_data : list (string * weekly_series))
    (highlight_week_start highlight_week_end : string)
    (data_key : weekly_column) (filename_suffix output_dir : string)
    (show_highlight : bool) : outcome :=
  for_each_call
    (create_weekly_individual_plot highlight_week_start highlight_week_end
       data_key filename_suffix output_dir show_highlight)
    all_data.

Definition weekly_comparative_series
    (all_data : list (string * weekly_series)) (data_key : weekly_column)
  : list call * bool :=
  foldl (fun '(cs, has_data) '(country, data_dict) =>
           match week_dates data_dict, weekly_column_of data_dict data_key with
           | [], _ | _, [] => (cs, has_data)
           | _, _ =>
               (cs ++ [Plot (week_dates data_dict)
                         (float_of_int <$> weekly_column_of data_dict data_key)],
                true)
           end)
        ([], false) all_data.

(** Lines 842-897. *)
Definition create_weekly_comparative_plot
    (all_data : list (string * weekly_series))
    (highlight_week_start highlight_week_end : string)
    (data_key : weekly_column) (max_value : Z) (filename : string)
    (ref_country_data : option weekly_series) (output_dir : string)
    (show_highlight : bool) : outcome :=
  let '(series, has_data) := weekly_comparative_series all_data data_key in
  and_then ([Subplots] ++ series, Ok tt)
    (if has_data then
       let output_file := path_join output_dir (filename +:+ ".png") in
       and_then
         (match show_highlight, ref_country_data with
          | true, Some ref =>
              shade (weekly_span ref highlight_week_start highlight_week_end)
          | _, _ => ([], Ok tt)
          end)
         ([SetYlim (float_of_int 0) (ylim_top_int max_value);
           Savefig output_file;
           PrintLine ("Figura comparativa guardada como: " +:+ output_file);
           Close], Ok tt)
     else
       ([PrintLine ("No hay datos para la gráfica comparativa " +:+ filename
                    +:+ " después del filtrado.");
         Close], Ok tt)).

(** Lines 688-705: one country of the loading loop. *)
Definition load_weekly_country
    (st : list (string * weekly_series) * Z * Z * world) (country : string)
  : list (string * weekly_series) * Z * Z * world :=
  let '(all_data, max_commits_overall_comparative,
        max_users_overall_comparative, w) := st in
  let json_file := path_join data_dir (country +:+ "_data.json") in
  let '(country_data, w') := calculate_weekly_data w json_file in
  let all_data := dict_set country country_data all_data in
  let max_commits_overall_comparative :=
    match week_commits country_data with
    | [] => max_commits_overall_comparative
    | x :: l =>
        py_max Z.gtb max_commits_overall_comparative [py_max Z.gtb x l]
    end in
  let max_users_overall_comparative :=
    match week_users country_data with
    | [] => max_users_overall_comparative
    | x :: l => py_max Z.gtb max_users_overall_comparative [py_max Z.gtb x l]
    end in
  (all_data, max_commits_overall_comparative,
   max_users_overall_comparative, w').

(** Lines 738-742: the first country with week labels and dates. *)
Fixpoint ref_country_data_for_span (all_data : list (string * weekly_series))
  : option weekly_series :=
  match all_data with
  | [] => None
  | (country, data_dict) :: rest =>
      match week_labels data_dict, week_dates data_dict with
      | [], _ | _, [] => ref_country_data_for_span rest
      | _, _ => Some data_dict
      end
  end.

Definition plot_weekly_activity (w : world) (countries : list string)
    (highlight_week_start highlight_week_end output_dir : string)
    (show_highlight : bool) : outcome * world :=
  let '(all_data, max_commits_overall_comparative,
        max_users_overall_comparative, w') :=
    foldl load_weekly_country ([], 0, 0, w) countries in
  let ref := ref_country_data_for_span all_data in
  (and_then ([Makedirs output_dir], Ok tt)
     (and_then
        (create_weekly_individual_plots all_data highlight_week_start
           highlight_week_end commits_key "commits_semanales" output_dir
           show_highlight)
        (and_then
           (create_weekly_individual_plots all_data highlight_week_start
              highlight_week_end active_users_key "usuarios_semanales"
              output_dir show_highlight)
           (and_then
              (create_weekly_comparative_plot all_data highlight_week_start
                 highlight_week_end commits_key
                 max_commits_overall_comparative
                 "comparacion_commits_semanales" ref output_dir show_highlight)
              (create_weekly_comparative_plot all_data highlight_week_start
                 highlight_week_end active_users_key
                 max_users_overall_comparative
                 "comparacion_usuarios_semanales" ref output_dir
                 show_highlight)))),
   w').

(** *** The script *)

(** A plotting function run after what came before, unless that raised. *)
Definition run_then (before : outcome * world)
    (f : world → outcome * world) : outcome * world :=
  match before with
  | ((cs, Ok _), w) => let '(o, w') := f w in ((cs ++ o.1, o.2), w')
  | ((cs, Raise e), w) => ((cs, Raise e), w)
  end.

Definition countries_list : list string := ["Bangladesh"; "India"; "Philippines"].

(** Lines 900-962. *)
Definition main (w : world) : outcome * world :=
  let highlight_start_date := "2024-07-17" in
  let highlight_end_date := "2024-07-24" in
  let highlight_week_start_label := "2024-W29" in
  let highlight_week_end_label := "2024-W30" in
  let output_plots_dir := "output_modified" in
  let sin_sombra_dir := path_join output_plots_dir "sin_sombreado" in
  let nl := String "010" "" in
  run_then
    (run_then
       (run_then
          (run_then
             (run_then
                (([Makedirs output_plots_dir;
                   PrintLine
                     "Generando gráficas de actividad diaria (datos crudos)..."],
                  Ok tt), w)
                (fun w =>
                   plot_daily_raw_activity w countries_list
                     highlight_start_date highlight_end_date
                     output_plots_dir true))
             (fun w =>
                run_then
                  (([PrintLine
                       (nl +:+ "Generando gráficas de actividad diaria con promedios móviles...")],
                    Ok tt), w)
                  (fun w =>
                     plot_daily_activity w countries_list highlight_start_date
                       highlight_end_date 7 output_plots_dir true)))
          (fun w =>
             run_then
               (([Makedirs sin_sombra_dir;
                  PrintLine
                    (nl +:+ "Generando gráficas de actividad diaria sin área sombreada...")],
                 Ok tt), w)
               (fun w =>
                  plot_daily_activity w countries_list highlight_start_date
                    highlight_end_date 7 sin_sombra_dir false)))
       (fun w =>
          run_then
            (([PrintLine (nl +:+ "Generando gráficas de cambio porcentual...")],
              Ok tt), w)
            (fun w =>
               plot_percentage_change w countries_list highlight_start_date
                 highlight_end_date 7 true output_plots_dir)))
    (fun w =>
       run_then
         (([PrintLine (nl +:+ "Generando gráficas de actividad semanal...")],
           Ok tt), w)
         (fun w =>
            plot_weekly_activity w countries_list highlight_week_start_label
              highlight_week_end_label output_plots_dir true)).

(* ================================================================== *)
(** * Vocabulary of the properties

    What the statements below are written with: the window of a rolling
    average, the records of an input and their tally, canonical date
    keys, worlds with the same input, and a few worked inputs. *)

(** The elements at indices [max(0, i-w+1) .. i] of [l]. *)
Definition window_at (l : list Q) (w : Z) (i : nat) : list Q :=
  let lo := Z.to_nat (Z.max 0 (Z.of_nat i - w + 1)) in
  take (S i - lo) (drop lo l).

#[global] Instance datetime_inhabited : Inhabited datetime :=
  populate (mk_date 1 1 1).
#[global] Instance pyfloat_inhabited : Inhabited pyfloat := populate NaN.

(** [c in s] *)
Fixpoint has_char (c : ascii) (s : string) : bool :=
  match s with
  | "" => false
  | String x s' => is_char c x || has_char c s'
  end.

(** The records of an input as (key, user, count) triples, in the order
    the loops visit them, and the tables they add up to. *)
Definition triple : Type := string * string * Z.

(** The tables after the records [recs], starting from [t]. *)
Definition tally (recs : list triple) (t : tables) : tables :=
  foldl (fun t '(k, u, n) => accumulate k u n t) t recs.

(** The counts recorded under key [k], and the sum of a list of counts. *)
Definition counts_for (k : string) (recs : list triple) : list Z :=
  (fun r : triple => r.2) <$> filter (fun r : triple => r.1.1 = k) recs.

Definition sum_Z (l : list Z) : Z := foldr Z.add 0 l.

(** With counts that are never negative, a key has at most as many active
    users as commits: a user enters the set with a count of at least 1. *)
Definition users_le_commits (t : tables) : Prop :=
  ∀ k, active_at t k ≤ commits_at t k.

(** Both builders run the same pair of loops; they differ in the key a
    date string is filed under. *)
Section aggregation.
Variable key_of : string → result string.

Definition add_record (user_id : string) (rec : string * json)
    (t : tables) : result tables :=
  k ← key_of rec.1;
  n ← int_of_json rec.2;
  Ok (accumulate k user_id n t).

Definition add_user (u : string * json) (t : tables) : result tables :=
  dc ← get_daily_commits u.2;
  recs ← py_items dc;
  for_each (add_record u.1) recs t.

Definition aggregate (data : json) : result tables :=
  users ← py_items data;
  for_each add_user users no_tables.

Definition record_triple (user_id : string) (rec : string * json)
  : result triple :=
  k ← key_of rec.1;
  n ← int_of_json rec.2;
  Ok (k, user_id, n).

Definition user_triples (u : string * json) : result (list triple) :=
  dc ← get_daily_commits u.2;
  recs ← py_items dc;
  map_result (record_triple u.1) recs.

(** Every (key, user, count) of the input, or the first exception. *)
Definition triples (data : json) : result (list triple) :=
  users ← py_items data;
  trss ← map_result user_triples users;
  Ok (concat trss).

End aggregation.

(** The date string itself is the daily key; it has to parse. *)
Definition daily_key (fecha_str : string) : result string :=
  _ ← strptime_ymd fecha_str; Ok fecha_str.

(** The weekly key is the ISO week label of the date. *)
Definition weekly_key (fecha_str : string) : result string :=
  date_obj ← strptime_ymd fecha_str; Ok (week_key_of date_obj).

(** The days of a year, and the last date a [datetime] can hold. *)
Definition year_length (y : Z) : Z := if is_leap y then 366 else 365.

Definition MAXDATE : datetime := mk_date MAXYEAR 12 31.

(** The character of a decimal digit; two digits in front of [rest]. *)
Definition digit_char (n : Z) : ascii := ascii_of_N (Z.to_N (48 + n)).

Definition two_digits_then (n : Z) (rest : string) : string :=
  String (digit_char (n / 10)) (String (digit_char (n mod 10)) rest).

Fixpoint all_digits (s : string) : bool :=
  match s with
  | "" => true
  | String c s' => is_digit c && all_digits s'
  end.

(** The four characters of a year, then the rest. *)
Definition year_chars_then (c1 c2 c3 c4 : ascii) (rest : string) : string :=
  String c1 (String c2 (String c3 (String c4 rest))).

Definition year_of_chars (c1 c2 c3 c4 : ascii) : Z :=
  1000 * digit_val c1 + 100 * digit_val c2 + 10 * digit_val c3 + digit_val c4.

(** A key in canonical form: four year digits and the two-digit month and
    day of the date [d]. *)
Definition key_form (k : string) (d : datetime) : Prop :=
  ∃ c1 c2 c3 c4 : ascii,
    is_digit c1 && is_digit c2 && is_digit c3 && is_digit c4 = true
    ∧ year d = year_of_chars c1 c2 c3 c4
    ∧ k = year_chars_then c1 c2 c3 c4
            (String "-" (two_digits_then (month d)
               (String "-" (two_digits_then (day d) "")))).

(** A key is canonical when it is a date written the way the program
    itself writes dates. *)
Definition canonical (pads : bool) (k : string) : bool :=
  match strptime_ymd k with
  | Ok d => bool_decide (strftime_ymd pads d = k)
  | Raise _ => false
  end.

(** The rolling averages are those of the raw columns. *)
Definition rolled (window_size : Z) (r : daily_series) : Prop :=
  commits_rolling_avg r
  = calculate_rolling_average (inject_Z <$> raw_commits r) window_size
  ∧ users_rolling_avg r
    = calculate_rolling_average (inject_Z <$> raw_users r) window_size.

(** The input's counts are non-negative integers. *)
Definition count_nonneg (cnt : json) : bool :=
  match cnt with
  | JInt n => 0 <=? n
  | _ => false
  end.

Definition user_counts_nonneg (stats : json) : bool :=
  match get_daily_commits stats with
  | Ok (JObj recs) => forallb (fun rec : string * json => count_nonneg rec.2) recs
  | _ => true
  end.

Definition counts_nonneg (data : json) : bool :=
  match data with
  | JObj users => forallb (fun u : string * json => user_counts_nonneg u.2) users
  | _ => true
  end.

(** Two worlds offer a run the same input when they hold the same files
    on the same platform; what was printed before does not count. *)
Definition same_input (w1 w2 : world) : Prop :=
  files w1 = files w2 ∧ pads_year w1 = pads_year w2.

(** The date a key parses to. *)
Definition date_of_key (k : string) : datetime :=
  match strptime_ymd k with
  | Ok d => d
  | Raise _ => inhabitant
  end.

(** A world with one file in it. *)
Definition single_file (path : string) (j : json) (pads : bool) : world :=
  mk_world (fun p => if decide (p = path) then Parsed j else Missing) pads [].

(** The number of users with a positive count under key [k]. *)
Definition active_for (k : string) (recs : list triple) : Z :=
  active_at (tally recs no_tables) k.

(** One user, 3 commits on 2024-01-01 and 2 on 2024-01-03. *)
Definition two_days : json :=
  JObj [("alice", JObj [("daily_commits",
          JObj [("2024-01-01", JInt 3); ("2024-01-03", JInt 2)])])].

(** The same, and a second user with a count of 0 on the day between. *)
Definition two_days_and_zero : json :=
  JObj [("alice", JObj [("daily_commits",
          JObj [("2024-01-01", JInt 3); ("2024-01-03", JInt 2)])]);
        ("bob", JObj [("daily_commits", JObj [("2024-01-02", JInt 0)])])].

(** Commits on the last two dates a [datetime] can hold. *)
Definition last_two_days : json :=
  JObj [("alice", JObj [("daily_commits",
          JObj [("9999-12-30", JInt 3); ("9999-12-31", JInt 2)])])].

(** One user, one day, 3 commits; and the same day with a count of 0. *)
Definition one_day : json :=
  JObj [("alice", JObj [("daily_commits", JObj [("2024-01-01", JInt 3)])])].
Definition one_day_zero : json :=
  JObj [("alice", JObj [("daily_commits", JObj [("2024-01-01", JInt 0)])])].

(** Commits on two days of the year 999. *)
Definition early_days : json :=
  JObj [("alice", JObj [("daily_commits",
          JObj [("0999-12-30", JInt 3); ("0999-12-31", JInt 2)])])].

(** The tables of a successful aggregation. *)
Definition tables_of (r : result tables) : tables :=
  match r with
  | Ok t => t
  | Raise _ => no_tables
  end.

(** The five columns of a daily series have one entry per date. *)
Definition aligned (r : daily_series) : Prop :=
  length (raw_commits r) = length (fechas r)
  ∧ length (raw_users r) = length (fechas r)
  ∧ length (commits_rolling_avg r) = length (fechas r)
  ∧ length (users_rolling_avg r) = length (fechas r).

(** A float that is a number of at least [lo], at most [hi]. *)
Definition float_ge (lo : Q) (y : pyfloat) : Prop :=
  ∃ q : Q, y = Num q ∧ (lo <= q)%Q.
Definition float_le (hi : Q) (y : pyfloat) : Prop :=
  ∃ q : Q, y = Num q ∧ (q <= hi)%Q.

(** The records of [two_days], the later day first. *)
Definition two_days_reversed : json :=
  JObj [("alice", JObj [("daily_commits",
          JObj [("2024-01-03", JInt 2); ("2024-01-01", JInt 3)])])].

(** Two users; one record of the second names the 30th of February. *)
Definition one_bad_date : json :=
  JObj [("alice", JObj [("daily_commits",
          JObj [("2024-01-01", JInt 3); ("2024-01-03", JInt 2)])]);
        ("bob", JObj [("daily_commits",
          JObj [("2024-02-29", JInt 1); ("2024-02-30", JInt 4)])])].

(** A user without a [daily_commits] member. *)
Definition no_commits : json :=
  JObj [("alice", JObj [("login", JStr "alice")])].

(** The input has users, and none of them a single record. *)
Definition without_records (data : json) : Prop :=
  ∃ users : list (string * json),
    data = JObj users
    ∧ Forall (fun u : string * json => get_daily_commits u.2 = Ok (JObj []))
        users.

(** The number of whole Monday-to-Sunday weeks before the week of a date:
    day 1, 0001-01-01, is a Monday. *)
Definition week_index (d : datetime) : Z := (toordinal d - 1) / 7.

(** Lines 163-165: the year and the week number read back from a week
    label, [year_str, week_str = week.split("-W")] and the two [int]s. *)
Definition parse_week_key (week_key : string) : result (Z * Z) :=
  match py_split "-W" week_key with
  | [year_str; week_str] =>
      y ← py_int year_str;
      week_num ← py_int week_str;
      Ok (y, week_num)
  | _ => Raise ValueError
  end.

(** The records of the input by date, with the date of each. *)
Definition in_week_of (d : datetime) (r : triple) : Prop :=
  week_index (date_of_key r.1.1) = week_index d.

#[global] Instance in_week_of_dec (d : datetime) (r : triple) :
  Decision (in_week_of d r).
Proof. unfold in_week_of. apply _. Defined.

(** One user with commits on a Sunday, the Monday after it and the Sunday
    after that, and a second user on that Monday. *)
Definition across_weeks : json :=
  JObj [("alice", JObj [("daily_commits",
          JObj [("2024-07-14", JInt 1); ("2024-07-15", JInt 2);
                ("2024-07-21", JInt 4)])]);
        ("bob", JObj [("daily_commits", JObj [("2024-07-15", JInt 8)])])].

(** A record filed by day, filed by week. *)
Definition to_week (r : triple) : triple :=
  (week_key_of (date_of_key r.1.1), r.1.2, r.2).

(** The files a run of calls saves, in order. *)
Definition saved_files (cs : list call) : list string :=
  omap (fun c => match c with Savefig fname => Some fname | _ => None end) cs.

(** A call that draws nothing and saves nothing. *)
Definition is_notice (c : call) : Prop :=
  match c with
  | Makedirs _ | Subplots | Close | PrintLine _ => True
  | _ => False
  end.

(** The daily series of a country, read in world [w]. *)
Definition country_series (w : world) (window_size : Z) (country : string)
  : daily_series :=
  (load_and_process_data w (country_file country) window_size).1.

Definition has_days (w : world) (window_size : Z) (country : string) : Prop :=
  fechas (country_series w window_size country) ≠ [].

#[global] Instance has_days_dec (w : world) (window_size : Z)
    (country : string) : Decision (has_days w window_size country).
Proof. unfold has_days. apply _. Defined.

(** An entry of [all_data] whose series has dates. *)
Definition with_days (item : string * daily_series) : Prop :=
  fechas item.2 ≠ [].

#[global] Instance with_days_dec (item : string * daily_series) :
  Decision (with_days item).
Proof. unfold with_days. apply _. Defined.

(** A float that is a number. *)
Definition is_num (y : pyfloat) : Prop := ∃ q : Q, y = Num q.

(** The state of the loading loop of [plot_percentage_change]: its two
    limits are numbers around 0 and around every change kept so far. *)
Definition pct_limits_ok
    (st : list (string * pct_series) * pyfloat * pyfloat * list call * world)
  : Prop :=
  ∃ lo hi : Q,
    st.1.1.1.2 = Num lo ∧ st.1.1.2 = Num hi
    ∧ (lo <= 0)%Q ∧ (0 <= hi)%Q
    ∧ Forall (fun item : string * pct_series =>
                Forall (fun y => float_ge lo y ∧ float_le hi y)
                  (pct_change item.2))
        st.1.1.1.1.

(** The percentage changes of a daily series; none if the loop raised. *)
Definition changes_of (country_data : daily_series) : pct_series :=
  match percentage_change country_data with
  | Ok r => r
  | Raise _ => mk_pct [] []
  end.

(** An entry of [all_data] with at least one change. *)
Definition with_changes (item : string * pct_series) : Prop :=
  pct_change item.2 ≠ [].

#[global] Instance with_changes_dec (item : string * pct_series) :
  Decision (with_changes item).
Proof. unfold with_changes. apply _. Defined.

(** The country's series has at least two days. *)
Definition has_two_days (w : world) (window_size : Z) (country : string)
  : Prop :=
  (2 ≤ length (fechas (country_series w window_size country)))%nat.

#[global] Instance has_two_days_dec (w : world) (window_size : Z)
    (country : string) : Decision (has_two_days w window_size country).
Proof. unfold has_two_days. apply _. Defined.

(** India with activity on two days, two days apart; Bangladesh with
    one day of activity. *)
Definition india_and_bangladesh : world :=
  mk_world (fun p => if decide (p = "../data/India_data.json")
                     then Parsed two_days
                     else if decide (p = "../data/Bangladesh_data.json")
                     then Parsed one_day else Missing) true [].

(* ================================================================== *)
(** * Properties *)

(** ** RollingAverage *)

Lemma py_slice_take_drop {A : Type} (l : list A) (a b : Z) :
  (0 ≤ a ≤ b) → b ≤ Z.of_nat (length l) →
  py_slice l a b = take (Z.to_nat b - Z.to_nat a) (drop (Z.to_nat a) l).
Proof.
  intros Hab Hb. unfold py_slice, slice_bound.
  assert ((a <? 0) = false) as -> by lia.
  assert ((b <? 0) = false) as -> by lia.
  f_equal; [lia | f_equal; lia].
Qed.

Lemma py_slice_empty {A : Type} (l : list A) (a b : Z) :
  (0 ≤ b ≤ a) → py_slice l a b = [].
Proof.
  intros Hab. unfold py_slice, slice_bound.
  assert ((a <? 0) = false) as -> by lia.
  assert ((b <? 0) = false) as -> by lia.
  replace (Z.to_nat _) with 0%nat by lia. done.
Qed.

Lemma rolling_average_lookup (l : list Q) (w : Z) (i : nat) :
  1 ≤ w → (i < length l)%nat →
  calculate_rolling_average l w !! i = Some (np_mean (window_at l w i)).
Proof.
  intros Hw Hi. unfold calculate_rolling_average.
  destruct l as [|x l']; [simpl in Hi; lia|].
  set (l := x :: l') in *.
  rewrite list_lookup_fmap, lookup_seq_lt by done. simpl.
  unfold window_at. destruct (Z.ltb_spec (Z.of_nat i) (w - 1)).
  - rewrite py_slice_take_drop by lia.
    replace (Z.max 0 (Z.of_nat i - w + 1)) with 0 by lia.
    replace (Z.to_nat (Z.of_nat i + 1) - Z.to_nat 0)%nat with (S i - Z.to_nat 0)%nat by lia.
    done.
  - rewrite py_slice_take_drop by lia.
    replace (Z.max 0 (Z.of_nat i - w + 1)) with (Z.of_nat i - w + 1) by lia.
    replace (Z.to_nat (Z.of_nat i + 1) - Z.to_nat (Z.of_nat i - w + 1))%nat
      with (S i - Z.to_nat (Z.of_nat i - w + 1))%nat by lia.
    done.
Qed.

Lemma window_at_length (l : list Q) (w : Z) (i : nat) :
  1 ≤ w → (i < length l)%nat →
  length (window_at l w i) = Z.to_nat (Z.min (Z.of_nat i + 1) w).
Proof.
  intros Hw Hi. unfold window_at. rewrite length_take, length_drop. lia.
Qed.

Lemma rolling_average_length (l : list Q) (w : Z) :
  length (calculate_rolling_average l w) = length l.
Proof.
  unfold calculate_rolling_average. destruct l; [done|].
  by rewrite length_fmap, length_seq.
Qed.

(** C2. For a window size [w >= 1], [calculate_rolling_average] returns a
    sequence as long as its input whose entry [i] is the arithmetic mean
    (sum divided by count) of the input elements at indices
    [max(0, i-w+1) .. i]; that window has [i+1] elements while [i < w-1]
    and exactly [w] from then on.  The empty input gives the empty
    sequence; [[1,2,3,4]] with window 2 gives [[1, 1.5, 2.5, 3.5]]; and
    [[5]] gives [[5]] for every [w >= 1]. *)
Theorem rolling_average_is_windowed_mean (l : list Q) (w : Z) :
  1 ≤ w →
  length (calculate_rolling_average l w) = length l
  ∧ (∀ i : nat, (i < length l)%nat →
       ∃ q : Q,
         calculate_rolling_average l w !! i = Some (Num q)
         ∧ (q == Qsum (window_at l w i)
                 / inject_Z (Z.of_nat (length (window_at l w i))))%Q
         ∧ length (window_at l w i)
           = (if Z.of_nat i <? w - 1 then S i else Z.to_nat w))
  ∧ calculate_rolling_average [] w = []
  ∧ calculate_rolling_average [1 # 1; 2 # 1; 3 # 1; 4 # 1]%Q 2
    = [Num (1 # 1); Num (3 # 2); Num (5 # 2); Num (7 # 2)]%Q
  ∧ calculate_rolling_average [5 # 1]%Q w = [Num (5 # 1)%Q].
Proof.
  intros Hw. split; [apply rolling_average_length|].
  split; [|split; [done|split; [done|]]].
  - intros i Hi.
    pose proof (window_at_length l w i Hw Hi) as Hlen.
    rewrite rolling_average_lookup by done.
    destruct (window_at l w i) as [|x win] eqn:Hwin; [simpl in Hlen; lia|].
    eexists. split; [reflexivity|]. split; [apply Qred_correct|].
    rewrite Hlen. destruct (Z.ltb_spec (Z.of_nat i) (w - 1)); lia.
  - unfold calculate_rolling_average.
    change (seq 0 (length [(5 # 1)%Q])) with [0%nat].
    rewrite list_fmap_singleton.
    change (Z.of_nat 0) with 0.
    destruct (0 <? w - 1) eqn:E; [reflexivity|].
    assert (w = 1) as -> by lia. reflexivity.
Qed.

Lemma rolling_average_is_windowed_mean_witness :
  length (calculate_rolling_average [3 # 1; 0 # 1; 2 # 1]%Q 7) = 3%nat.
Proof.
  refine (proj1 (rolling_average_is_windowed_mean [3 # 1; 0 # 1; 2 # 1]%Q 7 _)).
  lia.
Defined.

(** A window size [w <= 0] sends every index to the second branch, whose
    slice is empty. *)
Lemma rolling_average_nonpositive_window (l : list Q) (w : Z) :
  w ≤ 0 → calculate_rolling_average l w = replicate (length l) NaN.
Proof.
  intros Hw. unfold calculate_rolling_average.
  destruct l as [|x l']; [done|].
  set (l := x :: l'). clearbody l.
  apply list_eq. intros i.
  destruct (decide (i < length l)%nat) as [Hi|Hi].
  - rewrite list_lookup_fmap, lookup_seq_lt by done.
    rewrite lookup_replicate_2 by done. simpl.
    assert ((Z.of_nat i <? w - 1) = false) as -> by lia.
    by rewrite py_slice_empty by lia.
  - rewrite !lookup_ge_None_2; [done| |].
    + rewrite length_replicate. lia.
    + rewrite length_fmap, length_seq. lia.
Qed.

(** C5 (as stated, refuted). With window size 0 the call returns a list,
    one [nan] per input element; no exception is raised. *)
Lemma rolling_average_window_zero_returns :
  calculate_rolling_average [1 # 1; 2 # 1]%Q 0 = [NaN; NaN].
Proof. reflexivity. Qed.

(** C5 (amended). For every window size [w <= 0],
    [calculate_rolling_average] raises nothing: it returns the empty
    sequence for the empty input and otherwise one [nan] (the mean of an
    empty slice) per input element. *)
Theorem rolling_average_nonpositive_window_nan (l : list Q) (w : Z) :
  w ≤ 0 →
  calculate_rolling_average l w = replicate (length l) NaN
  ∧ calculate_rolling_average [] w = [].
Proof.
  intros Hw. split; [by apply rolling_average_nonpositive_window | done].
Qed.

Lemma rolling_average_nonpositive_window_nan_witness :
  calculate_rolling_average [4 # 1; 2 # 1; 9 # 1]%Q (-3) = [NaN; NaN; NaN]
  ∧ calculate_rolling_average [] (-3) = [].
Proof. apply (rolling_average_nonpositive_window_nan [4 # 1; 2 # 1; 9 # 1]%Q (-3)). lia. Defined.

(** ** The error monad *)

Lemma map_result_Ok {A B : Type} (f : A → result B) (g : A → B) (l : list A) :
  (∀ x, x ∈ l → f x = Ok (g x)) → map_result f l = Ok (g <$> l).
Proof.
  induction l as [|x l IH]; intros Hf; [done|].
  simpl. rewrite Hf by left. simpl.
  rewrite IH; [done|]. intros y Hy. apply Hf. by right.
Qed.

Lemma map_result_inv {A B : Type} (f : A → result B) (l : list A) (ys : list B) :
  map_result f l = Ok ys → Forall2 (fun x y => f x = Ok y) l ys.
Proof.
  revert ys. induction l as [|x l IH]; intros ys; simpl.
  - intros [= <-]. constructor.
  - destruct (f x) as [y|e] eqn:Hx; [|done]. simpl.
    destruct (map_result f l) as [ys'|e]; [|done]. simpl.
    intros [= <-]. constructor; auto.
Qed.

Lemma map_result_Raise {A B : Type} (f : A → result B) (e : exn) (l : list A) :
  l ≠ [] → (∀ x, f x = Raise e) → map_result f l = Raise e.
Proof. intros Hl Hf. destruct l as [|x l]; [done|]. simpl. by rewrite Hf. Qed.

(** ** PercentageChangeCalculator *)

Lemma day_change_cases (today yesterday : Q) :
  ∃ c : Q,
    day_change (Num today) (Num yesterday) = Num c
    ∧ (¬ (yesterday == 0)%Q →
       (c == (today - yesterday) / yesterday * (100 # 1))%Q)
    ∧ ((yesterday == 0)%Q → (today == 0)%Q → (c == 0)%Q)
    ∧ ((yesterday == 0)%Q → ¬ (today == 0)%Q → (c == 100 # 1)%Q).
Proof.
  unfold day_change, float_nonzero.
  destruct (Qeq_bool yesterday (0 # 1)) eqn:Hy; simpl.
  - apply Qeq_bool_iff in Hy.
    destruct (Qeq_bool today (0 # 1)) eqn:Ht; simpl.
    + apply Qeq_bool_iff in Ht. eexists. repeat split; try done.
    + apply Qeq_bool_neq in Ht. eexists. repeat split; try done.
  - apply Qeq_bool_neq in Hy. eexists. split; [reflexivity|].
    repeat split; try done. intros _.
    rewrite !Qred_correct. reflexivity.
Qed.

Lemma percentage_change_steps (cd : daily_series) :
  length (fechas cd) = length (commits_rolling_avg cd) →
  percentage_change cd
  = Ok (mk_pct (drop 1 (fechas cd))
          ((fun i : nat => day_change (commits_rolling_avg cd !!! S i)
                                      (commits_rolling_avg cd !!! i))
           <$> seq 0 (length (commits_rolling_avg cd) - 1))).
Proof.
  intros Hlen. unfold percentage_change.
  destruct (fechas cd) as [|d ds] eqn:Hf;
    destruct (commits_rolling_avg cd) as [|a avg] eqn:Ha; try done.
  rewrite <- Hf, <- Ha in *.
  assert (length (commits_rolling_avg cd) = S (length avg)) as Hn
    by (by rewrite Ha).
  erewrite (map_result_Ok _
    (fun i : nat => (fechas cd !!! i,
                     day_change (commits_rolling_avg cd !!! i)
                                (commits_rolling_avg cd !!! (i - 1)%nat)))).
  2:{ intros i [Hi1 Hi2]%elem_of_seq. unfold index.
      rewrite !list_lookup_lookup_total_lt by lia. done. }
  simpl. f_equal. f_equal.
  - apply list_eq. intros i.
    rewrite <- list_fmap_compose, list_lookup_fmap, lookup_drop.
    destruct (decide (i < length (commits_rolling_avg cd) - 1)%nat).
    + rewrite lookup_seq_lt by done. simpl.
      rewrite list_lookup_lookup_total_lt by lia. done.
    + rewrite lookup_seq_ge by lia. simpl.
      rewrite lookup_ge_None_2 by lia. done.
  - apply list_eq. intros i.
    rewrite <- list_fmap_compose, !list_lookup_fmap.
    destruct (decide (i < length (commits_rolling_avg cd) - 1)%nat).
    + rewrite !lookup_seq_lt by done. simpl.
      replace (i - 0)%nat with i by lia. done.
    + rewrite !lookup_seq_ge by lia. done.
Qed.

(** C3. For a rolling-average series whose values are aligned with its
    dates, the percentage-change loop raises nothing; its dates are
    [dates[1:]], its changes are one fewer than the values (none when the
    series has fewer than two values), and the change at position [i]
    compares value [i+1] (today) with value [i] (yesterday):
    [(today - yesterday) / yesterday * 100] when yesterday is not 0, 0 when
    both are 0, and 100 when yesterday is 0 and today is not.  Values
    [[0, 0, 5]] give [[0, 100]] and [[4, 2]] give [[-50]]. *)
Theorem percentage_change_policy (cd : daily_series) :
  length (fechas cd) = length (commits_rolling_avg cd) →
  ∃ r : pct_series,
    percentage_change cd = Ok r
    ∧ fechas_pct r = drop 1 (fechas cd)
    ∧ length (pct_change r) = (length (commits_rolling_avg cd) - 1)%nat
    ∧ length (pct_change r) = length (fechas_pct r)
    ∧ ((length (commits_rolling_avg cd) < 2)%nat → r = mk_pct [] [])
    ∧ (∀ (i : nat) (today yesterday : Q),
         commits_rolling_avg cd !! i = Some (Num yesterday) →
         commits_rolling_avg cd !! S i = Some (Num today) →
         ∃ c : Q,
           pct_change r !! i = Some (Num c)
           ∧ (¬ (yesterday == 0)%Q →
              (c == (today - yesterday) / yesterday * (100 # 1))%Q)
           ∧ ((yesterday == 0)%Q → (today == 0)%Q → (c == 0)%Q)
           ∧ ((yesterday == 0)%Q → ¬ (today == 0)%Q → (c == 100 # 1)%Q))
    ∧ (∀ d0 d1 d2 : datetime,
         percentage_change
           (mk_daily [d0; d1; d2]
              [Num (0 # 1); Num (0 # 1); Num (5 # 1)]%Q [] [] [])
         = Ok (mk_pct [d1; d2] [Num (0 # 1); Num (100 # 1)]%Q))
    ∧ (∀ d0 d1 : datetime,
         percentage_change
           (mk_daily [d0; d1] [Num (4 # 1); Num (2 # 1)]%Q [] [] [])
         = Ok (mk_pct [d1] [Num (-50 # 1)%Q])).
Proof.
  intros Hlen. eexists. split; [by apply percentage_change_steps|].
  simpl. split; [done|].
  split; [by rewrite length_fmap, length_seq|].
  split; [rewrite length_fmap, length_seq, length_drop; lia|].
  split.
  { intros Hn.
    replace (length (commits_rolling_avg cd) - 1)%nat with 0%nat by lia.
    simpl. f_equal. apply nil_length_inv. rewrite length_drop. lia. }
  split; [|split; reflexivity].
  intros i today yesterday Hy Ht.
  pose proof (lookup_lt_Some _ _ _ Ht) as Hi.
  destruct (day_change_cases today yesterday) as (c & Hc & Hcases).
  exists c. split; [|done].
  rewrite list_lookup_fmap, lookup_seq_lt by lia. simpl.
  apply list_lookup_total_correct in Hy, Ht. rewrite Hy, Ht. by f_equal.
Qed.

Lemma percentage_change_policy_witness :
  ∃ r : pct_series,
    percentage_change
      (mk_daily [mk_date 2024 7 16; mk_date 2024 7 17; mk_date 2024 7 18]
         [Num (3 # 1); Num (0 # 1); Num (6 # 1)]%Q [] [] []) = Ok r
    ∧ pct_change r = [Num (-100 # 1); Num (100 # 1)]%Q.
Proof.
  destruct (percentage_change_policy
    (mk_daily [mk_date 2024 7 16; mk_date 2024 7 17; mk_date 2024 7 18]
       [Num (3 # 1); Num (0 # 1); Num (6 # 1)]%Q [] [] []) eq_refl)
    as (r & Hr & _).
  exists r. split; [exact Hr|].
  vm_compute in Hr. injection Hr as <-. reflexivity.
Defined.

(** ** WeeklySeriesBuilder: the week-start conversion *)

Lemma has_char_app (c : ascii) (s1 s2 : string) :
  has_char c (s1 +:+ s2) = has_char c s1 || has_char c s2.
Proof.
  induction s1 as [|x s1 IH]; [done|].
  change (String x s1 +:+ s2) with (String x (s1 +:+ s2)).
  simpl. rewrite IH. by rewrite orb_assoc.
Qed.

Lemma has_char_zeros (n : nat) : has_char "W" (zeros n) = false.
Proof. induction n; [done|]. simpl. by rewrite IHn. Qed.

Lemma uint_has_no_W (u : Decimal.uint) :
  has_char "W" (NilEmpty.string_of_uint u) = false.
Proof. induction u; simpl; by rewrite ?IHu. Qed.

Lemma py_str_has_no_W (n : Z) : has_char "W" (py_str n) = false.
Proof.
  unfold py_str, NilZero.string_of_int, NilZero.string_of_uint.
  destruct (Z.to_int n) as [u|u]; destruct u; simpl;
    by rewrite ?uint_has_no_W.
Qed.

Lemma strip_prefix_has_char (s r : string) :
  strip_prefix "-W" s = Some r → has_char "W" s = true.
Proof.
  destruct s as [|a [|b s]]; simpl; try done.
  - by destruct (is_char "-" a).
  - destruct (is_char "-" a); [|done].
    destruct (is_char "W" b) eqn:Hb; [|done]. intros _.
    by rewrite orb_true_r.
Qed.

Lemma match_year_has_char (c : ascii) (s r : string) (y : Z) :
  match_year s = Some (y, r) → has_char c r = true → has_char c s = true.
Proof.
  unfold match_year.
  destruct s as [|a1 [|a2 [|a3 [|a4 s]]]]; try done.
  destruct (_ && _); [|done]. intros [= _ <-] Hr.
  simpl. rewrite Hr. by rewrite !orb_true_r.
Qed.

(** A string without the letter [W] never matches ["%G-W%V-%u"]. *)
Lemma strptime_GVu_needs_W (s : string) :
  has_char "W" s = false → strptime_GVu s = Raise ValueError.
Proof.
  intros Hs. unfold strptime_GVu.
  destruct (match_year s) as [[g r0]|] eqn:Hy; [|done].
  destruct (strip_prefix "-W" r0) as [r1|] eqn:Hp; [|done].
  apply strip_prefix_has_char in Hp.
  apply (match_year_has_char _ _ _ _ Hy) in Hp. congruence.
Qed.

Lemma week_start_string_has_no_W (y week_num : Z) :
  has_char "W" (week_start_string y week_num) = false.
Proof.
  unfold week_start_string.
  by rewrite !has_char_app, !py_str_has_no_W.
Qed.

(** Line 167 raises for every week label. *)
Lemma week_to_date_raises (week_key : string) :
  week_to_date week_key = Raise ValueError.
Proof.
  unfold week_to_date.
  destruct (py_split "-W" week_key) as [|year_str [|week_str [|? ?]]];
    try done.
  unfold py_int.
  destruct (NilZero.int_of_string year_str); [|done]. simpl.
  destruct (NilZero.int_of_string week_str); [|done]. simpl.
  apply strptime_GVu_needs_W, week_start_string_has_no_W.
Qed.

(** Whatever the file holds, the weekly builder hands back the empty
    series: without weeks by line 153, with weeks because line 167 raises
    and the handler at line 180 takes over. *)
Lemma calculate_weekly_data_empty (w : world) (json_file : string) :
  (calculate_weekly_data w json_file).1 = empty_weekly.
Proof.
  unfold calculate_weekly_data.
  destruct (calculate_weekly_body w json_file) as [r|e] eqn:Hb; [|done].
  simpl. unfold calculate_weekly_body in Hb.
  destruct (read_json w json_file) as [data|]; [|done]. simpl in Hb.
  destruct (aggregate_weekly data) as [t|]; [|done]. simpl in Hb.
  destruct (sorted_keys t) as [|k ks] eqn:Hk; [by injection Hb as <-|].
  rewrite (map_result_Raise _ ValueError) in Hb; [done|done|].
  apply week_to_date_raises.
Qed.

(** ** Aggregation tables *)

Lemma bind_Ok_inv {A B : Type} (m : result A) (f : A → result B) (b : B) :
  m ≫= f = Ok b → ∃ a, m = Ok a ∧ f a = Ok b.
Proof. destruct m as [a|e]; [|done]. intros H. by exists a. Qed.

Tactic Notation "bind_inv" hyp(H) "as" ident(a) ident(Ha) :=
  apply bind_Ok_inv in H as (a & Ha & H).

Lemma commits_at_accumulate (k k' u : string) (n : Z) (t : tables) :
  commits_at (accumulate k u n t) k'
  = if decide (k = k') then commits_at t k + n else commits_at t k'.
Proof.
  unfold commits_at at 1. simpl. rewrite lookup_insert.
  by destruct (decide (k = k')) as [->|].
Qed.

Lemma users_at_accumulate (k k' u : string) (n : Z) (t : tables) :
  users_at (accumulate k u n t) k'
  = if decide (k = k' ∧ 0 < n) then users_at t k ∪ {[u]} else users_at t k'.
Proof.
  unfold users_at at 1. simpl.
  destruct (Z.ltb_spec 0 n).
  - rewrite lookup_insert.
    destruct (decide (k = k')) as [->|]; simpl;
      destruct (decide _) as [[??]|?]; try done; naive_solver.
  - destruct (decide _) as [[??]|?]; [lia|done].
Qed.

Lemma dom_accumulate (k u : string) (n : Z) (t : tables) :
  dom (commits_by (accumulate k u n t)) = {[k]} ∪ dom (commits_by t).
Proof. simpl. by rewrite dom_insert_L. Qed.

Lemma tally_app (r1 r2 : list triple) (t : tables) :
  tally (r1 ++ r2) t = tally r2 (tally r1 t).
Proof. apply foldl_app. Qed.

Lemma commits_at_tally (recs : list triple) (t : tables) (k : string) :
  commits_at (tally recs t) k = commits_at t k + sum_Z (counts_for k recs).
Proof.
  revert t. induction recs as [|[[k' u] n] recs IH]; intros t; simpl.
  - unfold counts_for. simpl. lia.
  - rewrite IH, commits_at_accumulate. unfold counts_for.
    rewrite filter_cons. simpl.
    destruct (decide (k' = k)) as [->|]; [|done].
    rewrite fmap_cons. unfold sum_Z. simpl. lia.
Qed.

Lemma users_at_tally (recs : list triple) (t : tables) (k u : string) :
  u ∈ users_at (tally recs t) k
  ↔ u ∈ users_at t k ∨ ∃ n, (k, u, n) ∈ recs ∧ 0 < n.
Proof.
  revert t. induction recs as [|[[k' u'] n'] recs IH]; intros t; simpl.
  - split; [by left|]. intros [?|(n & Hn & _)]; [done|]. by apply elem_of_nil in Hn.
  - rewrite IH, users_at_accumulate. split.
    + intros [Hu|(n & Hn & Hpos)].
      * destruct (decide _) as [[-> ?]|?]; [|by left].
        apply elem_of_union in Hu as [?| ->%elem_of_singleton]; [by left|].
        right. exists n'. split; [left|done].
      * right. exists n. split; [by right|done].
    + intros [Hu|(n & Hn & Hpos)].
      * left. destruct (decide _) as [[-> ?]|?]; [|done].
        apply elem_of_union. by left.
      * apply elem_of_cons in Hn as [[= <- <- <-]|Hn].
        -- left. rewrite decide_True by done. apply elem_of_union. right.
           by apply elem_of_singleton.
        -- right. by exists n.
Qed.

Lemma dom_tally (recs : list triple) (t : tables) (k : string) :
  k ∈ dom (commits_by (tally recs t))
  ↔ k ∈ dom (commits_by t) ∨ ∃ u n, (k, u, n) ∈ recs.
Proof.
  revert t. induction recs as [|[[k' u'] n'] recs IH]; intros t; simpl.
  - split; [by left|]. intros [?|(u & n & Hn)]; [done|]. by apply elem_of_nil in Hn.
  - rewrite IH, dom_accumulate. split.
    + intros [[->%elem_of_singleton|?]%elem_of_union|(u & n & Hn)].
      * right. exists u', n'. left.
      * by left.
      * right. exists u, n. by right.
    + intros [?|(u & n & Hn)].
      * left. apply elem_of_union. by right.
      * apply elem_of_cons in Hn as [[= <- <- <-]|Hn].
        -- left. apply elem_of_union. left. by apply elem_of_singleton.
        -- right. by exists u, n.
Qed.

Lemma users_le_commits_accumulate (k u : string) (n : Z) (t : tables) :
  0 ≤ n → users_le_commits t → users_le_commits (accumulate k u n t).
Proof.
  intros Hn Ht k'. specialize (Ht k'). unfold active_at in *.
  rewrite commits_at_accumulate, users_at_accumulate.
  destruct (decide (k = k')) as [->|].
  - destruct (decide _) as [[_ Hpos]|?]; [|lia].
    assert (size (users_at t k' ∪ {[u]}) ≤ size (users_at t k') + 1)%nat.
    { rewrite size_union_alt.
      assert (size ({[u]} ∖ users_at t k') ≤ size ({[u]} : gset string))%nat
        by (apply subseteq_size; set_solver).
      rewrite size_singleton in *. lia. }
    lia.
  - by rewrite decide_False by naive_solver.
Qed.

Lemma users_le_commits_tally (recs : list triple) (t : tables) :
  Forall (fun r : triple => 0 ≤ r.2) recs →
  users_le_commits t → users_le_commits (tally recs t).
Proof.
  revert t. induction recs as [|[[k u] n] recs IH]; intros t Hrecs Ht; [done|].
  apply Forall_cons in Hrecs as [Hn Hrecs]. simpl.
  apply IH; [done|]. by apply users_le_commits_accumulate.
Qed.

Lemma users_le_commits_empty : users_le_commits no_tables.
Proof. intros k. unfold active_at, users_at, commits_at. simpl. by rewrite !lookup_empty. Qed.

Section aggregation_facts.
Variable key_of : string → result string.

Lemma add_record_eq (user_id : string) (rec : string * json) (t : tables) :
  add_record key_of user_id rec t
  = tr ← record_triple key_of user_id rec; Ok (tally [tr] t).
Proof.
  unfold add_record, record_triple.
  destruct (key_of rec.1) as [k|]; [|done]. simpl.
  by destruct (int_of_json rec.2) as [n|].
Qed.

Lemma for_each_add_record_eq (user_id : string)
    (recs : list (string * json)) (t : tables) :
  for_each (add_record key_of user_id) recs t
  = trs ← map_result (record_triple key_of user_id) recs; Ok (tally trs t).
Proof.
  revert t. induction recs as [|rec recs IH]; intros t; [done|].
  cbn [for_each map_result]. rewrite add_record_eq.
  destruct (record_triple key_of user_id rec) as [tr|]; [|done]. simpl.
  rewrite IH. by destruct (map_result _ recs).
Qed.

Lemma add_user_eq (u : string * json) (t : tables) :
  add_user key_of u t = trs ← user_triples key_of u; Ok (tally trs t).
Proof.
  unfold add_user, user_triples.
  destruct (get_daily_commits u.2) as [dc|]; [|done]. simpl.
  destruct (py_items dc) as [recs|]; [|done]. simpl.
  apply for_each_add_record_eq.
Qed.

Lemma for_each_add_user_eq (users : list (string * json)) (t : tables) :
  for_each (add_user key_of) users t
  = trss ← map_result (user_triples key_of) users;
    Ok (tally (concat trss) t).
Proof.
  revert t. induction users as [|u users IH]; intros t; [done|].
  cbn [for_each map_result]. rewrite add_user_eq.
  destruct (user_triples key_of u) as [trs|]; [|done]. simpl.
  rewrite IH.
  destruct (map_result (user_triples key_of) users) as [trss|]; [|done].
  simpl. by rewrite tally_app.
Qed.

(** The tables are the tally of the input's records. *)
Lemma aggregate_triples (data : json) :
  aggregate key_of data
  = recs ← triples key_of data; Ok (tally recs no_tables).
Proof.
  unfold aggregate, triples. destruct (py_items data) as [users|]; [|done].
  simpl. rewrite for_each_add_user_eq.
  by destruct (map_result (user_triples key_of) users).
Qed.

Lemma aggregate_tally (data : json) (t : tables) :
  aggregate key_of data = Ok t →
  ∃ recs, triples key_of data = Ok recs ∧ t = tally recs no_tables.
Proof.
  rewrite aggregate_triples. intros H. bind_inv H as recs Hrecs.
  injection H as <-. by exists recs.
Qed.

End aggregation_facts.

Lemma for_each_ext {A S : Type} (f g : A → S → result S) (l : list A) (st : S) :
  (∀ x st, f x st = g x st) → for_each f l st = for_each g l st.
Proof.
  intros Hfg. revert st. induction l as [|x l IH]; intros st; [done|].
  simpl. rewrite Hfg. destruct (g x st); [apply IH|done].
Qed.

Lemma aggregate_daily_generic (data : json) :
  aggregate_daily data = aggregate daily_key data.
Proof.
  unfold aggregate_daily, aggregate. destruct (py_items data); [|done]. simpl.
  apply for_each_ext. intros [u stats] t. unfold add_daily_user, add_user.
  simpl. destruct (get_daily_commits stats); [|done]. simpl.
  destruct (py_items _); [|done]. simpl.
  apply for_each_ext. intros [fecha_str cnt] t'.
  unfold add_daily_record, add_record, daily_key. simpl.
  by destruct (strptime_ymd fecha_str).
Qed.

Lemma aggregate_weekly_generic (data : json) :
  aggregate_weekly data = aggregate weekly_key data.
Proof.
  unfold aggregate_weekly, aggregate. destruct (py_items data); [|done]. simpl.
  apply for_each_ext. intros [u stats] t. unfold add_weekly_user, add_user.
  simpl. destruct (get_daily_commits stats); [|done]. simpl.
  destruct (py_items _); [|done]. simpl.
  apply for_each_ext. intros [fecha_str cnt] t'.
  unfold add_weekly_record, add_record, weekly_key. simpl.
  by destruct (strptime_ymd fecha_str).
Qed.

(** ** Calendar arithmetic *)

Lemma days_before_year_succ (y : Z) :
  days_before_year (y + 1) = days_before_year y + year_length y.
Proof.
  unfold days_before_year, year_length, is_leap.
  replace (y + 1 - 1) with y by lia.
  destruct (Z.eqb_spec (y mod 4) 0), (Z.eqb_spec (y mod 100) 0),
    (Z.eqb_spec (y mod 400) 0); simpl; Z.div_mod_to_equations; lia.
Qed.

Lemma days_before_year_mono (y1 y2 : Z) :
  y1 ≤ y2 → days_before_year y1 ≤ days_before_year y2.
Proof. unfold days_before_year. intros. Z.div_mod_to_equations. lia. Qed.

Lemma valid_date_spec (d : datetime) :
  valid_date d = true
  ↔ (1 ≤ year d ≤ MAXYEAR) ∧ (1 ≤ month d ≤ 12)
    ∧ (1 ≤ day d ≤ days_in_month (year d) (month d)).
Proof. unfold valid_date. rewrite !andb_true_iff, !Z.leb_le. tauto. Qed.

Lemma month_cases (m : Z) :
  (1 ≤ m ≤ 12) →
  m = 1 ∨ m = 2 ∨ m = 3 ∨ m = 4 ∨ m = 5 ∨ m = 6
  ∨ m = 7 ∨ m = 8 ∨ m = 9 ∨ m = 10 ∨ m = 11 ∨ m = 12.
Proof. lia. Qed.

Ltac each_month m :=
  let H := fresh in
  match goal with
  | Hm : 1 ≤ m ≤ 12 |- _ => pose proof (month_cases m Hm) as H
  end;
  repeat (destruct H as [-> | H]); [.. | subst m].

Ltac calendar :=
  unfold days_before_month, days_in_month, year_length in *;
  repeat match goal with
         | H : context [is_leap _] |- _ => revert H
         end;
  repeat match goal with
         | |- context [is_leap ?y] => destruct (is_leap y)
         end;
  cbn; intros;
  first [ lia
        | vm_compute; first [reflexivity | intros ?; discriminate]
        | idtac ].

Lemma days_before_month_succ (y m : Z) :
  (1 ≤ m ≤ 12) → m ≠ 12 →
  days_before_month y (m + 1) = days_before_month y m + days_in_month y m.
Proof. intros Hm Hne. each_month m; try done; calendar. Qed.

Lemma days_before_month_last (y : Z) :
  days_before_month y 12 + days_in_month y 12 = year_length y.
Proof. calendar. Qed.

Lemma days_in_month_bounds (y m : Z) :
  (1 ≤ m ≤ 12) → 28 ≤ days_in_month y m ≤ 31.
Proof. intros Hm. each_month m; calendar. Qed.

Lemma days_before_month_mono (y m1 m2 : Z) :
  (1 ≤ m1 ≤ 12) → (1 ≤ m2 ≤ 12) → m1 < m2 →
  days_before_month y m1 + days_in_month y m1 ≤ days_before_month y m2.
Proof.
  intros Hm1 Hm2 Hlt. each_month m1; each_month m2; try lia; calendar.
Qed.

Lemma day_of_year_bounds (d : datetime) :
  valid_date d = true →
  1 ≤ days_before_month (year d) (month d) + day d ≤ year_length (year d).
Proof.
  intros (_ & Hm & Hd)%valid_date_spec.
  destruct d as [y m dd]. simpl in *.
  destruct (decide (m = 12)) as [->|Hne].
  - pose proof (days_before_month_last y). split; [calendar|lia].
  - pose proof (days_before_month_mono y m 12 Hm ltac:(lia) ltac:(lia)).
    pose proof (days_before_month_last y).
    pose proof (days_in_month_bounds y 12 ltac:(lia)).
    split; [|lia]. each_month m; calendar.
Qed.

(** On dates, the tuple order and the order of ordinals agree. *)
Lemma date_leb_toordinal (a b : datetime) :
  valid_date a = true → valid_date b = true →
  date_leb a b = (toordinal a <=? toordinal b).
Proof.
  intros Ha Hb.
  pose proof (day_of_year_bounds a Ha) as Hda.
  pose proof (day_of_year_bounds b Hb) as Hdb.
  apply valid_date_spec in Ha as (Hya & Hma & Hdda).
  apply valid_date_spec in Hb as (Hyb & Hmb & Hddb).
  unfold date_leb, toordinal.
  destruct a as [ya ma da], b as [yb mb db]. simpl in *.
  destruct (Z.ltb_spec ya yb) as [Hy|Hy]; simpl.
  - symmetry. apply Z.leb_le.
    pose proof (days_before_year_succ ya).
    pose proof (days_before_year_mono (ya + 1) yb ltac:(lia)). lia.
  - destruct (Z.eqb_spec ya yb) as [->|Hne]; simpl.
    + destruct (Z.ltb_spec ma mb) as [Hm|Hm]; simpl.
      * symmetry. apply Z.leb_le.
        pose proof (days_before_month_mono yb ma mb Hma Hmb Hm). lia.
      * destruct (Z.eqb_spec ma mb) as [->|Hmne]; simpl.
        -- destruct (Z.leb_spec da db), (Z.leb_spec
             (days_before_year yb + days_before_month yb mb + da)
             (days_before_year yb + days_before_month yb mb + db)); lia.
        -- symmetry. apply Z.leb_gt.
           pose proof (days_before_month_mono yb mb ma Hmb Hma ltac:(lia)). lia.
    + symmetry. apply Z.leb_gt.
      pose proof (days_before_year_succ yb).
      pose proof (days_before_year_mono (yb + 1) ya ltac:(lia)). lia.
Qed.

Lemma toordinal_inj (a b : datetime) :
  valid_date a = true → valid_date b = true →
  toordinal a = toordinal b → a = b.
Proof.
  intros Ha Hb Heq.
  pose proof (date_leb_toordinal a b Ha Hb) as Hab.
  pose proof (date_leb_toordinal b a Hb Ha) as Hba.
  rewrite Heq, Z.leb_refl in Hab, Hba.
  unfold date_leb in *. destruct a as [ya ma da], b as [yb mb db].
  simpl in *.
  destruct (Z.ltb_spec ya yb), (Z.ltb_spec yb ya), (Z.eqb_spec ya yb),
    (Z.eqb_spec yb ya); simpl in *; try lia.
  destruct (Z.ltb_spec ma mb), (Z.ltb_spec mb ma), (Z.eqb_spec ma mb),
    (Z.eqb_spec mb ma); simpl in *; try lia.
  apply Z.leb_le in Hab, Hba. f_equal; lia.
Qed.

(** A step of one day: the next date exists unless this is the last one,
    is a date again, and is one ordinal further. *)
Lemma add_one_day_Ok (d : datetime) :
  valid_date d = true → d ≠ MAXDATE →
  ∃ d', add_one_day d = Ok d' ∧ valid_date d' = true
        ∧ toordinal d' = toordinal d + 1.
Proof.
  intros Hv Hne. pose proof Hv as (Hy & Hm & Hd)%valid_date_spec.
  unfold add_one_day. destruct d as [y m dd]. simpl in *.
  destruct (Z.ltb_spec dd (days_in_month y m)).
  - eexists. split; [done|]. split.
    + apply valid_date_spec. simpl. lia.
    + unfold toordinal. simpl. lia.
  - assert (dd = days_in_month y m) as -> by lia.
    destruct (Z.ltb_spec m 12).
    + eexists. split; [done|]. split.
      * apply valid_date_spec. simpl.
        pose proof (days_in_month_bounds y (m + 1) ltac:(lia)). lia.
      * unfold toordinal. simpl.
        rewrite days_before_month_succ by lia. lia.
    + assert (m = 12) as -> by lia.
      destruct (Z.ltb_spec y MAXYEAR).
      * eexists. split; [done|]. split.
        -- apply valid_date_spec. simpl. unfold MAXYEAR in *. calendar.
        -- unfold toordinal. simpl.
           rewrite days_before_year_succ.
           pose proof (days_before_month_last y). calendar.
      * exfalso. apply Hne. unfold MAXDATE. f_equal; lia.
Qed.

Lemma add_one_day_MAXDATE : add_one_day MAXDATE = Raise OverflowError.
Proof. reflexivity. Qed.

Lemma date_leb_MAXDATE (d : datetime) :
  valid_date d = true → date_leb MAXDATE d = true → d = MAXDATE.
Proof.
  intros (Hy & Hm & Hd)%valid_date_spec. unfold date_leb, MAXDATE.
  destruct d as [y m dd]. cbn [year month day] in *.
  pose proof (days_in_month_bounds y m Hm).
  destruct (Z.ltb_spec MAXYEAR y); [lia|].
  destruct (Z.eqb_spec MAXYEAR y) as [<-|]; [|done].
  destruct (Z.ltb_spec 12 m); [lia|].
  destruct (Z.eqb_spec 12 m) as [<-|]; [|done]. cbn [orb andb].
  intros ?%Z.leb_le. f_equal. lia.
Qed.

(** ** The loop over the days of the range *)

(** With enough fuel the loop returns every day from [current] to
    [end_]: that many dates, the one at position [i] being [i] days after
    [current]. *)
Lemma date_range_loop_days (fuel : nat) (current end_ : datetime) :
  valid_date current = true → valid_date end_ = true → end_ ≠ MAXDATE →
  toordinal end_ - toordinal current + 1 ≤ Z.of_nat fuel →
  ∃ l, date_range_loop fuel current end_ = Ok l
       ∧ Z.of_nat (length l) = Z.max 0 (toordinal end_ - toordinal current + 1)
       ∧ ∀ (i : nat) d, l !! i = Some d →
           valid_date d = true ∧ toordinal d = toordinal current + Z.of_nat i.
Proof.
  intros Hc He Hmax. revert current Hc.
  induction fuel as [|fuel IH]; intros current Hc Hfuel.
  - exists []. simpl. split; [done|]. split; [lia|]. by intros i d ?.
  - simpl. rewrite date_leb_toordinal by done.
    destruct (Z.leb_spec (toordinal current) (toordinal end_)) as [Hle|Hgt].
    + assert (current ≠ MAXDATE) as Hcm.
      { intros ->. apply Hmax, date_leb_MAXDATE; [done|].
        rewrite date_leb_toordinal by done. by apply Z.leb_le. }
      destruct (add_one_day_Ok current Hc Hcm) as (next & -> & Hn & Hord).
      simpl. destruct (IH next Hn ltac:(lia)) as (l & -> & Hlen & Hl).
      simpl. eexists. split; [done|]. split; [simpl; lia|].
      intros [|i] d; simpl.
      * intros [= <-]. split; [done|lia].
      * intros Hi. apply Hl in Hi as [? ?]. split; [done|lia].
    + exists []. split; [done|]. split; [simpl; lia|]. by intros i d ?.
Qed.

Lemma date_range_days (first end_ : datetime) :
  valid_date first = true → valid_date end_ = true → end_ ≠ MAXDATE →
  ∃ l, date_range first end_ = Ok l
       ∧ Z.of_nat (length l) = Z.max 0 (toordinal end_ - toordinal first + 1)
       ∧ ∀ (i : nat) d, l !! i = Some d →
           valid_date d = true ∧ toordinal d = toordinal first + Z.of_nat i.
Proof.
  intros Hf He Hmax. apply date_range_loop_days; try done. lia.
Qed.

(** More fuel changes nothing. *)
Lemma date_range_loop_fuel (fuel : nat) (current end_ : datetime) :
  valid_date current = true → valid_date end_ = true → end_ ≠ MAXDATE →
  toordinal end_ - toordinal current + 1 ≤ Z.of_nat fuel →
  date_range_loop fuel current end_ = date_range current end_.
Proof.
  intros Hc He Hmax Hfuel.
  destruct (date_range_loop_days fuel current end_) as (l1 & -> & Hlen1 & Hl1);
    try done.
  destruct (date_range_days current end_) as (l2 & -> & Hlen2 & Hl2);
    try done.
  f_equal. apply list_eq. intros i.
  destruct (l1 !! i) as [d1|] eqn:H1, (l2 !! i) as [d2|] eqn:H2; try done.
  - apply Hl1 in H1 as [? ?]. apply Hl2 in H2 as [? ?].
    f_equal. apply toordinal_inj; try done. lia.
  - apply lookup_lt_Some in H1. apply lookup_ge_None in H2. lia.
  - apply lookup_lt_Some in H2. apply lookup_ge_None in H1. lia.
Qed.

(** A range that ends on the last date never completes: the step after
    its last day overflows. *)
Lemma toordinal_le_MAXDATE (d : datetime) :
  valid_date d = true → toordinal d ≤ toordinal MAXDATE.
Proof.
  intros Hd. apply Z.leb_le. rewrite <- date_leb_toordinal by done.
  apply valid_date_spec in Hd as (Hy & Hm & Hdd).
  pose proof (days_in_month_bounds (year d) _ Hm).
  unfold date_leb, MAXDATE, MAXYEAR in *. cbn [year month day].
  destruct (Z.ltb_spec (year d) 9999), (Z.eqb_spec (year d) 9999),
    (Z.ltb_spec (month d) 12), (Z.eqb_spec (month d) 12),
    (Z.leb_spec (day d) 31); simpl; try done; lia.
Qed.

Lemma date_range_loop_MAXDATE (fuel : nat) (current : datetime) :
  valid_date current = true →
  toordinal MAXDATE - toordinal current + 1 ≤ Z.of_nat fuel →
  date_range_loop fuel current MAXDATE = Raise OverflowError.
Proof.
  revert current. induction fuel as [|fuel IH]; intros current Hc Hfuel.
  - pose proof (toordinal_le_MAXDATE current Hc). lia.
  - simpl. rewrite date_leb_toordinal by done.
    pose proof (toordinal_le_MAXDATE current Hc) as Hle.
    apply Z.leb_le in Hle as Hle'. rewrite Hle'.
    destruct (decide (current = MAXDATE)) as [->|Hne]; [done|].
    destruct (add_one_day_Ok current Hc Hne) as (next & -> & Hn & Hord).
    simpl. rewrite IH; [done|done|lia].
Qed.

Lemma date_range_MAXDATE (first : datetime) :
  valid_date first = true → date_range first MAXDATE = Raise OverflowError.
Proof. intros Hf. apply date_range_loop_MAXDATE; [done|lia]. Qed.

(** Every date between the two ends is in the range. *)
Lemma date_range_covers (first end_ d : datetime) (l : list datetime) :
  valid_date first = true → valid_date end_ = true → end_ ≠ MAXDATE →
  date_range first end_ = Ok l →
  valid_date d = true → date_leb first d = true → date_leb d end_ = true →
  l !! Z.to_nat (toordinal d - toordinal first) = Some d.
Proof.
  intros Hf He Hmax Hl Hd Hfd Hde.
  rewrite date_leb_toordinal in Hfd, Hde by done.
  apply Z.leb_le in Hfd, Hde.
  destruct (date_range_days first end_) as (l' & Hl' & Hlen & Hdays); try done.
  rewrite Hl in Hl'. injection Hl' as <-.
  destruct (l !! Z.to_nat (toordinal d - toordinal first)) as [d'|] eqn:Hi.
  - apply Hdays in Hi as [? ?]. f_equal. apply toordinal_inj; try done. lia.
  - apply lookup_ge_None in Hi. lia.
Qed.

(** ** Date strings

    The shape of a key that [strptime] accepts and [strftime] prints back
    unchanged, and how such keys compare. *)

Lemma forallb_seqZ (P : Z → bool) (lo len : Z) :
  forallb P (seqZ lo len) = true → ∀ n, (lo ≤ n < lo + len) → P n = true.
Proof.
  intros H n Hn. rewrite forallb_forall in H. apply H.
  apply list_elem_of_In, elem_of_seqZ. lia.
Qed.

Lemma zfill2_table :
  forallb (fun n => bool_decide (zfill 2 (py_str n) = two_digits_then n ""))
          (seqZ 0 100) = true.
Proof. vm_compute. reflexivity. Qed.

Lemma zfill2_digits (n : Z) :
  (0 ≤ n ≤ 99) → zfill 2 (py_str n) = two_digits_then n "".
Proof.
  intros Hn.
  pose proof (forallb_seqZ _ 0 100 zfill2_table n ltac:(lia)) as H.
  by apply bool_decide_eq_true_1 in H.
Qed.

Lemma all_digits_app (s1 s2 : string) :
  all_digits (s1 +:+ s2) = all_digits s1 && all_digits s2.
Proof.
  induction s1 as [|c s1 IH]; [done|].
  change (String c s1 +:+ s2) with (String c (s1 +:+ s2)).
  simpl. rewrite IH. by rewrite andb_assoc.
Qed.

Lemma all_digits_zeros (n : nat) : all_digits (zeros n) = true.
Proof. induction n; [done|]. simpl. by rewrite IHn. Qed.

Lemma all_digits_uint (u : Decimal.uint) :
  all_digits (NilEmpty.string_of_uint u) = true.
Proof. induction u; simpl; by rewrite ?IHu. Qed.

Lemma all_digits_py_str (n : Z) : 0 ≤ n → all_digits (py_str n) = true.
Proof.
  intros Hn. unfold py_str, NilZero.string_of_int, NilZero.string_of_uint.
  destruct n as [|p|p]; [done| |lia]. simpl.
  destruct (Pos.to_uint p); simpl; by rewrite ?all_digits_uint.
Qed.

Lemma is_digit_val (c : ascii) : is_digit c = true → 0 ≤ digit_val c ≤ 9.
Proof.
  unfold is_digit, char_in, Ascii.leb, Ascii.compare, digit_val.
  change (N_of_ascii "0") with 48%N. change (N_of_ascii "9") with 57%N.
  destruct (N.compare_spec 48 (N_of_ascii c)),
    (N.compare_spec (N_of_ascii c) 57); simpl; try done; lia.
Qed.

Lemma digit_val_compare (a b : ascii) :
  Ascii.compare a b = (digit_val a ?= digit_val b).
Proof.
  unfold Ascii.compare, digit_val.
  rewrite (Z.compare_sub (_ - 48) (_ - 48)).
  replace (Z.of_N (N_of_ascii a) - 48 - (Z.of_N (N_of_ascii b) - 48))
    with (Z.of_N (N_of_ascii a) - Z.of_N (N_of_ascii b)) by lia.
  by rewrite <- Z.compare_sub, N2Z.inj_compare.
Qed.

Lemma year_chars_compare (a1 a2 a3 a4 b1 b2 b3 b4 : ascii) (s1 s2 : string) :
  is_digit a1 && is_digit a2 && is_digit a3 && is_digit a4 = true →
  is_digit b1 && is_digit b2 && is_digit b3 && is_digit b4 = true →
  (year_chars_then a1 a2 a3 a4 s1 ?= year_chars_then b1 b2 b3 b4 s2)%string
  = match year_of_chars a1 a2 a3 a4 ?= year_of_chars b1 b2 b3 b4 with
    | Eq => (s1 ?= s2)%string
    | c => c
    end.
Proof.
  rewrite !andb_true_iff.
  intros [[[Ha1%is_digit_val Ha2%is_digit_val] Ha3%is_digit_val] Ha4%is_digit_val].
  intros [[[Hb1%is_digit_val Hb2%is_digit_val] Hb3%is_digit_val] Hb4%is_digit_val].
  unfold year_chars_then, year_of_chars. cbn [String.compare].
  rewrite !digit_val_compare.
  destruct (Z.compare_spec (digit_val a1) (digit_val b1));
    [destruct (Z.compare_spec (digit_val a2) (digit_val b2));
     [destruct (Z.compare_spec (digit_val a3) (digit_val b3));
      [destruct (Z.compare_spec (digit_val a4) (digit_val b4))|..]|..]|..];
    match goal with
    | |- _ = match ?x ?= ?y with _ => _ end => destruct (Z.compare_spec x y)
    end; try done; lia.
Qed.

Lemma digit_char_compare (a b : Z) :
  (0 ≤ a ≤ 9) → (0 ≤ b ≤ 9) →
  Ascii.compare (digit_char a) (digit_char b) = (a ?= b).
Proof.
  intros Ha Hb.
  assert (a = 0 ∨ a = 1 ∨ a = 2 ∨ a = 3 ∨ a = 4 ∨ a = 5 ∨ a = 6 ∨ a = 7
          ∨ a = 8 ∨ a = 9) as Ha' by lia.
  assert (b = 0 ∨ b = 1 ∨ b = 2 ∨ b = 3 ∨ b = 4 ∨ b = 5 ∨ b = 6 ∨ b = 7
          ∨ b = 8 ∨ b = 9) as Hb' by lia.
  repeat (destruct Ha' as [-> | Ha']); [.. | subst a];
    (repeat (destruct Hb' as [-> | Hb']); [.. | subst b]); reflexivity.
Qed.

Lemma two_digits_compare (n1 n2 : Z) (s1 s2 : string) :
  (0 ≤ n1 ≤ 99) → (0 ≤ n2 ≤ 99) →
  (two_digits_then n1 s1 ?= two_digits_then n2 s2)%string
  = match n1 ?= n2 with Eq => (s1 ?= s2)%string | c => c end.
Proof.
  intros H1 H2. unfold two_digits_then. cbn [String.compare].
  rewrite !digit_char_compare by (Z.div_mod_to_equations; lia).
  destruct (Z.compare_spec (n1 / 10) (n2 / 10));
    [destruct (Z.compare_spec (n1 mod 10) (n2 mod 10))|..];
    destruct (Z.compare_spec n1 n2); try done;
    exfalso; Z.div_mod_to_equations; lia.
Qed.

(** Keys in canonical form sort like the dates they name. *)
Lemma key_form_leb (k1 k2 : string) (d1 d2 : datetime) :
  valid_date d1 = true → valid_date d2 = true →
  key_form k1 d1 → key_form k2 d2 →
  String.leb k1 k2 = date_leb d1 d2.
Proof.
  intros (Hy1 & Hm1 & Hd1)%valid_date_spec (Hy2 & Hm2 & Hd2)%valid_date_spec.
  intros (a1 & a2 & a3 & a4 & Ha & Hya & ->) (b1 & b2 & b3 & b4 & Hb & Hyb & ->).
  pose proof (days_in_month_bounds (year d1) _ Hm1).
  pose proof (days_in_month_bounds (year d2) _ Hm2).
  unfold String.leb, date_leb.
  rewrite year_chars_compare by done. rewrite <- Hya, <- Hyb.
  cbn [String.compare].
  change (Ascii.compare "-" "-") with Eq. cbv iota.
  rewrite two_digits_compare by lia. cbn [String.compare].
  change (Ascii.compare "-" "-") with Eq. cbv iota.
  rewrite two_digits_compare by lia. cbn [String.compare].
  destruct (Z.compare_spec (year d1) (year d2));
    [destruct (Z.compare_spec (month d1) (month d2));
     [destruct (Z.compare_spec (day d1) (day d2))|..]|..];
    destruct (Z.ltb_spec (year d1) (year d2)),
      (Z.eqb_spec (year d1) (year d2)),
      (Z.ltb_spec (month d1) (month d2)),
      (Z.eqb_spec (month d1) (month d2)),
      (Z.leb_spec (day d1) (day d2)); simpl; try done; lia.
Qed.

Lemma strptime_ymd_valid (k : string) (d : datetime) :
  strptime_ymd k = Ok d → valid_date d = true.
Proof.
  unfold strptime_ymd.
  destruct (match_year k) as [[y r0]|]; [|done].
  destruct (strip_prefix "-" r0) as [r1|]; [|done].
  destruct (match_month r1) as [[m r2]|]; [|done].
  destruct (match_day r2) as [[dd r3]|]; [|done].
  destruct (bool_decide (r3 = "")); [|done]. simpl.
  destruct (valid_date _) eqn:Hv; [|done]. by intros [= <-].
Qed.

(** What [strptime] accepts starts with four digits, the year, and [-]. *)
Lemma strptime_ymd_year (k : string) (d : datetime) :
  strptime_ymd k = Ok d →
  ∃ (c1 c2 c3 c4 : ascii) (r : string),
    is_digit c1 && is_digit c2 && is_digit c3 && is_digit c4 = true
    ∧ year d = year_of_chars c1 c2 c3 c4
    ∧ k = year_chars_then c1 c2 c3 c4 (String "-" r).
Proof.
  unfold strptime_ymd, match_year.
  destruct k as [|c1 [|c2 [|c3 [|c4 r0]]]]; try done.
  destruct (_ && _) eqn:Hdig; [|done].
  destruct r0 as [|c r]; [done|]. cbn [strip_prefix].
  destruct (is_char "-" c) eqn:Hc; [|done].
  apply bool_decide_eq_true_1 in Hc as ->.
  destruct (match_month r) as [[m r2]|]; [|done].
  destruct (match_day r2) as [[dd r3]|]; [|done].
  destruct (bool_decide (r3 = "") && _); [|done]. intros [= <-].
  by exists c1, c2, c3, c4, r.
Qed.

(** A run of digits followed by [-] is cut at that [-]. *)
Lemma digits_then_dash (y : string) (c1 c2 c3 c4 : ascii) (r r' : string) :
  all_digits y = true →
  is_digit c1 && is_digit c2 && is_digit c3 && is_digit c4 = true →
  y +:+ String "-" r = year_chars_then c1 c2 c3 c4 (String "-" r') →
  r = r'.
Proof.
  rewrite !andb_true_iff. intros Hy [[[H1 H2] H3] H4].
  unfold year_chars_then.
  destruct y as [|a1 [|a2 [|a3 [|a4 [|a5 y]]]]]; cbv [String.append];
    intros [=]; subst; try done.
  all: simpl in Hy; rewrite ?andb_true_iff in Hy; naive_solver.
Qed.

Lemma canonical_key_form (pads : bool) (k : string) :
  canonical pads k = true →
  ∃ d, strptime_ymd k = Ok d ∧ valid_date d = true
       ∧ strftime_ymd pads d = k ∧ key_form k d.
Proof.
  unfold canonical. destruct (strptime_ymd k) as [d|] eqn:Hk; [|done].
  intros Hs%bool_decide_eq_true_1.
  pose proof (strptime_ymd_valid k d Hk) as Hv.
  exists d. repeat split; try done.
  destruct (strptime_ymd_year k d Hk) as (c1 & c2 & c3 & c4 & r & Hdig & Hy & Hkr).
  exists c1, c2, c3, c4. repeat split; try done.
  apply valid_date_spec in Hv as (Hyr & Hm & Hd).
  pose proof (days_in_month_bounds (year d) _ Hm).
  unfold strftime_ymd in Hs.
  rewrite (zfill2_digits (month d)), (zfill2_digits (day d)) in Hs by lia.
  rewrite Hkr in Hs.
  change ("-" +:+ two_digits_then (month d) "" +:+ "-"
          +:+ two_digits_then (day d) "")
    with (String "-" (two_digits_then (month d)
            (String "-" (two_digits_then (day d) "")))) in Hs.
  apply digits_then_dash in Hs as <-; [done| |done].
  destruct pads.
  - unfold zfill.
    by rewrite all_digits_app, all_digits_zeros, all_digits_py_str by lia.
  - apply all_digits_py_str. lia.
Qed.

Lemma canonical_leb (pads : bool) (k1 k2 : string) (d1 d2 : datetime) :
  canonical pads k1 = true → canonical pads k2 = true →
  strptime_ymd k1 = Ok d1 → strptime_ymd k2 = Ok d2 →
  String.leb k1 k2 = date_leb d1 d2.
Proof.
  intros (d1' & Hk1 & Hv1 & _ & Hf1)%canonical_key_form
         (d2' & Hk2 & Hv2 & _ & Hf2)%canonical_key_form H1 H2.
  rewrite H1 in Hk1. rewrite H2 in Hk2.
  injection Hk1 as <-. injection Hk2 as <-.
  by apply key_form_leb.
Qed.

(** ** DailySeriesBuilder: the shape of the result *)

Lemma sorted_keys_elem (t : tables) (k : string) :
  k ∈ sorted_keys t ↔ k ∈ dom (commits_by t).
Proof.
  unfold sorted_keys. rewrite merge_sort_Permutation. apply elem_of_elements.
Qed.

Lemma sorted_keys_sorted (t : tables) : StronglySorted String.le (sorted_keys t).
Proof. apply StronglySorted_merge_sort; apply _. Qed.

Lemma sorted_keys_length (t : tables) :
  length (sorted_keys t) = size (dom (commits_by t)).
Proof. unfold sorted_keys. by rewrite merge_sort_Permutation. Qed.

(** Whenever the body returns, it returns the empty series, or the table
    read at its sorted keys, or the completion over a range of days. *)
Lemma load_and_process_body_shape (w : world) (json_file : string)
    (window_size : Z) (r : daily_series) :
  load_and_process_body w json_file window_size = Ok r →
  ∃ data t,
    files w json_file = Parsed data
    ∧ aggregate_daily data = Ok t
    ∧ rolled window_size r
    ∧ ((sorted_keys t = [] ∧ r = empty_daily)
       ∨ (∃ d, map_result strptime_ymd (sorted_keys t) = Ok [d]
               ∧ fechas r = [d]
               ∧ raw_commits r = commits_at t <$> sorted_keys t
               ∧ raw_users r = active_at t <$> sorted_keys t)
       ∨ (∃ dates first end_,
            map_result strptime_ymd (sorted_keys t) = Ok dates
            ∧ (1 < length dates)%nat
            ∧ head dates = Some first ∧ last dates = Some end_
            ∧ date_range first end_ = Ok (fechas r)
            ∧ raw_commits r = filled_count (pads_year w) t <$> fechas r
            ∧ raw_users r = filled_users (pads_year w) t <$> fechas r)).
Proof.
  unfold load_and_process_body. intros H.
  bind_inv H as data Hdata. bind_inv H as t Ht.
  exists data, t. split.
  { unfold read_json in Hdata. by destruct (files w json_file); simplify_eq. }
  split; [done|].
  destruct (sorted_keys t) as [|k ks] eqn:Hkeys.
  { injection H as <-. split; [done|]. by left. }
  bind_inv H as dates Hdates. bind_inv H as completed Hcomp.
  destruct completed as [[fechas_dt counts] active_users].
  injection H as <-. split; [done|]. right.
  unfold complete_series in Hcomp.
  destruct (Nat.ltb_spec 1 (length dates)) as [Hlen|Hlen].
  - right. destruct (head dates) as [first|] eqn:Hhead; [|done].
    destruct (last dates) as [end_|] eqn:Hlast; [|done].
    bind_inv Hcomp as l Hl. injection Hcomp as <- <- <-.
    by exists dates, first, end_.
  - left. apply map_result_inv in Hdates as Hall.
    apply Forall2_length in Hall. simpl in Hall.
    destruct dates as [|d [|? ?]]; simpl in *; try lia.
    injection Hcomp as <- <- <-. by exists d.
Qed.

Lemma triples_nonneg (key_of : string → result string) (data : json)
    (recs : list triple) :
  counts_nonneg data = true → triples key_of data = Ok recs →
  Forall (fun r : triple => 0 ≤ r.2) recs.
Proof.
  unfold triples. intros Hnn H. bind_inv H as users Husers.
  bind_inv H as trss Htrss. injection H as <-.
  destruct data; try done. injection Husers as ->.
  simpl in Hnn. apply Forall_concat.
  apply map_result_inv in Htrss.
  induction Htrss as [|[user_id stats] trs users trss Hu _ IH];
    [constructor|].
  simpl in Hnn. apply andb_true_iff in Hnn as [Hun Hnn].
  constructor; [|by apply IH].
  clear IH Hnn. unfold user_triples in Hu. cbn [fst snd] in *.
  unfold user_counts_nonneg in Hun.
  bind_inv Hu as dc Hdc. rewrite Hdc in Hun. bind_inv Hu as rs Hrs.
  destruct dc; try done. injection Hrs as ->.
  apply map_result_inv in Hu. clear Hdc.
  induction Hu as [|[fecha_str cnt] tr rs trs' Hr _ IH]; [constructor|].
  simpl in Hun. apply andb_true_iff in Hun as [Hc Hun].
  constructor; [|by apply IH].
  unfold record_triple in Hr. cbn [fst snd] in Hr.
  bind_inv Hr as k Hk. bind_inv Hr as n Hn. injection Hr as <-. simpl.
  destruct cnt; try done. simpl in *. injection Hn as <-. lia.
Qed.

Lemma aggregate_users_le_commits (key_of : string → result string)
    (data : json) (t : tables) :
  counts_nonneg data = true → aggregate key_of data = Ok t →
  users_le_commits t.
Proof.
  intros Hnn (recs & Hrecs & ->)%aggregate_tally.
  apply users_le_commits_tally; [|apply users_le_commits_empty].
  by eapply triples_nonneg.
Qed.

Lemma filled_users_le_count (pads : bool) (t : tables) (d : datetime) :
  users_le_commits t → filled_users pads t d ≤ filled_count pads t d.
Proof.
  intros Ht. unfold filled_users, filled_count.
  destruct (decide _); [apply Ht|done].
Qed.

(** C10. When every count of the input is a non-negative integer, each
    entry of the daily series has at least as many commits as active
    users: a user counted as active on a day added a count of at least 1
    to that day's total.  The same holds for every week of the table the
    weekly builder fills, and for every entry of the series it returns. *)
Theorem commits_at_least_active_users (w : world) (json_file : string)
    (window_size : Z) (data : json) :
  files w json_file = Parsed data →
  counts_nonneg data = true →
  Forall2 (fun commits users => users ≤ commits)
    (raw_commits (load_and_process_data w json_file window_size).1)
    (raw_users (load_and_process_data w json_file window_size).1)
  ∧ (∀ t, aggregate_weekly data = Ok t →
       ∀ week, active_at t week ≤ commits_at t week)
  ∧ Forall2 (fun commits users => users ≤ commits)
      (week_commits (calculate_weekly_data w json_file).1)
      (week_users (calculate_weekly_data w json_file).1).
Proof.
  intros Hfile Hnn. split; [|split].
  - unfold load_and_process_data.
    destruct (load_and_process_body w json_file window_size) as [r|e] eqn:Hb;
      [|constructor].
    apply load_and_process_body_shape in Hb
      as (data' & t & Hfile' & Ht & _ & Hshape).
    rewrite Hfile in Hfile'. injection Hfile' as <-.
    rewrite aggregate_daily_generic in Ht.
    pose proof (aggregate_users_le_commits _ _ _ Hnn Ht) as Hle.
    simpl.
    destruct Hshape as [[_ ->]|[(d & _ & _ & -> & ->)
                               |(ds & d1 & d2 & _ & _ & _ & _ & _ & -> & ->)]].
    + constructor.
    + apply Forall2_fmap, Forall_Forall2_diag, Forall_forall.
      intros k _. apply Hle.
    + apply Forall2_fmap, Forall_Forall2_diag, Forall_forall.
      intros d _. by apply filled_users_le_count.
  - intros t Ht. rewrite aggregate_weekly_generic in Ht.
    by apply (aggregate_users_le_commits _ _ _ Hnn Ht).
  - rewrite calculate_weekly_data_empty. constructor.
Qed.

(** ** Runs and the world *)

Lemma same_input_refl (w : world) : same_input w w.
Proof. done. Qed.

Lemma same_input_print (w0 w : world) (l : log_line) :
  same_input w0 w → same_input w0 (print l w).
Proof. done. Qed.

Lemma load_and_process_body_same_input (w1 w2 : world) (json_file : string)
    (window_size : Z) :
  same_input w1 w2 →
  load_and_process_body w1 json_file window_size
  = load_and_process_body w2 json_file window_size.
Proof.
  intros [Hf Hp]. unfold load_and_process_body, read_json.
  by rewrite Hf, Hp.
Qed.

Lemma load_and_process_data_same_input (w1 w2 : world) (json_file : string)
    (window_size : Z) :
  same_input w1 w2 →
  (load_and_process_data w1 json_file window_size).1
  = (load_and_process_data w2 json_file window_size).1
  ∧ same_input w1 (load_and_process_data w2 json_file window_size).2.
Proof.
  intros Hw. unfold load_and_process_data.
  rewrite (load_and_process_body_same_input w1 w2) by done.
  by destruct (load_and_process_body w2 json_file window_size).
Qed.

Lemma calculate_weekly_data_same_input (w1 w2 : world) (json_file : string) :
  same_input w1 w2 →
  same_input w1 (calculate_weekly_data w2 json_file).2.
Proof.
  intros Hw. unfold calculate_weekly_data.
  by destruct (calculate_weekly_body w2 json_file).
Qed.

(** C8. The daily builder is a function of its input alone: run again on
    the world the first run left behind, with the same file and window
    size, it returns the same series (dates, raw columns and rolling
    averages); and so do any two runs on worlds with the same files,
    whatever was printed before. *)
Theorem load_and_process_data_deterministic (w : world) (json_file : string)
    (window_size : Z) :
  (load_and_process_data
     (load_and_process_data w json_file window_size).2
     json_file window_size).1
  = (load_and_process_data w json_file window_size).1
  ∧ (∀ w', same_input w' w →
       (load_and_process_data w' json_file window_size).1
       = (load_and_process_data w json_file window_size).1).
Proof.
  split.
  - apply load_and_process_data_same_input.
    split; symmetry;
      apply (load_and_process_data_same_input w w json_file window_size);
      done.
  - intros w' Hw. by apply load_and_process_data_same_input.
Qed.

(** ** Loading every country *)

Lemma load_daily_countries_lookup (w0 : world) (window_size : Z)
    (countries : list string) (all_data : gmap string daily_series)
    (w : world) (c : string) :
  same_input w0 w →
  (foldl (fun '(all_data, w) country =>
            let '(country_data, w') :=
              load_and_process_data w (country_file country) window_size in
            (<[country := country_data]> all_data, w'))
         (all_data, w) countries).1 !! c
  = if decide (c ∈ countries)
    then Some (load_and_process_data w0 (country_file c) window_size).1
    else all_data !! c.
Proof.
  revert all_data w. induction countries as [|c' cs IH]; intros all_data w Hw.
  - cbn [foldl fst]. by destruct (decide (c ∈ [])) as [?%elem_of_nil|].
  - cbn [foldl].
    pose proof (load_and_process_data_same_input w0 w (country_file c')
                  window_size Hw) as [Hr Hw'].
    destruct (load_and_process_data w (country_file c') window_size)
      as [cd w'] eqn:Hrun.
    simpl in Hr, Hw'. rewrite IH by done.
    destruct (decide (c ∈ cs)) as [Hin|Hnin].
    + rewrite decide_True by (by right). done.
    + destruct (decide (c = c')) as [->|Hne].
      * rewrite decide_True by left. by rewrite lookup_insert_eq, Hr.
      * rewrite decide_False by (by intros [?|?]%elem_of_cons).
        by rewrite lookup_insert_ne.
Qed.

Lemma load_weekly_countries_lookup (countries : list string)
    (all_data : gmap string weekly_series) (w : world) (c : string) :
  (foldl (fun '(all_data, w) country =>
            let '(country_data, w') :=
              calculate_weekly_data w (country_file country) in
            (<[country := country_data]> all_data, w'))
         (all_data, w) countries).1 !! c
  = if decide (c ∈ countries) then Some empty_weekly else all_data !! c.
Proof.
  revert all_data w. induction countries as [|c' cs IH]; intros all_data w.
  - cbn [foldl fst]. by destruct (decide (c ∈ [])) as [?%elem_of_nil|].
  - cbn [foldl].
    pose proof (calculate_weekly_data_empty w (country_file c')) as Hr.
    destruct (calculate_weekly_data w (country_file c')) as [cd w'] eqn:Hrun.
    simpl in Hr. subst cd. rewrite IH.
    destruct (decide (c ∈ cs)) as [Hin|Hnin].
    + rewrite decide_True by (by right). done.
    + destruct (decide (c = c')) as [->|Hne].
      * rewrite decide_True by left. by rewrite lookup_insert_eq.
      * rewrite decide_False by (by intros [?|?]%elem_of_cons).
        by rewrite lookup_insert_ne.
Qed.

(** C6. When a country's file is missing or is not well-formed JSON, both
    builders catch the failure and return the empty series for it; in the
    loading loops that country gets the empty series and every country,
    this one included, gets exactly what its builder returns on its own
    file, so the failed load stops no other country. *)
Theorem failed_load_is_empty_series (w : world) (countries : list string)
    (bad : string) (window_size : Z) :
  bad ∈ countries →
  files w (country_file bad) = Missing
  ∨ files w (country_file bad) = Malformed →
  (load_and_process_data w (country_file bad) window_size).1 = empty_daily
  ∧ (calculate_weekly_data w (country_file bad)).1 = empty_weekly
  ∧ (load_daily_countries w countries window_size).1 !! bad = Some empty_daily
  ∧ (load_weekly_countries w countries).1 !! bad = Some empty_weekly
  ∧ (∀ c, c ∈ countries →
       (load_daily_countries w countries window_size).1 !! c
       = Some (load_and_process_data w (country_file c) window_size).1
       ∧ (load_weekly_countries w countries).1 !! c
         = Some (calculate_weekly_data w (country_file c)).1).
Proof.
  intros Hbad Hfile.
  assert ((load_and_process_data w (country_file bad) window_size).1
          = empty_daily) as Hempty.
  { unfold load_and_process_data, load_and_process_body, read_json.
    by destruct Hfile as [-> | ->]. }
  assert (∀ c, c ∈ countries →
       (load_daily_countries w countries window_size).1 !! c
       = Some (load_and_process_data w (country_file c) window_size).1
       ∧ (load_weekly_countries w countries).1 !! c
         = Some (calculate_weekly_data w (country_file c)).1) as Hall.
  { intros c Hc. unfold load_daily_countries, load_weekly_countries.
    rewrite (load_daily_countries_lookup w) by done.
    rewrite load_weekly_countries_lookup, calculate_weekly_data_empty.
    by rewrite !decide_True by done. }
  split; [done|]. split; [apply calculate_weekly_data_empty|].
  destruct (Hall bad Hbad) as [Hd Hw].
  by rewrite Hd, Hw, Hempty, calculate_weekly_data_empty.
Qed.

(** ** DailySeriesBuilder: the completed range *)

Lemma canonical_date_of_key (pads : bool) (k : string) :
  canonical pads k = true →
  strptime_ymd k = Ok (date_of_key k)
  ∧ valid_date (date_of_key k) = true
  ∧ strftime_ymd pads (date_of_key k) = k.
Proof.
  intros (d & Hk & Hv & Hs & _)%canonical_key_form.
  unfold date_of_key. by rewrite Hk.
Qed.

Lemma canonical_le_dates (pads : bool) (k1 k2 : string) :
  canonical pads k1 = true → canonical pads k2 = true →
  String.le k1 k2 → date_leb (date_of_key k1) (date_of_key k2) = true.
Proof.
  intros H1 H2 Hle.
  destruct (canonical_date_of_key pads k1 H1) as (Hk1 & _).
  destruct (canonical_date_of_key pads k2 H2) as (Hk2 & _).
  rewrite <- (canonical_leb pads k1 k2) by done.
  by apply Is_true_true_1.
Qed.

Lemma StronglySorted_head_least {A : Type} (R : relation A) `{!Reflexive R}
    (x : A) (l : list A) :
  StronglySorted R (x :: l) → ∀ y, y ∈ x :: l → R x y.
Proof.
  intros Hs y [->|Hy]%elem_of_cons; [done|].
  apply StronglySorted_inv in Hs as [_ Hall].
  by eapply Forall_forall in Hall.
Qed.

Lemma StronglySorted_last_greatest {A : Type} (R : relation A)
    `{!Reflexive R} (l : list A) (z : A) :
  StronglySorted R l → last l = Some z → ∀ y, y ∈ l → R y z.
Proof.
  induction l as [|x l IH]; [done|]. intros Hs Hlast y Hy.
  apply StronglySorted_inv in Hs as Hs'. destruct Hs' as [Hsl Hall].
  destruct l as [|x' l'].
  - injection Hlast as <-. by apply list_elem_of_singleton in Hy as ->.
  - change (last (x :: x' :: l')) with (last (x' :: l')) in Hlast.
    apply elem_of_cons in Hy as [->|Hy]; [|by apply IH].
    eapply Forall_forall in Hall; [done|]. by eapply last_Some_elem_of.
Qed.

Lemma load_and_process_body_completed (w : world) (json_file : string)
    (window_size : Z) (data : json) (t : tables) (dates : list datetime) :
  files w json_file = Parsed data →
  aggregate_daily data = Ok t →
  sorted_keys t ≠ [] →
  map_result strptime_ymd (sorted_keys t) = Ok dates →
  load_and_process_body w json_file window_size
  = completed ← complete_series (pads_year w) t dates
                  (commits_at t <$> sorted_keys t)
                  (active_at t <$> sorted_keys t);
    Ok (mk_daily completed.1.1
          (calculate_rolling_average (inject_Z <$> completed.1.2) window_size)
          (calculate_rolling_average (inject_Z <$> completed.2) window_size)
          completed.1.2 completed.2).
Proof.
  intros Hfile Ht Hne Hdates. unfold load_and_process_body, read_json.
  rewrite Hfile. simpl. rewrite Ht. simpl.
  destruct (sorted_keys t) as [|k ks]; [done|].
  rewrite Hdates. simpl.
  by destruct (complete_series _ _ _ _ _) as [[[??]?]|].
Qed.

Lemma daily_series_completed (w : world) (json_file : string)
    (window_size : Z) (data : json) (t : tables) :
  files w json_file = Parsed data →
  aggregate_daily data = Ok t →
  (∀ k, k ∈ dom (commits_by t) → canonical (pads_year w) k = true) →
  dom (commits_by t) ≠ ∅ →
  strftime_ymd (pads_year w) MAXDATE ∉ dom (commits_by t)
  ∨ size (dom (commits_by t)) = 1%nat →
  ∃ (klo khi : string) (lo hi : datetime),
    klo ∈ dom (commits_by t) ∧ khi ∈ dom (commits_by t)
    ∧ strptime_ymd klo = Ok lo ∧ strptime_ymd khi = Ok hi
    ∧ (∀ k d, k ∈ dom (commits_by t) → strptime_ymd k = Ok d →
         date_leb lo d = true ∧ date_leb d hi = true)
    ∧ load_and_process_body w json_file window_size
      = Ok (load_and_process_data w json_file window_size).1
    ∧ Z.of_nat (length (fechas (load_and_process_data w json_file window_size).1))
      = toordinal hi - toordinal lo + 1
    ∧ rolled window_size (load_and_process_data w json_file window_size).1
    ∧ (∀ (i : nat) (d : datetime),
         fechas (load_and_process_data w json_file window_size).1 !! i = Some d →
         valid_date d = true
         ∧ toordinal d = toordinal lo + Z.of_nat i
         ∧ raw_commits (load_and_process_data w json_file window_size).1 !! i
           = Some (filled_count (pads_year w) t d)
         ∧ raw_users (load_and_process_data w json_file window_size).1 !! i
           = Some (filled_users (pads_year w) t d)).
Proof.
  intros Hfile Ht Hcan Hne Hmax.
  set (pads := pads_year w) in *.
  assert (∀ k, k ∈ sorted_keys t → canonical pads k = true) as Hcan'
    by (intros k ?%sorted_keys_elem; by apply Hcan).
  assert (map_result strptime_ymd (sorted_keys t)
          = Ok (date_of_key <$> sorted_keys t)) as Hdates.
  { apply map_result_Ok. intros k Hk.
    by destruct (canonical_date_of_key pads k (Hcan' k Hk)). }
  assert (sorted_keys t ≠ []) as Hkeys.
  { intros Hnil. apply Hne. apply set_eq. intros k.
    rewrite <- sorted_keys_elem, Hnil. set_solver. }
  pose proof (sorted_keys_sorted t) as Hsorted.
  pose proof (sorted_keys_length t) as Hsize.
  unfold load_and_process_data.
  rewrite (load_and_process_body_completed w json_file window_size data t _
             Hfile Ht Hkeys Hdates).
  fold pads. unfold complete_series. rewrite length_fmap.
  destruct (sorted_keys t) as [|k0 ks] eqn:Hsk; [done|].
  assert (∀ k, k ∈ dom (commits_by t) ↔ k ∈ k0 :: ks) as Hdom
    by (intros k; by rewrite <- Hsk, sorted_keys_elem).
  destruct (canonical_date_of_key pads k0 (Hcan' k0 ltac:(left)))
    as (Hk0 & Hv0 & Hs0).
  destruct ks as [|k1 ks'].
  - (* a single recorded date *)
    cbn -[load_and_process_body].
    exists k0, k0, (date_of_key k0), (date_of_key k0).
    split; [apply Hdom; left|]. split; [apply Hdom; left|].
    do 2 (split; [done|]). split.
    { intros k d Hk%Hdom Hd. apply list_elem_of_singleton in Hk as ->.
      rewrite Hk0 in Hd. injection Hd as <-.
      rewrite date_leb_toordinal by done. split; apply Z.leb_refl. }
    split; [done|]. split; [lia|]. split; [done|].
    intros [|i] d; [|done]. intros [= <-].
    split; [done|]. split; [lia|].
    unfold filled_count, filled_users. rewrite Hs0.
    rewrite !decide_True by (apply Hdom; left). done.
  - (* several: the range is completed *)
    assert (is_Some (last (k0 :: k1 :: ks'))) as [kl Hlast]
      by (rewrite last_is_Some; done).
    pose proof (last_Some_elem_of _ _ Hlast) as Hkl.
    destruct (canonical_date_of_key pads kl (Hcan' kl Hkl))
      as (Hkl0 & Hvl & Hsl).
    assert ((1 <? length (k0 :: k1 :: ks'))%nat = true) as ->
      by (apply Nat.ltb_lt; simpl; lia).
    rewrite fmap_last, Hlast. cbn [fmap option_fmap option_map head fmap list_fmap].
    assert (date_of_key kl ≠ MAXDATE) as Hnmax.
    { intros Heq. destruct Hmax as [Hmax|Hmax].
      - apply Hmax. rewrite <- Heq, Hsl. by apply Hdom.
      - rewrite <- Hsize in Hmax. simpl in Hmax. lia. }
    destruct (date_range_days (date_of_key k0) (date_of_key kl) Hv0 Hvl Hnmax)
      as (l & Hl & Hlen & Hdays).
    rewrite Hl. cbn -[load_and_process_body].
    assert (date_leb (date_of_key k0) (date_of_key kl) = true) as Hle.
    { apply (canonical_le_dates pads); [by apply Hcan'; left|by apply Hcan'|].
      by apply (StronglySorted_head_least _ _ _ Hsorted). }
    rewrite date_leb_toordinal in Hle by done. apply Z.leb_le in Hle.
    exists k0, kl, (date_of_key k0), (date_of_key kl).
    split; [apply Hdom; left|]. split; [by apply Hdom|].
    do 2 (split; [done|]). split.
    { intros k d Hk%Hdom Hd.
      destruct (canonical_date_of_key pads k (Hcan' k Hk)) as (Hkd & _).
      rewrite Hkd in Hd. injection Hd as <-. split.
      - apply (canonical_le_dates pads); [by apply Hcan'; left|by apply Hcan'|].
        by apply (StronglySorted_head_least _ _ _ Hsorted).
      - apply (canonical_le_dates pads); [by apply Hcan'|by apply Hcan'|].
        by apply (StronglySorted_last_greatest _ _ _ Hsorted Hlast). }
    split; [done|]. split; [lia|]. split; [done|].
    intros i d Hi. destruct (Hdays i d Hi) as [Hvd Hord].
    split; [done|]. split; [done|].
    by rewrite !list_lookup_fmap, Hi.
Qed.

(** X1. The daily series over canonical keys (dates written as the
    program writes them, zero-padded YYYY-MM-DD): one entry per day from
    the earliest to the latest recorded date, consecutive days being one
    ordinal apart, each day holding the table's values when its key is
    recorded and zeros when it is not, and the rolling averages being
    those of the two raw columns.  The last representable date may only
    be recorded alone: the loop steps past the latest date before it
    stops. *)
Theorem daily_series_contiguous (w : world) (json_file : string)
    (window_size : Z) (data : json) (t : tables) :
  files w json_file = Parsed data →
  aggregate_daily data = Ok t →
  (∀ k, k ∈ dom (commits_by t) → canonical (pads_year w) k = true) →
  dom (commits_by t) ≠ ∅ →
  strftime_ymd (pads_year w) MAXDATE ∉ dom (commits_by t)
  ∨ size (dom (commits_by t)) = 1%nat →
  ∃ (klo khi : string) (lo hi : datetime),
    klo ∈ dom (commits_by t) ∧ khi ∈ dom (commits_by t)
    ∧ strptime_ymd klo = Ok lo ∧ strptime_ymd khi = Ok hi
    ∧ (∀ k d, k ∈ dom (commits_by t) → strptime_ymd k = Ok d →
         date_leb lo d = true ∧ date_leb d hi = true)
    ∧ load_and_process_body w json_file window_size
      = Ok (load_and_process_data w json_file window_size).1
    ∧ Z.of_nat (length (fechas (load_and_process_data w json_file window_size).1))
      = toordinal hi - toordinal lo + 1
    ∧ rolled window_size (load_and_process_data w json_file window_size).1
    ∧ (∀ (i : nat) (d : datetime),
         fechas (load_and_process_data w json_file window_size).1 !! i = Some d →
         valid_date d = true
         ∧ toordinal d = toordinal lo + Z.of_nat i
         ∧ raw_commits (load_and_process_data w json_file window_size).1 !! i
           = Some (filled_count (pads_year w) t d)
         ∧ raw_users (load_and_process_data w json_file window_size).1 !! i
           = Some (filled_users (pads_year w) t d)).
Proof. apply daily_series_completed. Qed.


(** ** Recorded dates *)

Lemma strptime_strftime_MAXDATE (pads : bool) :
  strptime_ymd (strftime_ymd pads MAXDATE) = Ok MAXDATE.
Proof. by destruct pads. Qed.

Lemma sum_Z_zero (l : list Z) : Forall (fun n => n = 0) l → sum_Z l = 0.
Proof. induction 1 as [|n l -> _ IH]; [done|]. unfold sum_Z in *. simpl. lia. Qed.

(** X2. A date recorded with count 0 is a recorded date like any other: it
    lies in the range of the daily series, with the sum of the counts
    recorded for it as its total and the users with a positive count as
    its active users; when every count recorded for it is 0, both are 0.
    A date no later (no earlier) than every recorded date is the first
    (last) of the series. *)
Theorem zero_count_date_in_daily_range (w : world) (json_file : string)
    (window_size : Z) (data : json) (recs : list triple) (k u : string) :
  files w json_file = Parsed data →
  triples daily_key data = Ok recs →
  (∀ r : triple, r ∈ recs → canonical (pads_year w) r.1.1 = true) →
  (∀ r : triple, r ∈ recs → strptime_ymd r.1.1 ≠ Ok MAXDATE) →
  (k, u, 0) ∈ recs →
  ∃ (i : nat) (d : datetime),
    strptime_ymd k = Ok d
    ∧ fechas (load_and_process_data w json_file window_size).1 !! i = Some d
    ∧ raw_commits (load_and_process_data w json_file window_size).1 !! i
      = Some (sum_Z (counts_for k recs))
    ∧ raw_users (load_and_process_data w json_file window_size).1 !! i
      = Some (active_for k recs)
    ∧ ((∀ u' n', (k, u', n') ∈ recs → n' = 0) →
       raw_commits (load_and_process_data w json_file window_size).1 !! i
       = Some 0
       ∧ raw_users (load_and_process_data w json_file window_size).1 !! i
         = Some 0)
    ∧ ((∀ r : triple, r ∈ recs → date_leb d (date_of_key r.1.1) = true) →
       i = 0%nat)
    ∧ ((∀ r : triple, r ∈ recs → date_leb (date_of_key r.1.1) d = true) →
       S i = length (fechas (load_and_process_data w json_file window_size).1)).
Proof.
  intros Hfile Hrecs Hcan Hmax Hrec.
  set (t := tally recs no_tables).
  assert (aggregate_daily data = Ok t) as Ht
    by (by rewrite aggregate_daily_generic, aggregate_triples, Hrecs).
  assert (∀ k', k' ∈ dom (commits_by t) ↔ ∃ u' n', (k', u', n') ∈ recs)
    as Hdom.
  { intros k'. unfold t. rewrite dom_tally. simpl. rewrite dom_empty_L.
    set_solver. }
  assert (∀ k', k' ∈ dom (commits_by t) →
                canonical (pads_year w) k' = true) as Hcan'.
  { intros k' (u' & n' & Hin)%Hdom. apply (Hcan _ Hin). }
  assert (k ∈ dom (commits_by t)) as Hk by (apply Hdom; eauto).
  destruct (daily_series_completed w json_file window_size data t Hfile Ht
              Hcan') as (klo & khi & lo & hi & Hklo & Hkhi & Hlo & Hhi
                         & Hbounds & _ & Hlen & _ & Hentries).
  { intros Hempty. rewrite Hempty in Hk. set_solver. }
  { left. intros (u' & n' & Hin)%Hdom.
    apply (Hmax _ Hin). simpl. apply strptime_strftime_MAXDATE. }
  destruct (canonical_date_of_key _ _ (Hcan' _ Hk)) as (Hkd & Hvd & Hsd).
  set (d := date_of_key k) in *.
  destruct (Hbounds k d Hk Hkd) as [Hlod Hdhi].
  pose proof (strptime_ymd_valid _ _ Hlo) as Hvlo.
  pose proof (strptime_ymd_valid _ _ Hhi) as Hvhi.
  rewrite date_leb_toordinal in Hlod, Hdhi by done.
  apply Z.leb_le in Hlod, Hdhi.
  set (r := (load_and_process_data w json_file window_size).1) in *.
  set (i := Z.to_nat (toordinal d - toordinal lo)).
  assert (is_Some (fechas r !! i)) as [d' Hd']
    by (apply lookup_lt_is_Some; lia).
  destruct (Hentries i d' Hd') as (Hvd' & Hord & Hc & Hu).
  assert (d' = d) as -> by (apply toordinal_inj; try done; lia).
  unfold filled_count, filled_users in Hc, Hu. rewrite Hsd in Hc, Hu.
  rewrite !decide_True in Hc, Hu by done.
  assert (commits_at t k = sum_Z (counts_for k recs)) as Hsum.
  { unfold t. rewrite commits_at_tally. unfold commits_at. simpl.
    by rewrite lookup_empty. }
  exists i, d. split; [done|]. split; [done|].
  split; [by rewrite Hc, Hsum|]. split; [done|]. split; [|split].
  - intros Hzero. rewrite Hc, Hu, Hsum. split; f_equal.
    + apply sum_Z_zero. unfold counts_for. apply Forall_fmap, Forall_forall.
      intros [[k' u'] n'] [Hk' Hin]%list_elem_of_filter. simpl in *.
      subst k'. by apply (Hzero u').
    + unfold active_at.
      assert (users_at t k = ∅) as ->; [|done].
      apply set_eq. intros u'. unfold t. rewrite users_at_tally.
      unfold users_at at 1. simpl. rewrite lookup_empty. simpl.
      split; [|set_solver]. intros [?|(n' & Hin & Hpos)]; [set_solver|].
      apply Hzero in Hin. lia.
  - intros Hleast.
    destruct (Hdom klo) as [(u' & n' & Hin) _]; [done|].
    specialize (Hleast _ Hin). simpl in Hleast.
    destruct (canonical_date_of_key _ _ (Hcan' _ Hklo)) as (Hklo' & _).
    rewrite Hlo in Hklo'. injection Hklo' as Hklo'. rewrite <- Hklo' in Hleast.
    rewrite date_leb_toordinal in Hleast by done. apply Z.leb_le in Hleast.
    unfold i. lia.
  - intros Hmost.
    destruct (Hdom khi) as [(u' & n' & Hin) _]; [done|].
    specialize (Hmost _ Hin). simpl in Hmost.
    destruct (canonical_date_of_key _ _ (Hcan' _ Hkhi)) as (Hkhi' & _).
    rewrite Hhi in Hkhi'. injection Hkhi' as Hkhi'. rewrite <- Hkhi' in Hmost.
    rewrite date_leb_toordinal in Hmost by done. apply Z.leb_le in Hmost.
    unfold i. lia.
Qed.

(** ** Worked inputs *)

Lemma forallb_dom (P : string → bool) (t : tables) :
  forallb P (elements (dom (commits_by t))) = true →
  ∀ k, k ∈ dom (commits_by t) → P k = true.
Proof.
  intros H k Hk. rewrite forallb_forall in H. apply H.
  by apply list_elem_of_In, elem_of_elements.
Qed.

(** X3. The spec's example: activity on 2024-01-01 (3 commits, 1 user) and
    2024-01-03 (2 commits, 1 user) gives the three days
    2024-01-01: 3/1, 2024-01-02: 0/0, 2024-01-03: 2/1, with their
    7-day rolling averages. *)
Lemma daily_series_two_days (pads : bool) :
  (load_and_process_data (single_file "f" two_days pads) "f" 7).1
  = mk_daily
      [mk_date 2024 1 1; mk_date 2024 1 2; mk_date 2024 1 3]
      [Num (3 # 1); Num (3 # 2); Num (5 # 3)]%Q
      [Num (1 # 1); Num (1 # 2); Num (2 # 3)]%Q
      [3; 0; 2] [1; 0; 1].
Proof. destruct pads; vm_compute; reflexivity. Qed.

Lemma daily_series_contiguous_witness :
  Z.of_nat (length (fechas
    (load_and_process_data (single_file "f" two_days false) "f" 7).1)) = 3.
Proof.
  destruct (daily_series_contiguous (single_file "f" two_days false) "f" 7
              two_days (tables_of (aggregate_daily two_days)))
    as (klo & khi & lo & hi & _ & _ & Hlo & Hhi & _ & _ & Hlen & _).
  - reflexivity.
  - vm_compute. reflexivity.
  - apply forallb_dom. vm_compute. reflexivity.
  - apply (bool_decide_eq_false_1 _). vm_compute. reflexivity.
  - left. apply (bool_decide_eq_false_1 _). vm_compute. reflexivity.
  - vm_compute. reflexivity.
Defined.

Lemma zero_count_date_in_daily_range_witness :
  ∃ i : nat,
    fechas (load_and_process_data
              (single_file "f" two_days_and_zero false) "f" 7).1 !! i
    = Some (mk_date 2024 1 2).
Proof.
  destruct (zero_count_date_in_daily_range
              (single_file "f" two_days_and_zero false) "f" 7
              two_days_and_zero
              [("2024-01-01", "alice", 3); ("2024-01-03", "alice", 2);
               ("2024-01-02", "bob", 0)]
              "2024-01-02" "bob")
    as (i & d & Hd & Hi & _).
  - reflexivity.
  - vm_compute. reflexivity.
  - apply Forall_forall. repeat constructor.
  - apply Forall_forall. repeat constructor; intros [=].
  - do 2 right. left.
  - exists i. rewrite Hi. f_equal. vm_compute in Hd. by injection Hd.
Defined.

(** C1 (the code at a failing input). With commits on 9999-12-30 and
    9999-12-31 the input has two recorded dates, but the loop that
    builds the range steps past the latest date before it tests it: on a
    range that ends on 9999-12-31, whatever its first day, the last step
    raises [OverflowError]; the handler takes over, and the builder
    returns the empty series instead of the two days. *)
Theorem daily_range_overflows_at_last_date (pads : bool) :
  sorted_keys (tables_of (aggregate_daily last_two_days))
  = ["9999-12-30"; "9999-12-31"]
  ∧ (∀ first, valid_date first = true →
       date_range first (mk_date 9999 12 31) = Raise OverflowError)
  ∧ load_and_process_body (single_file "f" last_two_days pads) "f" 7
    = Raise OverflowError
  ∧ (load_and_process_data (single_file "f" last_two_days pads) "f" 7).1
    = empty_daily.
Proof.
  split; [by vm_compute|]. split; [apply date_range_MAXDATE|].
  destruct pads; vm_compute; done.
Qed.

(** Before the year 1000 the platform decides: where [strftime] pads the
    year the two recorded days keep their values, where it does not
    (glibc) their keys are never found again and both days get zeros. *)
Lemma daily_series_before_year_1000 :
  raw_commits
    (load_and_process_data (single_file "f" early_days true) "f" 7).1
  = [3; 2]
  ∧ raw_commits
      (load_and_process_data (single_file "f" early_days false) "f" 7).1
    = [0; 0]
  ∧ canonical false "0999-12-30" = false.
Proof. vm_compute. done. Qed.

(** X4. Whatever the file holds, [calculate_weekly_data] returns the
    empty series: no dates, no commits, no active users, no labels. *)
Theorem weekly_builder_returns_nothing (w : world) (json_file : string) :
  (calculate_weekly_data w json_file).1 = empty_weekly.
Proof. apply calculate_weekly_data_empty. Qed.

Lemma sum_Z_nonpos_zero (l : list Z) :
  Forall (fun n => n ≤ 0) l → sum_Z l = 0 → Forall (fun n => n = 0) l.
Proof.
  induction 1 as [|n l Hn Hl IH]; intros Hsum; [constructor|].
  unfold sum_Z in *. cbn [foldr] in Hsum.
  assert (foldr Z.add 0 l ≤ 0) as Hle.
  { clear -Hl. induction Hl as [|m l Hm _ IHl]; simpl; lia. }
  constructor; [lia|apply IH; lia].
Qed.

(** C4 (as stated, refuted). For a single record with count 0 on
    2024-01-01 the table the weekly builder fills at lines 131-146 has
    the week 2024-W01, and it has neither a commit nor an active user:
    [weekly_commits[week_key] += cnt] creates the week also for a count
    of 0. *)
Lemma weekly_table_holds_zero_activity_week :
  "2024-W01" ∈ sorted_keys (tables_of (aggregate_weekly one_day_zero))
  ∧ ¬ (0 < commits_at (tables_of (aggregate_weekly one_day_zero)) "2024-W01"
       ∨ 0 < active_at (tables_of (aggregate_weekly one_day_zero))
               "2024-W01").
Proof.
  split.
  - assert (sorted_keys (tables_of (aggregate_weekly one_day_zero))
            = ["2024-W01"]) as -> by (vm_compute; reflexivity).
    left.
  - assert (commits_at (tables_of (aggregate_weekly one_day_zero)) "2024-W01"
            = 0) as -> by (vm_compute; reflexivity).
    assert (active_at (tables_of (aggregate_weekly one_day_zero)) "2024-W01"
            = 0) as -> by (vm_compute; reflexivity).
    lia.
Qed.

(** C4 (amended). The table the weekly builder fills has a week exactly
    when the input has a record dated in that week, whatever its count;
    and a week is without activity - 0 commits and 0 active users -
    exactly when every record dated in it has count 0.  So a week whose
    records all have count 0 is a zero-activity week of the table.  The
    series the builder returns has no such week only because it has no
    week at all. *)
Theorem weekly_zero_activity_week_iff (w : world) (json_file : string)
    (data : json) (recs : list triple) (week : string) :
  triples weekly_key data = Ok recs →
  aggregate_weekly data = Ok (tally recs no_tables)
  ∧ (week ∈ sorted_keys (tally recs no_tables)
     ↔ ∃ u n, (week, u, n) ∈ recs)
  ∧ (commits_at (tally recs no_tables) week = 0
     ∧ active_at (tally recs no_tables) week = 0
     ↔ ∀ u n, (week, u, n) ∈ recs → n = 0)
  ∧ (calculate_weekly_data w json_file).1 = empty_weekly.
Proof.
  intros Hrecs. set (t := tally recs no_tables).
  split; [by rewrite aggregate_weekly_generic, aggregate_triples, Hrecs|].
  split.
  { rewrite sorted_keys_elem. unfold t. rewrite dom_tally. simpl.
    rewrite dom_empty_L. set_solver. }
  split; [|apply calculate_weekly_data_empty].
  assert (commits_at t week = sum_Z (counts_for week recs)) as Hsum.
  { unfold t. rewrite commits_at_tally. unfold commits_at. simpl.
    by rewrite lookup_empty. }
  assert (∀ u, u ∈ users_at t week ↔ ∃ n, (week, u, n) ∈ recs ∧ 0 < n)
    as Husers.
  { intros u. unfold t. rewrite users_at_tally. unfold users_at at 1.
    simpl. rewrite lookup_empty. simpl. set_solver. }
  split.
  - intros [Hc Ha] u n Hin.
    assert (users_at t week = ∅) as Hempty.
    { unfold active_at in Ha. apply leibniz_equiv, size_empty_iff. lia. }
    assert (Forall (fun n => n ≤ 0) (counts_for week recs)) as Hle.
    { unfold counts_for. apply Forall_fmap, Forall_forall.
      intros [[k' u'] n'] [Hk' Hin']%list_elem_of_filter. simpl in *.
      subst k'. destruct (decide (0 < n')) as [Hpos|]; [|lia].
      assert (u' ∈ users_at t week) as Hu' by (apply Husers; eauto).
      rewrite Hempty in Hu'. set_solver. }
    rewrite Hsum in Hc. pose proof (sum_Z_nonpos_zero _ Hle Hc) as Hz.
    rewrite Forall_forall in Hz. apply Hz. unfold counts_for.
    apply list_elem_of_fmap. exists (week, u, n). split; [done|].
    by apply list_elem_of_filter.
  - intros Hzero. split.
    + rewrite Hsum. apply sum_Z_zero. unfold counts_for.
      apply Forall_fmap, Forall_forall.
      intros [[k' u'] n'] [Hk' Hin]%list_elem_of_filter. simpl in *.
      subst k'. by apply (Hzero u').
    + unfold active_at. assert (users_at t week = ∅) as ->; [|done].
      apply set_eq. intros u. rewrite Husers. split; [|set_solver].
      intros (n & Hin & Hpos). apply Hzero in Hin. lia.
Qed.

Lemma weekly_zero_activity_week_iff_witness :
  commits_at (tally [("2024-W01", "alice", 0)] no_tables) "2024-W01" = 0
  ∧ active_at (tally [("2024-W01", "alice", 0)] no_tables) "2024-W01" = 0.
Proof.
  destruct (weekly_zero_activity_week_iff (single_file "f" one_day_zero true)
              "f" one_day_zero [("2024-W01", "alice", 0)] "2024-W01")
    as (_ & _ & Hiff & _).
  - vm_compute. reflexivity.
  - apply Hiff. intros u n Hin. apply list_elem_of_singleton in Hin.
    by injection Hin.
Defined.

(** C7 (the code at a failing input). Line 167 raises for every week
    label.  For one record on Monday 2024-01-01 the table holds the week
    2024-W01, but [strptime] is handed the string "2024-1-1" where the
    format asks for "2024-W01-1" (which gives Monday 2024-01-01): it
    raises [ValueError] and the builder returns the empty series, with
    no week and no Monday in it. *)
Theorem weekly_week_start_raises (pads : bool) :
  (∀ week_key, week_to_date week_key = Raise ValueError)
  ∧ sorted_keys (tables_of (aggregate_weekly one_day)) = ["2024-W01"]
  ∧ week_start_string 2024 1 = "2024-1-1"
  ∧ strptime_GVu "2024-W01-1" = Ok (mk_date 2024 1 1)
  ∧ isoweekday (mk_date 2024 1 1) = 1
  ∧ calculate_weekly_body (single_file "f" one_day pads) "f"
    = Raise ValueError
  ∧ (calculate_weekly_data (single_file "f" one_day pads) "f").1
    = empty_weekly.
Proof.
  split; [apply week_to_date_raises|]. destruct pads; vm_compute; done.
Qed.

(** C9 (the code at a failing input). For a single record with count 0
    on 2024-01-01 the daily series has that date with 0 commits and 0
    active users, and the weekly table has its week 2024-W01 with 0 and
    0; but the weekly builder returns the empty series: the week gets no
    entry, because line 167 raises. *)
Theorem zero_count_week_has_no_entry (pads : bool) :
  (load_and_process_data (single_file "f" one_day_zero pads) "f" 7).1
  = mk_daily [mk_date 2024 1 1] [Num (0 # 1)%Q] [Num (0 # 1)%Q] [0] [0]
  ∧ sorted_keys (tables_of (aggregate_weekly one_day_zero)) = ["2024-W01"]
  ∧ commits_at (tables_of (aggregate_weekly one_day_zero)) "2024-W01" = 0
  ∧ active_at (tables_of (aggregate_weekly one_day_zero)) "2024-W01" = 0
  ∧ calculate_weekly_body (single_file "f" one_day_zero pads) "f"
    = Raise ValueError
  ∧ (calculate_weekly_data (single_file "f" one_day_zero pads) "f").1
    = empty_weekly.
Proof. destruct pads; vm_compute; done. Qed.

Lemma commits_at_least_active_users_witness :
  Forall2 (fun commits users => users ≤ commits)
    (raw_commits (load_and_process_data
                    (single_file "f" two_days_and_zero false) "f" 7).1)
    (raw_users (load_and_process_data
                  (single_file "f" two_days_and_zero false) "f" 7).1).
Proof.
  apply (commits_at_least_active_users
           (single_file "f" two_days_and_zero false) "f" 7 two_days_and_zero);
    reflexivity.
Defined.

Lemma failed_load_is_empty_series_witness :
  (load_daily_countries
     (single_file (country_file "India") two_days false)
     ["Bangladesh"; "India"] 7).1 !! "Bangladesh" = Some empty_daily
  ∧ (load_daily_countries
       (single_file (country_file "India") two_days false)
       ["Bangladesh"; "India"] 7).1 !! "India"
    = Some (load_and_process_data
              (single_file (country_file "India") two_days false)
              (country_file "India") 7).1.
Proof.
  destruct (failed_load_is_empty_series
              (single_file (country_file "India") two_days false)
              ["Bangladesh"; "India"] "Bangladesh" 7)
    as (_ & _ & Hbad & _ & Hall).
  - left.
  - left. reflexivity.
  - split; [exact Hbad|]. apply Hall. right. left.
Defined.

(** ** DailySeriesBuilder: aligned columns *)

Lemma load_and_process_body_lengths (w : world) (json_file : string)
    (window_size : Z) (r : daily_series) :
  load_and_process_body w json_file window_size = Ok r →
  length (raw_commits r) = length (fechas r)
  ∧ length (raw_users r) = length (fechas r).
Proof.
  intros (data & t & _ & _ & _ & Hshape)%load_and_process_body_shape.
  destruct Hshape as [[_ ->]|[(d & Hd & -> & -> & ->)
                             |(ds & d1 & d2 & _ & _ & _ & _ & _ & -> & ->)]].
  - done.
  - apply map_result_inv, Forall2_length in Hd. by rewrite !length_fmap.
  - by rewrite !length_fmap.
Qed.

Lemma load_and_process_data_aligned (w : world) (json_file : string)
    (window_size : Z) :
  aligned (load_and_process_data w json_file window_size).1.
Proof.
  unfold load_and_process_data.
  destruct (load_and_process_body w json_file window_size) as [r|e] eqn:Hb;
    [|done].
  pose proof (load_and_process_body_lengths _ _ _ _ Hb) as [Hc Hu].
  apply load_and_process_body_shape in Hb as (_ & _ & _ & _ & [Hrc Hru] & _).
  unfold aligned. simpl. rewrite Hrc, Hru, !rolling_average_length, !length_fmap.
  done.
Qed.

(** X5. Whatever the file holds and whatever the window size, the five
    columns of the series [load_and_process_data] returns have the same
    length: one raw commit count, one raw user count and one rolling
    average of each per date. *)
Theorem daily_series_columns_aligned (w : world) (json_file : string)
    (window_size : Z) :
  aligned (load_and_process_data w json_file window_size).1.
Proof. apply load_and_process_data_aligned. Qed.

(** ** RollingAverage: bounds *)

Lemma Qsum_lower (l : list Q) (lo : Q) :
  Forall (fun x => (lo <= x)%Q) l →
  (inject_Z (Z.of_nat (length l)) * lo <= Qsum l)%Q.
Proof.
  induction 1 as [|x l Hx _ IH].
  - change (inject_Z (Z.of_nat (length (@nil Q)))) with 0%Q.
    change (Qsum []) with 0%Q. lra.
  - cbn [length Qsum foldr]. fold (Qsum l).
    rewrite Nat2Z.inj_succ. unfold Z.succ. rewrite inject_Z_plus.
    change (inject_Z 1) with 1%Q. lra.
Qed.

Lemma Qsum_upper (l : list Q) (hi : Q) :
  Forall (fun x => (x <= hi)%Q) l →
  (Qsum l <= inject_Z (Z.of_nat (length l)) * hi)%Q.
Proof.
  induction 1 as [|x l Hx _ IH].
  - change (inject_Z (Z.of_nat (length (@nil Q)))) with 0%Q.
    change (Qsum []) with 0%Q. lra.
  - cbn [length Qsum foldr]. fold (Qsum l).
    rewrite Nat2Z.inj_succ. unfold Z.succ. rewrite inject_Z_plus.
    change (inject_Z 1) with 1%Q. lra.
Qed.

Lemma length_pos_Q {A : Type} (l : list A) :
  l ≠ [] → (0 < inject_Z (Z.of_nat (length l)))%Q.
Proof.
  intros Hl. change 0%Q with (inject_Z 0). rewrite <- Zlt_Qlt.
  destruct l; [done|]. simpl. lia.
Qed.

Lemma np_mean_lower (l : list Q) (lo : Q) :
  l ≠ [] → Forall (fun x => (lo <= x)%Q) l → float_ge lo (np_mean l).
Proof.
  intros Hl Hall. pose proof (length_pos_Q l Hl) as Hpos.
  pose proof (Qsum_lower l lo Hall) as Hsum.
  destruct l as [|x l']; [done|]. eexists. split; [reflexivity|].
  rewrite Qred_correct. apply Qle_shift_div_l; [done|].
  by rewrite Qmult_comm.
Qed.

Lemma np_mean_upper (l : list Q) (hi : Q) :
  l ≠ [] → Forall (fun x => (x <= hi)%Q) l → float_le hi (np_mean l).
Proof.
  intros Hl Hall. pose proof (length_pos_Q l Hl) as Hpos.
  pose proof (Qsum_upper l hi Hall) as Hsum.
  destruct l as [|x l']; [done|]. eexists. split; [reflexivity|].
  rewrite Qred_correct. apply Qle_shift_div_r; [done|].
  by rewrite Qmult_comm.
Qed.

Lemma window_at_nonempty (l : list Q) (w : Z) (i : nat) :
  1 ≤ w → (i < length l)%nat → window_at l w i ≠ [].
Proof.
  intros Hw Hi Hnil. apply (f_equal length) in Hnil.
  rewrite window_at_length in Hnil by done. simpl in Hnil. lia.
Qed.

(** What holds of the mean of every non-empty stretch of the input holds
    of every entry of the rolling average. *)
Lemma rolling_average_Forall (P : Q → Prop) (R : pyfloat → Prop)
    (l : list Q) (w : Z) :
  (∀ win : list Q, win ≠ [] → Forall P win → R (np_mean win)) →
  1 ≤ w → Forall P l → Forall R (calculate_rolling_average l w).
Proof.
  intros HR Hw Hall. apply Forall_lookup_2. intros i y Hy.
  pose proof (lookup_lt_Some _ _ _ Hy) as Hi.
  rewrite rolling_average_length in Hi.
  rewrite rolling_average_lookup in Hy by done. injection Hy as <-.
  apply HR; [by apply window_at_nonempty|].
  unfold window_at. by apply Forall_take, Forall_drop.
Qed.

(** X7. For a window size [w >= 1], smoothing never leaves the range of
    the data: when every element of the input lies between [lo] and [hi],
    every entry of [calculate_rolling_average] is a number (not [nan])
    between [lo] and [hi]. *)
Theorem rolling_average_within_bounds (l : list Q) (w : Z) (lo hi : Q) :
  1 ≤ w →
  Forall (fun x => (lo <= x)%Q ∧ (x <= hi)%Q) l →
  Forall (fun y => float_ge lo y ∧ float_le hi y)
    (calculate_rolling_average l w).
Proof.
  intros Hw Hall. apply rolling_average_Forall with
    (P := fun x => (lo <= x)%Q ∧ (x <= hi)%Q); [|done..].
  intros win Hne Hwin. split.
  - apply np_mean_lower; [done|]. eapply Forall_impl; [done|]. by intros x [? ?].
  - apply np_mean_upper; [done|]. eapply Forall_impl; [done|]. by intros x [? ?].
Qed.

Lemma rolling_average_within_bounds_witness :
  Forall (fun y => float_ge (1 # 1) y ∧ float_le (4 # 1) y)
    (calculate_rolling_average [1 # 1; 2 # 1; 3 # 1; 4 # 1]%Q 2).
Proof.
  apply rolling_average_within_bounds; [lia|].
  repeat constructor; vm_compute; discriminate.
Defined.

(** X9. With a window of one day the rolling average is the series
    itself: entry [i] is a number equal to element [i] of the input. *)
Theorem rolling_average_window_one (l : list Q) :
  Forall2 (fun y x => ∃ q : Q, y = Num q ∧ (q == x)%Q)
    (calculate_rolling_average l 1) l.
Proof.
  apply Forall2_same_length_lookup_2; [apply rolling_average_length|].
  intros i y x Hy Hx. pose proof (lookup_lt_Some _ _ _ Hx) as Hi.
  rewrite rolling_average_lookup in Hy by (done || lia). injection Hy as <-.
  unfold window_at.
  replace (Z.to_nat (Z.max 0 (Z.of_nat i - 1 + 1))) with i by lia.
  replace (S i - i)%nat with 1%nat by lia.
  rewrite (drop_S _ _ _ Hx). change (take 1 (x :: drop (S i) l)) with [x].
  eexists. split; [reflexivity|]. rewrite Qred_correct.
  change (Qsum [x]) with (x + 0)%Q.
  change (inject_Z (Z.of_nat (length [x]))) with 1%Q. field.
Qed.

(** ** PercentageChangeCalculator on the builder's series *)

Lemma day_change_lower (today yesterday : Q) :
  (0 <= today)%Q → (0 <= yesterday)%Q →
  float_ge (- (100 # 1)) (day_change (Num today) (Num yesterday)).
Proof.
  intros Ht Hy.
  destruct (day_change_cases today yesterday) as (c & Hc & H1 & H2 & H3).
  exists c. split; [done|].
  destruct (Qeq_dec yesterday 0) as [Hy0|Hy0].
  - destruct (Qeq_dec today 0) as [Ht0|Ht0].
    + rewrite (H2 Hy0 Ht0). lra.
    + rewrite (H3 Hy0 Ht0). lra.
  - rewrite (H1 Hy0).
    assert (0 < yesterday)%Q as Hpos.
    { apply Qle_lteq in Hy as [?|Heq]; [done|]. by symmetry in Heq. }
    assert (- (1) <= (today - yesterday) / yesterday)%Q
      by (apply Qle_shift_div_l; [done|lra]).
    lra.
Qed.

Lemma commits_at_nonneg (t : tables) (k : string) :
  users_le_commits t → 0 ≤ commits_at t k.
Proof. intros Ht. specialize (Ht k). unfold active_at in Ht. lia. Qed.

Lemma load_and_process_body_nonneg (w : world) (json_file : string)
    (window_size : Z) (data : json) (r : daily_series) :
  files w json_file = Parsed data → counts_nonneg data = true →
  load_and_process_body w json_file window_size = Ok r →
  Forall (fun n => 0 ≤ n) (raw_commits r).
Proof.
  intros Hfile Hnn Hb.
  apply load_and_process_body_shape in Hb
    as (data' & t & Hfile' & Ht & _ & Hshape).
  rewrite Hfile in Hfile'. injection Hfile' as <-.
  rewrite aggregate_daily_generic in Ht.
  pose proof (aggregate_users_le_commits _ _ _ Hnn Ht) as Hle.
  destruct Hshape as [[_ ->]|[(d & _ & _ & -> & _)
                             |(ds & d1 & d2 & _ & _ & _ & _ & _ & -> & _)]].
  - constructor.
  - apply Forall_fmap, Forall_forall. intros k _. by apply commits_at_nonneg.
  - apply Forall_fmap, Forall_forall. intros d _. simpl. unfold filled_count.
    destruct (decide _); [by apply commits_at_nonneg|done].
Qed.

Lemma percentage_change_of_aligned (cd : daily_series) :
  aligned cd →
  ∃ p : pct_series,
    percentage_change cd = Ok p
    ∧ fechas_pct p = drop 1 (fechas cd)
    ∧ length (pct_change p) = length (fechas_pct p)
    ∧ ∀ i y, pct_change p !! i = Some y →
        y = day_change (commits_rolling_avg cd !!! S i)
                       (commits_rolling_avg cd !!! i)
        ∧ (S i < length (commits_rolling_avg cd))%nat.
Proof.
  intros (_ & _ & Hlen & _). eexists.
  split; [apply percentage_change_steps; by rewrite Hlen|].
  simpl. split; [done|].
  split; [rewrite length_fmap, length_seq, length_drop; lia|].
  intros i y Hy. rewrite list_lookup_fmap in Hy.
  destruct (seq 0 _ !! i) as [j|] eqn:Hj; [|done].
  apply lookup_seq in Hj as [-> Hj]. simpl in Hy. injection Hy as <-.
  split; [done|lia].
Qed.

(** X6. On the series [load_and_process_data] returns, for every file
    and every window size, the percentage-change loop of
    [plot_percentage_change] raises nothing (no index is out of range):
    it yields the dates [fechas[1:]] and one change per date. *)
Theorem percentage_change_never_raises (w : world) (json_file : string)
    (window_size : Z) :
  ∃ p : pct_series,
    percentage_change (load_and_process_data w json_file window_size).1 = Ok p
    ∧ fechas_pct p
      = drop 1 (fechas (load_and_process_data w json_file window_size).1)
    ∧ length (pct_change p) = length (fechas_pct p).
Proof.
  destruct (percentage_change_of_aligned _
    (load_and_process_data_aligned w json_file window_size))
    as (p & Hp & Hf & Hl & _).
  by exists p.
Qed.

(** X8. When every count of the file is a non-negative integer and the
    window size is at least 1, every day-over-day change computed from the
    builder's rolling average of commits is a number of at least -100:
    activity cannot drop by more than 100 percent. *)
Theorem percentage_change_at_least_minus_100 (w : world) (json_file : string)
    (window_size : Z) (data : json) :
  files w json_file = Parsed data →
  counts_nonneg data = true →
  1 ≤ window_size →
  ∃ p : pct_series,
    percentage_change (load_and_process_data w json_file window_size).1 = Ok p
    ∧ Forall (float_ge (- (100 # 1))) (pct_change p).
Proof.
  intros Hfile Hnn Hw.
  destruct (percentage_change_of_aligned _
    (load_and_process_data_aligned w json_file window_size))
    as (p & Hp & _ & _ & Hsteps).
  exists p. split; [done|]. apply Forall_lookup_2. intros i y Hy.
  apply Hsteps in Hy as [-> Hi]. clear Hp Hsteps.
  unfold load_and_process_data in *.
  destruct (load_and_process_body w json_file window_size) as [r|e] eqn:Hb;
    [|simpl in Hi; lia].
  simpl in *.
  pose proof (load_and_process_body_nonneg _ _ _ _ _ Hfile Hnn Hb) as Hraw.
  apply load_and_process_body_shape in Hb as (_ & _ & _ & _ & [Hrc _] & _).
  rewrite Hrc in *.
  assert (Forall (float_ge 0)
    (calculate_rolling_average (inject_Z <$> raw_commits r) window_size))
    as Havg.
  { apply rolling_average_Forall with (P := fun x => (0 <= x)%Q);
      [intros win ? ?; by apply np_mean_lower|done|].
    apply Forall_fmap. eapply Forall_impl; [done|].
    intros n Hn. simpl. change 0%Q with (inject_Z 0). by rewrite <- Zle_Qle. }
  rewrite Forall_lookup in Havg.
  destruct (lookup_lt_is_Some_2 _ _ Hi) as [a Ha].
  destruct (lookup_lt_is_Some_2 _ i (Nat.lt_succ_l _ _ Hi)) as [b Hb'].
  rewrite (list_lookup_total_correct _ _ _ Ha),
    (list_lookup_total_correct _ _ _ Hb').
  destruct (Havg _ _ Ha) as (qa & -> & Hqa).
  destruct (Havg _ _ Hb') as (qb & -> & Hqb).
  by apply day_change_lower.
Qed.

(** ** Aggregation: the order of the records *)

Lemma tables_eq (t1 t2 : tables) :
  commits_by t1 = commits_by t2 → active_users_by t1 = active_users_by t2 →
  t1 = t2.
Proof. destruct t1, t2; simpl; by intros -> ->. Qed.

Lemma commits_by_accumulate (k u : string) (n : Z) (t : tables) :
  commits_by (accumulate k u n t) = <[k := commits_at t k + n]> (commits_by t).
Proof. done. Qed.

Lemma active_users_by_accumulate (k u : string) (n : Z) (t : tables) :
  active_users_by (accumulate k u n t)
  = if 0 <? n then <[k := users_at t k ∪ {[u]}]> (active_users_by t)
    else active_users_by t.
Proof. done. Qed.

(** Two records can be added in either order. *)
Lemma accumulate_comm (k1 u1 : string) (n1 : Z) (k2 u2 : string) (n2 : Z)
    (t : tables) :
  accumulate k1 u1 n1 (accumulate k2 u2 n2 t)
  = accumulate k2 u2 n2 (accumulate k1 u1 n1 t).
Proof.
  apply tables_eq.
  - rewrite !commits_by_accumulate, !commits_at_accumulate.
    destruct (decide (k2 = k1)) as [->|Hne].
    + rewrite decide_True by done. rewrite !insert_insert_eq. f_equal. lia.
    + rewrite decide_False by done. by apply insert_insert_ne.
  - rewrite !active_users_by_accumulate, !users_at_accumulate.
    destruct (Z.ltb_spec 0 n1) as [H1|H1]; destruct (Z.ltb_spec 0 n2) as [H2|H2];
      try done.
    + destruct (decide (k2 = k1)) as [->|Hne].
      * rewrite !decide_True by done. rewrite !insert_insert_eq.
        f_equal. set_solver.
      * rewrite !decide_False by naive_solver. by apply insert_insert_ne.
    + rewrite decide_False by (intros [? ?]; lia). done.
    + rewrite decide_False by (intros [? ?]; lia). done.
Qed.

Lemma tally_Permutation (recs1 recs2 : list triple) (t : tables) :
  recs1 ≡ₚ recs2 → tally recs1 t = tally recs2 t.
Proof.
  intros Hperm. revert t.
  induction Hperm as [|[[k u] n] l1 l2 _ IH
                      |[[k1 u1] n1] [[k2 u2] n2] l| l1 l2 l3 _ IH1 _ IH2];
    intros t; simpl.
  - done.
  - apply IH.
  - by rewrite accumulate_comm.
  - by rewrite IH1.
Qed.

Lemma load_and_process_body_tables (w1 w2 : world) (f1 f2 : string)
    (window_size : Z) (data1 data2 : json) :
  files w1 f1 = Parsed data1 → files w2 f2 = Parsed data2 →
  pads_year w1 = pads_year w2 →
  aggregate_daily data1 = aggregate_daily data2 →
  load_and_process_body w1 f1 window_size
  = load_and_process_body w2 f2 window_size.
Proof.
  intros Hf1 Hf2 Hp Hagg. unfold load_and_process_body, read_json.
  rewrite Hf1, Hf2, Hp. simpl. by rewrite Hagg.
Qed.

(** X10. The order of the users and of the dates in the input file does
    not matter: two files whose (date, user, count) records are the same
    up to order give the same daily series. *)
Theorem daily_series_record_order (w1 w2 : world) (f1 f2 : string)
    (window_size : Z) (data1 data2 : json) (recs1 recs2 : list triple) :
  files w1 f1 = Parsed data1 → files w2 f2 = Parsed data2 →
  pads_year w1 = pads_year w2 →
  triples daily_key data1 = Ok recs1 → triples daily_key data2 = Ok recs2 →
  recs1 ≡ₚ recs2 →
  (load_and_process_data w1 f1 window_size).1
  = (load_and_process_data w2 f2 window_size).1.
Proof.
  intros Hf1 Hf2 Hp H1 H2 Hperm. unfold load_and_process_data.
  rewrite (load_and_process_body_tables w1 w2 f1 f2 _ data1 data2); try done.
  - by destruct (load_and_process_body w2 f2 window_size).
  - rewrite !aggregate_daily_generic, !aggregate_triples, H1, H2. simpl.
    f_equal. by apply tally_Permutation.
Qed.

Lemma daily_series_record_order_witness :
  (load_and_process_data (single_file "a.json" two_days true) "a.json" 7).1
  = (load_and_process_data
       (single_file "b.json" two_days_reversed true) "b.json" 7).1.
Proof.
  apply (daily_series_record_order _ _ _ _ _ two_days two_days_reversed
           [("2024-01-01", "alice", 3); ("2024-01-03", "alice", 2)]
           [("2024-01-03", "alice", 2); ("2024-01-01", "alice", 3)]).
  - reflexivity.
  - reflexivity.
  - reflexivity.
  - vm_compute. reflexivity.
  - vm_compute. reflexivity.
  - apply perm_swap.
Defined.

(** ** Aggregation: a record that cannot be read *)

Lemma for_each_raises {A S : Type} (f : A → S → result S) (l : list A)
    (x : A) :
  x ∈ l → (∀ st, ∃ e, f x st = Raise e) →
  ∀ st, ∃ e, for_each f l st = Raise e.
Proof.
  intros Hx Hf. induction l as [|y l IH]; intros st.
  - by apply elem_of_nil in Hx.
  - simpl. apply elem_of_cons in Hx as [<-|Hx].
    + destruct (Hf st) as [e ->]. by exists e.
    + destruct (f y st) as [st'|e]; [|by exists e]. simpl. by apply IH.
Qed.

Lemma aggregate_raises (key_of : string → result string)
    (users : list (string * json)) (user_id : string) (stats : json)
    (recs : list (string * json)) (k : string) (cnt : json) :
  (user_id, stats) ∈ users →
  get_daily_commits stats = Ok (JObj recs) →
  (k, cnt) ∈ recs →
  (∃ e, key_of k = Raise e) ∨ (∃ e, int_of_json cnt = Raise e) →
  ∃ e, aggregate key_of (JObj users) = Raise e.
Proof.
  intros Hu Hdc Hrec Hbad. unfold aggregate. simpl.
  apply (for_each_raises _ _ _ Hu). intros t.
  unfold add_user. simpl. rewrite Hdc. simpl.
  apply (for_each_raises _ _ _ Hrec). intros t'.
  unfold add_record. simpl.
  destruct Hbad as [[e ->]|[e He]]; [by exists e|].
  destruct (key_of k) as [k'|e']; [|by exists e']. simpl.
  rewrite He. by exists e.
Qed.

(** X11. One record that cannot be read discards the whole file: when
    any date of any user does not parse as [%Y-%m-%d], or any count is not
    an integer, [load_and_process_data] returns the empty series and
    prints one error line naming the file, and so does
    [calculate_weekly_data]; the records that did parse are lost. *)
Theorem bad_record_discards_file (w : world) (json_file : string)
    (window_size : Z) (users : list (string * json)) (user_id : string)
    (stats : json) (recs : list (string * json)) (k : string) (cnt : json) :
  files w json_file = Parsed (JObj users) →
  (user_id, stats) ∈ users →
  get_daily_commits stats = Ok (JObj recs) →
  (k, cnt) ∈ recs →
  (∃ e, strptime_ymd k = Raise e) ∨ (∃ e, int_of_json cnt = Raise e) →
  (∃ e, load_and_process_data w json_file window_size
        = (empty_daily, print (ErrorProcesando json_file e) w))
  ∧ (∃ e, calculate_weekly_data w json_file
          = (empty_weekly, print (ErrorProcesandoSemanales json_file e) w)).
Proof.
  intros Hfile Hu Hdc Hrec Hbad. split.
  - assert (∃ e, aggregate daily_key (JObj users) = Raise e) as [e He].
    { eapply aggregate_raises; [done..|].
      destruct Hbad as [[e He]|?]; [left|by right].
      exists e. unfold daily_key. by rewrite He. }
    exists e. unfold load_and_process_data, load_and_process_body, read_json.
    rewrite Hfile. simpl. rewrite aggregate_daily_generic, He. done.
  - assert (∃ e, aggregate weekly_key (JObj users) = Raise e) as [e He].
    { eapply aggregate_raises; [done..|].
      destruct Hbad as [[e He]|?]; [left|by right].
      exists e. unfold weekly_key. by rewrite He. }
    exists e. unfold calculate_weekly_data, calculate_weekly_body, read_json.
    rewrite Hfile. simpl. rewrite aggregate_weekly_generic, He. done.
Qed.

Lemma bad_record_discards_file_witness :
  (∃ e, load_and_process_data (single_file "a.json" one_bad_date true)
          "a.json" 7
        = (empty_daily,
           print (ErrorProcesando "a.json" e)
             (single_file "a.json" one_bad_date true)))
  ∧ (∃ e, calculate_weekly_data (single_file "a.json" one_bad_date true)
            "a.json"
          = (empty_weekly,
             print (ErrorProcesandoSemanales "a.json" e)
               (single_file "a.json" one_bad_date true))).
Proof.
  apply (bad_record_discards_file _ _ _
           [("alice", JObj [("daily_commits",
              JObj [("2024-01-01", JInt 3); ("2024-01-03", JInt 2)])]);
            ("bob", JObj [("daily_commits",
              JObj [("2024-02-29", JInt 1); ("2024-02-30", JInt 4)])])]
           "bob"
           (JObj [("daily_commits",
              JObj [("2024-02-29", JInt 1); ("2024-02-30", JInt 4)])])
           [("2024-02-29", JInt 1); ("2024-02-30", JInt 4)]
           "2024-02-30" (JInt 4)).
  - reflexivity.
  - right. left.
  - reflexivity.
  - right. left.
  - left. exists ValueError. vm_compute. reflexivity.
Defined.

(** ** Aggregation: an input without records *)

Lemma aggregate_without_records (key_of : string → result string)
    (data : json) :
  without_records data → aggregate key_of data = Ok no_tables.
Proof.
  intros (users & -> & Hall). unfold aggregate. simpl.
  induction Hall as [|[user_id stats] users Hu _ IH]; [done|].
  cbn [for_each snd] in *.
  assert (add_user key_of (user_id, stats) no_tables = Ok no_tables) as ->
    by (unfold add_user; cbn [fst snd]; by rewrite Hu).
  apply IH.
Qed.

Lemma sorted_keys_no_tables : sorted_keys no_tables = [].
Proof. done. Qed.

(** X12. A file without a single record - the empty object, or users
    whose [daily_commits] is missing or empty - gives the empty daily
    series and the empty weekly series, and nothing is printed. *)
Theorem input_without_records (w : world) (json_file : string)
    (window_size : Z) (data : json) :
  files w json_file = Parsed data →
  without_records data →
  load_and_process_data w json_file window_size = (empty_daily, w)
  ∧ calculate_weekly_data w json_file = (empty_weekly, w).
Proof.
  intros Hfile Hdata. split.
  - unfold load_and_process_data, load_and_process_body, read_json.
    rewrite Hfile. simpl.
    rewrite aggregate_daily_generic, aggregate_without_records by done.
    done.
  - unfold calculate_weekly_data, calculate_weekly_body, read_json.
    rewrite Hfile. simpl.
    rewrite aggregate_weekly_generic, aggregate_without_records by done.
    done.
Qed.

Lemma input_without_records_witness :
  load_and_process_data (single_file "a.json" no_commits true) "a.json" 7
  = (empty_daily, single_file "a.json" no_commits true)
  ∧ calculate_weekly_data (single_file "a.json" no_commits true) "a.json"
    = (empty_weekly, single_file "a.json" no_commits true).
Proof.
  apply (input_without_records _ _ _ no_commits).
  - reflexivity.
  - exists [("alice", JObj [("login", JStr "alice")])].
    split; [reflexivity|]. repeat constructor.
Defined.

Lemma percentage_change_at_least_minus_100_witness :
  ∃ p : pct_series,
    percentage_change
      (load_and_process_data (single_file "a.json" two_days true) "a.json" 7).1
    = Ok p
    ∧ Forall (float_ge (- (100 # 1))) (pct_change p).
Proof.
  apply (percentage_change_at_least_minus_100 _ _ _ two_days).
  - reflexivity.
  - reflexivity.
  - lia.
Defined.

(** ** ISO weeks *)

Lemma first_day_ordinal (y : Z) :
  toordinal (mk_date y 1 1) = days_before_year y + 1.
Proof. unfold toordinal, days_before_month. cbn. lia. Qed.

(** The Monday that starts ISO year [y] is within three days of the first
    of January. *)
Lemma isoweek1monday_bounds (y : Z) :
  (days_before_year y - 2 ≤ isoweek1monday y ≤ days_before_year y + 4)
  ∧ (isoweek1monday y - 1) mod 7 = 0.
Proof.
  unfold isoweek1monday. rewrite first_day_ordinal.
  generalize (days_before_year y). intros D. cbv zeta.
  destruct (Z.ltb_spec 3 ((D + 1 + 6) mod 7));
    Z.div_mod_to_equations; lia.
Qed.

(** An ISO year has 52 or 53 weeks. *)
Lemma isoweek1monday_succ (y : Z) :
  isoweek1monday (y + 1) = isoweek1monday y + 364
  ∨ isoweek1monday (y + 1) = isoweek1monday y + 371.
Proof.
  pose proof (isoweek1monday_bounds y) as [H1 H1'].
  pose proof (isoweek1monday_bounds (y + 1)) as [H2 H2'].
  pose proof (days_before_year_succ y) as Hs. unfold year_length in Hs.
  revert H1 H1' H2 H2' Hs.
  generalize (isoweek1monday y) (isoweek1monday (y + 1))
    (days_before_year y) (days_before_year (y + 1)).
  intros M1 M2 D1 D2. destruct (is_leap y); intros;
    Z.div_mod_to_equations; lia.
Qed.

Lemma isoweek1monday_mono (y1 y2 : Z) :
  y1 ≤ y2 → isoweek1monday y1 ≤ isoweek1monday y2.
Proof.
  intros Hy. destruct (decide (y1 = y2)) as [->|Hne]; [lia|].
  pose proof (isoweek1monday_succ y1) as Hs.
  destruct (decide (y1 + 1 = y2)) as [<-|Hne2]; [lia|].
  pose proof (isoweek1monday_bounds (y1 + 1)) as [H1 _].
  pose proof (isoweek1monday_bounds y2) as [H2 _].
  pose proof (days_before_year_mono (y1 + 1 + 1) y2 ltac:(lia)) as Hm.
  pose proof (days_before_year_succ (y1 + 1)) as Hs'.
  unfold year_length in Hs'. destruct (is_leap (y1 + 1)); lia.
Qed.

(** What [isocalendar] returns for a date: the ISO year whose weeks hold
    the date, and the date's place among them. *)
Lemma isocalendar_spec (d : datetime) (g v u : Z) :
  valid_date d = true → isocalendar d = (g, v, u) →
  (isoweek1monday g ≤ toordinal d < isoweek1monday (g + 1))
  ∧ toordinal d = isoweek1monday g + 7 * (v - 1) + (u - 1)
  ∧ (1 ≤ u ≤ 7) ∧ (1 ≤ v ≤ 53) ∧ (year d - 1 ≤ g ≤ year d + 1).
Proof.
  intros Hv Hiso.
  pose proof (day_of_year_bounds d Hv) as Hdoy.
  assert (days_before_year (year d) + 1 ≤ toordinal d
          ≤ days_before_year (year d + 1)) as HT.
  { rewrite days_before_year_succ. unfold toordinal. lia. }
  clear Hdoy Hv. unfold isocalendar in Hiso. cbv zeta in Hiso.
  pose proof (isoweek1monday_bounds (year d)) as [Hb1 _].
  pose proof (isoweek1monday_bounds (year d + 1)) as [Hb2 _].
  pose proof (isoweek1monday_succ (year d - 1)) as Hs0.
  replace (year d - 1 + 1) with (year d) in Hs0 by lia.
  pose proof (isoweek1monday_succ (year d)) as Hs1.
  pose proof (isoweek1monday_succ (year d + 1)) as Hs2.
  assert (∀ P : Prop,
    (∀ T D1 D2 M0 M1 M2 M3 : Z,
       T = toordinal d → M0 = isoweek1monday (year d - 1) →
       M1 = isoweek1monday (year d) → M2 = isoweek1monday (year d + 1) →
       M3 = isoweek1monday (year d + 1 + 1) →
       (D1 + 1 ≤ T ≤ D2) → (D1 - 2 ≤ M1 ≤ D1 + 4) → (D2 - 2 ≤ M2 ≤ D2 + 4) →
       M1 = M0 + 364 ∨ M1 = M0 + 371 → M2 = M1 + 364 ∨ M2 = M1 + 371 →
       M3 = M2 + 364 ∨ M3 = M2 + 371 → P) → P) as Hgen.
  { intros P HP. by eapply HP. }
  clear HT Hb1 Hb2 Hs0 Hs1 Hs2.
  apply Hgen. clear Hgen. intros T D1 D2 M0 M1 M2 M3 HT HM0 HM1 HM2 HM3.
  rewrite <- HT, <- HM0, <- HM1, <- HM2 in Hiso.
  destruct (Z.ltb_spec ((T - M1) / 7) 0) as [Hneg|Hnonneg].
  - injection Hiso as <- <- <-.
    replace (year d - 1 + 1) with (year d) by lia.
    rewrite <- HM0, <- HM1, <- HT. clear HT HM0 HM1 HM2 HM3. intros.
    Z.div_mod_to_equations. lia.
  - destruct (Z.leb_spec 52 ((T - M1) / 7)) as [H52|H52];
      destruct (Z.leb_spec M2 T) as [HMT|HMT]; cbn [andb] in Hiso;
      injection Hiso as <- <- <-; rewrite <- ?HM1, <- ?HM2, <- ?HM3, <- ?HT;
      clear HT HM0 HM1 HM2 HM3; intros;
      Z.div_mod_to_equations; lia.
Qed.

(** The week of a date, counted from day 1, is the week of the Monday
    that starts its ISO year plus its ISO week number less one. *)
Lemma week_index_isocalendar (d : datetime) (g v u : Z) :
  valid_date d = true → isocalendar d = (g, v, u) →
  week_index d = (isoweek1monday g - 1) / 7 + (v - 1).
Proof.
  intros Hv Hiso.
  destruct (isocalendar_spec d g v u Hv Hiso) as (_ & HT & Hu & _ & _).
  pose proof (isoweek1monday_bounds g) as [_ Hmod].
  unfold week_index. rewrite HT. revert Hmod.
  generalize (isoweek1monday g). intros M Hmod.
  Z.div_mod_to_equations. lia.
Qed.

(** ** Week labels *)

Lemma rev_app_rev_app (s a b : string) :
  String.rev_app (String.rev_app s a) b = String.rev_app a (s +:+ b).
Proof.
  revert a. induction s as [|c s IH]; intros a; [done|].
  simpl. by rewrite IH.
Qed.

Lemma string_app_nil_r (s : string) : s +:+ "" = s.
Proof.
  induction s as [|c s IH]; [done|].
  change (String c s +:+ "") with (String c (s +:+ "")). by rewrite IH.
Qed.

Lemma rev_rev_app (s : string) : String.rev (String.rev_app s "") = s.
Proof.
  unfold String.rev. rewrite rev_app_rev_app. simpl. apply string_app_nil_r.
Qed.

(** [split] walks over digits without cutting. *)
Lemma split_go_digits (cur s t : string) :
  all_digits s = true →
  split_go "-W" 0 cur (s +:+ t) = split_go "-W" 0 (String.rev_app s cur) t.
Proof.
  revert cur. induction s as [|c s IH]; intros cur Hs; [done|].
  simpl in Hs. apply andb_true_iff in Hs as [Hc Hs].
  change (String c s +:+ t) with (String c (s +:+ t)).
  cbn [split_go starts_with].
  destruct (decide ("-"%char = c)) as [<-|_]; [done|].
  rewrite IH by done. done.
Qed.

Lemma py_split_week_label (year_str week_str : string) :
  all_digits year_str = true → all_digits week_str = true →
  py_split "-W" (year_str +:+ "-W" +:+ week_str) = [year_str; week_str].
Proof.
  intros Hy Hw. unfold py_split. rewrite split_go_digits by done.
  change ("-W" +:+ week_str) with (String "-" (String "W" week_str)).
  cbn [split_go starts_with String.length Nat.sub].
  rewrite decide_True by done.
  destruct (decide ("W"%char = "W"%char)); [|done].
  rewrite rev_rev_app. f_equal.
  rewrite <- (string_app_nil_r week_str) at 1.
  rewrite split_go_digits by done. simpl. by rewrite rev_rev_app.
Qed.

(** [int(str(n)) == n] *)
Lemma py_int_py_str (n : Z) : py_int (py_str n) = Ok n.
Proof.
  unfold py_int, py_str. rewrite NilZero.isi.
  - by rewrite DecimalZ.of_to.
  - destruct n as [|p|p]; [done| |done]. simpl. intros [= H].
    by apply Unsigned.to_uint_nonnil in H.
  - destruct n as [|p|p]; [done|done|]. simpl. intros [= H].
    by apply Unsigned.to_uint_nonnil in H.
Qed.

Lemma week_number_table :
  forallb (fun n => match py_int (zfill 2 (py_str n)) with
                    | Ok m => m =? n
                    | Raise _ => false
                    end)
          (seqZ 0 100) = true.
Proof. vm_compute. reflexivity. Qed.

Lemma py_int_week_number (n : Z) :
  (0 ≤ n ≤ 99) → py_int (zfill 2 (py_str n)) = Ok n.
Proof.
  intros Hn.
  pose proof (forallb_seqZ _ 0 100 week_number_table n ltac:(lia)) as H.
  simpl in H. destruct (py_int (zfill 2 (py_str n))) as [m|]; [|done].
  apply Z.eqb_eq in H. by subst.
Qed.

Lemma all_digits_week_number (n : Z) :
  0 ≤ n → all_digits (zfill 2 (py_str n)) = true.
Proof.
  intros Hn. unfold zfill.
  by rewrite all_digits_app, all_digits_zeros, all_digits_py_str.
Qed.

Lemma parse_week_label (g v : Z) :
  0 ≤ g → (0 ≤ v ≤ 99) → parse_week_key (week_label g v) = Ok (g, v).
Proof.
  intros Hg Hv. unfold parse_week_key, week_label.
  rewrite py_split_week_label
    by (first [by apply all_digits_py_str
              |apply all_digits_week_number; lia]).
  rewrite py_int_py_str. simpl. by rewrite py_int_week_number.
Qed.

Lemma week_to_date_parse (week_key : string) :
  week_to_date week_key
  = p ← parse_week_key week_key; strptime_GVu (week_start_string p.1 p.2).
Proof.
  unfold week_to_date, parse_week_key.
  destruct (py_split "-W" week_key) as [|year_str [|week_str [|? ?]]];
    try done.
  destruct (py_int year_str); [|done]. simpl.
  by destruct (py_int week_str).
Qed.

(** X14. The label a date is filed under at line 141 is read back at
    lines 163-165 as the ISO year and ISO week of the date: the split at
    [-W] gives two pieces and the two [int]s return the numbers
    [isocalendar] gave.  What fails in the week-start conversion is the
    [strptime] one line further down. *)
Theorem week_label_read_back (d : datetime) :
  valid_date d = true →
  parse_week_key (week_key_of d) = Ok ((isocalendar d).1.1, (isocalendar d).1.2)
  ∧ week_to_date (week_key_of d)
    = strptime_GVu
        (week_start_string (isocalendar d).1.1 (isocalendar d).1.2).
Proof.
  intros Hv. unfold week_key_of.
  destruct (isocalendar d) as [[g v] u] eqn:Hiso. cbn [fst snd].
  destruct (isocalendar_spec d g v u Hv Hiso) as (_ & _ & _ & Hvr & Hg).
  apply valid_date_spec in Hv as (Hy & _).
  assert (parse_week_key (week_label g v) = Ok (g, v)) as Hp
    by (apply parse_week_label; lia).
  split; [done|]. by rewrite week_to_date_parse, Hp.
Qed.

Lemma week_label_read_back_witness :
  parse_week_key (week_key_of (mk_date 2024 7 17))
  = Ok ((isocalendar (mk_date 2024 7 17)).1.1,
        (isocalendar (mk_date 2024 7 17)).1.2)
  ∧ week_to_date (week_key_of (mk_date 2024 7 17))
    = strptime_GVu
        (week_start_string (isocalendar (mk_date 2024 7 17)).1.1
           (isocalendar (mk_date 2024 7 17)).1.2).
Proof. apply week_label_read_back. reflexivity. Defined.

Lemma week_key_of_inj (d1 d2 : datetime) :
  valid_date d1 = true → valid_date d2 = true →
  week_key_of d1 = week_key_of d2 →
  (isocalendar d1).1 = (isocalendar d2).1.
Proof.
  intros Hv1 Hv2 Heq. unfold week_key_of in Heq.
  destruct (isocalendar d1) as [[g1 v1] u1] eqn:H1.
  destruct (isocalendar d2) as [[g2 v2] u2] eqn:H2. cbn [fst].
  destruct (isocalendar_spec d1 g1 v1 u1 Hv1 H1) as (_ & _ & _ & Hvr1 & Hg1).
  destruct (isocalendar_spec d2 g2 v2 u2 Hv2 H2) as (_ & _ & _ & Hvr2 & Hg2).
  apply valid_date_spec in Hv1 as (Hy1 & _).
  apply valid_date_spec in Hv2 as (Hy2 & _).
  assert (parse_week_key (week_label g1 v1) = Ok (g1, v1)) as Hp1
    by (apply parse_week_label; lia).
  assert (parse_week_key (week_label g2 v2) = Ok (g2, v2)) as Hp2
    by (apply parse_week_label; lia).
  rewrite Heq, Hp2 in Hp1. by injection Hp1 as -> ->.
Qed.

Lemma week_key_same_week_iff (d1 d2 : datetime) :
  valid_date d1 = true → valid_date d2 = true →
  week_key_of d1 = week_key_of d2 ↔ week_index d1 = week_index d2.
Proof.
  intros Hv1 Hv2. split.
  - intros Heq. pose proof (week_key_of_inj d1 d2 Hv1 Hv2 Heq) as Hgv.
    destruct (isocalendar d1) as [[g1 v1] u1] eqn:H1.
    destruct (isocalendar d2) as [[g2 v2] u2] eqn:H2.
    cbn [fst] in Hgv. injection Hgv as -> ->.
    by rewrite (week_index_isocalendar d1 g2 v2 u1),
      (week_index_isocalendar d2 g2 v2 u2).
  - intros Hidx. unfold week_key_of.
    destruct (isocalendar d1) as [[g1 v1] u1] eqn:H1.
    destruct (isocalendar d2) as [[g2 v2] u2] eqn:H2.
    pose proof (week_index_isocalendar d1 g1 v1 u1 Hv1 H1) as Hi1.
    pose proof (week_index_isocalendar d2 g2 v2 u2 Hv2 H2) as Hi2.
    destruct (isocalendar_spec d1 g1 v1 u1 Hv1 H1)
      as ([Hlo1 Hhi1] & HT1 & Hu1 & Hvr1 & _).
    destruct (isocalendar_spec d2 g2 v2 u2 Hv2 H2)
      as ([Hlo2 Hhi2] & HT2 & Hu2 & Hvr2 & _).
    assert (g1 = g2) as ->.
    { destruct (Z.lt_trichotomy g1 g2) as [Hlt|[?|Hgt]]; [|done|].
      - exfalso.
        pose proof (isoweek1monday_mono (g1 + 1) g2 ltac:(lia)) as Hm.
        pose proof (isoweek1monday_bounds g2) as [_ Hmod].
        unfold week_index in Hidx. revert Hidx Hmod Hm Hhi1 Hlo2.
        generalize (toordinal d1) (toordinal d2) (isoweek1monday g2)
          (isoweek1monday (g1 + 1)).
        intros. Z.div_mod_to_equations. lia.
      - exfalso.
        pose proof (isoweek1monday_mono (g2 + 1) g1 ltac:(lia)) as Hm.
        pose proof (isoweek1monday_bounds g1) as [_ Hmod].
        unfold week_index in Hidx. revert Hidx Hmod Hm Hhi2 Hlo1.
        generalize (toordinal d1) (toordinal d2) (isoweek1monday g1)
          (isoweek1monday (g2 + 1)).
        intros. Z.div_mod_to_equations. lia. }
    f_equal. lia.
Qed.

(** X13. Two dates are filed under the same week label exactly when they
    lie in the same Monday-to-Sunday week; the week number of a label is
    between 1 and 53 and its weekday part between 1 (Monday) and 7. *)
Theorem week_key_same_week (d1 d2 : datetime) :
  valid_date d1 = true → valid_date d2 = true →
  (week_key_of d1 = week_key_of d2 ↔ week_index d1 = week_index d2)
  ∧ (1 ≤ (isocalendar d1).1.2 ≤ 53)
  ∧ (isocalendar d1).2 = (toordinal d1 - 1) mod 7 + 1.
Proof.
  intros Hv1 Hv2. split; [by apply week_key_same_week_iff|].
  destruct (isocalendar d1) as [[g1 v1] u1] eqn:H1. cbn [fst snd].
  destruct (isocalendar_spec d1 g1 v1 u1 Hv1 H1) as (_ & HT & Hu & Hvr & _).
  split; [done|].
  pose proof (isoweek1monday_bounds g1) as [_ Hmod].
  rewrite HT. revert Hmod. generalize (isoweek1monday g1). intros M Hmod.
  Z.div_mod_to_equations. lia.
Qed.

Lemma week_key_same_week_witness :
  (week_key_of (mk_date 2024 12 30) = week_key_of (mk_date 2025 1 5)
   ↔ week_index (mk_date 2024 12 30) = week_index (mk_date 2025 1 5))
  ∧ (1 ≤ (isocalendar (mk_date 2024 12 30)).1.2 ≤ 53)
  ∧ (isocalendar (mk_date 2024 12 30)).2
    = (toordinal (mk_date 2024 12 30) - 1) mod 7 + 1.
Proof. apply week_key_same_week; reflexivity. Defined.

(** ** WeeklySeriesBuilder: the table of weeks *)

Lemma map_result_fmap {A B : Type} (f g : A → result B) (h : B → B)
    (l : list A) (ys : list B) :
  (∀ x y, x ∈ l → f x = Ok y → g x = Ok (h y)) →
  map_result f l = Ok ys → map_result g l = Ok (h <$> ys).
Proof.
  revert ys. induction l as [|x l IH]; intros ys Hfg; simpl.
  - by intros [= <-].
  - destruct (f x) as [y|] eqn:Hx; [|done]. simpl.
    destruct (map_result f l) as [ys'|] eqn:Hl; [|done]. simpl.
    intros [= <-]. rewrite (Hfg x y) by (done || left). simpl.
    rewrite (IH ys') by (done || (intros; apply Hfg; [by right|done])).
    done.
Qed.

Lemma record_triple_to_week (user_id : string) (rec : string * json)
    (tr : triple) :
  record_triple daily_key user_id rec = Ok tr →
  record_triple weekly_key user_id rec = Ok (to_week tr)
  ∧ valid_date (date_of_key tr.1.1) = true.
Proof.
  unfold record_triple, daily_key, weekly_key, to_week, date_of_key.
  destruct (strptime_ymd rec.1) as [dd|] eqn:Hd; [|done]. simpl.
  destruct (int_of_json rec.2) as [n|]; [|done]. simpl.
  intros [= <-]. simpl. rewrite Hd. split; [done|].
  by eapply strptime_ymd_valid.
Qed.

Lemma triples_weekly_of_daily (data : json) (recs : list triple) :
  triples daily_key data = Ok recs →
  triples weekly_key data = Ok (to_week <$> recs)
  ∧ Forall (fun r : triple => valid_date (date_of_key r.1.1) = true) recs.
Proof.
  unfold triples. destruct (py_items data) as [users|]; [|done]. simpl.
  intros H. bind_inv H as trss Htrss. injection H as <-.
  assert (map_result (user_triples weekly_key) users
          = Ok ((fun trs : list triple => to_week <$> trs) <$> trss)
          ∧ Forall (Forall (fun r : triple =>
                      valid_date (date_of_key r.1.1) = true)) trss)
    as [-> Hall].
  { revert trss Htrss. induction users as [|u users IH]; intros trss; simpl.
    - by intros [= <-].
    - destruct (user_triples daily_key u) as [trs|] eqn:Hu; [|done]. simpl.
      destruct (map_result (user_triples daily_key) users) as [trss'|];
        [|done]. simpl. intros [= <-].
      destruct (IH trss' eq_refl) as [-> Hall].
      unfold user_triples in *.
      destruct (get_daily_commits u.2) as [dc|]; [|done]. simpl in *.
      destruct (py_items dc) as [rs|]; [|done]. simpl in *.
      assert (map_result (record_triple weekly_key u.1) rs
              = Ok (to_week <$> trs)
              ∧ Forall (fun r : triple =>
                          valid_date (date_of_key r.1.1) = true) trs)
        as [-> Hvalid].
      { clear -Hu. revert trs Hu.
        induction rs as [|rec rs IH]; intros trs; simpl.
        - by intros [= <-].
        - destruct (record_triple daily_key u.1 rec) as [tr|] eqn:Hr;
            [|done]. simpl.
          destruct (map_result (record_triple daily_key u.1) rs) as [trs'|];
            [|done]. simpl. intros [= <-].
          destruct (record_triple_to_week _ _ _ Hr) as [-> Hv]. simpl.
          destruct (IH trs' eq_refl) as [-> Hall]. simpl.
          split; [done|]. by constructor. }
      simpl. split; [done|]. by constructor. }
  simpl. split.
  - f_equal. clear. induction trss as [|trs trss IH]; [done|].
    rewrite fmap_cons. cbn [concat]. by rewrite fmap_app, IH.
  - by apply Forall_concat.
Qed.

Lemma counts_for_to_week (d : datetime) (recs : list triple) :
  valid_date d = true →
  Forall (fun r : triple => valid_date (date_of_key r.1.1) = true) recs →
  counts_for (week_key_of d) (to_week <$> recs)
  = (fun r : triple => r.2) <$> filter (in_week_of d) recs.
Proof.
  intros Hd. unfold counts_for.
  induction 1 as [|r recs Hr _ IH]; [done|].
  rewrite fmap_cons, !filter_cons.
  pose proof (week_key_same_week_iff (date_of_key r.1.1) d Hr Hd) as Hiff.
  cbn [to_week fst snd].
  destruct (decide (week_key_of (date_of_key r.1.1) = week_key_of d))
    as [Heq|Hne].
  - rewrite (decide_True (P := in_week_of d r)) by (by apply Hiff).
    rewrite !fmap_cons. by rewrite IH.
  - rewrite (decide_False (P := in_week_of d r)) by (by rewrite <- Hiff).
    done.
Qed.

(** X15. The table of weeks the weekly builder fills before it fails:
    under the label of a week it holds the sum of the counts of all
    records dated from the Monday to the Sunday of that week, and as
    active users the users with a positive count on one of those days; a
    week is in the table exactly when a record is dated in it. *)
Theorem weekly_table_sums_week (data : json) (recs : list triple)
    (d : datetime) :
  triples daily_key data = Ok recs →
  valid_date d = true →
  ∃ t : tables,
    aggregate_weekly data = Ok t
    ∧ commits_at t (week_key_of d)
      = sum_Z ((fun r : triple => r.2) <$> filter (in_week_of d) recs)
    ∧ (∀ u, u ∈ users_at t (week_key_of d)
            ↔ ∃ k n, (k, u, n) ∈ recs ∧ 0 < n ∧ in_week_of d (k, u, n))
    ∧ (week_key_of d ∈ sorted_keys t ↔ ∃ r, r ∈ recs ∧ in_week_of d r).
Proof.
  intros Hrecs Hd.
  destruct (triples_weekly_of_daily data recs Hrecs) as [Hw Hvalid].
  exists (tally (to_week <$> recs) no_tables).
  split; [by rewrite aggregate_weekly_generic, aggregate_triples, Hw|].
  split; [|split].
  - rewrite commits_at_tally. unfold commits_at at 1. simpl.
    rewrite lookup_empty. simpl. by rewrite counts_for_to_week.
  - intros u. rewrite users_at_tally. unfold users_at at 1. simpl.
    rewrite lookup_empty. simpl. split.
    + intros [Hu|(n & Hin & Hn)]; [set_solver|].
      apply list_elem_of_fmap in Hin as ([[k u'] n'] & [= Hk -> ->] & Hin).
      exists k, n'. split; [done|]. split; [done|].
      rewrite Forall_forall in Hvalid. specialize (Hvalid _ Hin).
      unfold in_week_of. simpl in *.
      by apply week_key_same_week_iff.
    + intros (k & n & Hin & Hn & Hweek). right. exists n. split; [|done].
      apply list_elem_of_fmap. exists (k, u, n). split; [|done].
      unfold to_week. simpl. do 2 f_equal.
      rewrite Forall_forall in Hvalid. specialize (Hvalid _ Hin).
      symmetry. by apply week_key_same_week_iff.
  - rewrite sorted_keys_elem, dom_tally. simpl. rewrite dom_empty_L. split.
    + intros [?|(u & n & Hin)]; [set_solver|].
      apply list_elem_of_fmap in Hin as ([[k u'] n'] & [= Hk -> ->] & Hin).
      exists (k, u', n'). split; [done|].
      rewrite Forall_forall in Hvalid. specialize (Hvalid _ Hin).
      unfold in_week_of. simpl in *.
      by apply week_key_same_week_iff.
    + intros ([[k u] n] & Hin & Hweek). right. exists u, n.
      apply list_elem_of_fmap. exists (k, u, n). split; [|done].
      unfold to_week. simpl. do 2 f_equal.
      rewrite Forall_forall in Hvalid. specialize (Hvalid _ Hin).
      symmetry. by apply week_key_same_week_iff.
Qed.

Lemma weekly_table_sums_week_witness :
  ∃ t : tables,
    aggregate_weekly across_weeks = Ok t
    ∧ commits_at t (week_key_of (mk_date 2024 7 17)) = 14.
Proof.
  destruct (weekly_table_sums_week across_weeks
    [("2024-07-14", "alice", 1); ("2024-07-15", "alice", 2);
     ("2024-07-21", "alice", 4); ("2024-07-15", "bob", 8)]
    (mk_date 2024 7 17)) as (t & Ht & Hc & _).
  - vm_compute. reflexivity.
  - reflexivity.
  - exists t. split; [exact Ht|]. rewrite Hc. vm_compute. reflexivity.
Defined.

(** ** Charts: running maxima and minima *)


(** ** Charts: the dict of countries *)

Lemma elem_of_dict_set {V : Type} (x : string * V) (k : string) (v : V)
    (d : list (string * V)) :
  x ∈ dict_set k v d → x = (k, v) ∨ x ∈ d.
Proof.
  induction d as [|[k' v'] d IH]; simpl.
  - intros ->%list_elem_of_singleton. by left.
  - destruct (decide (k = k')) as [->|Hne].
    + intros [->|Hx]%elem_of_cons; [by left|]. right. by right.
    + intros [->|Hx]%elem_of_cons; [right; left|].
      destruct (IH Hx) as [->|?]; [by left|]. right. by right.
Qed.

Lemma dict_set_fresh {V : Type} (k : string) (v : V) (d : list (string * V)) :
  k ∉ d.*1 → dict_set k v d = d ++ [(k, v)].
Proof.
  induction d as [|[k' v'] d IH]; [done|]. simpl. intros Hk.
  apply not_elem_of_cons in Hk as [Hne Hk].
  rewrite decide_False by done. by rewrite IH.
Qed.

Section loading.
Context {V T : Type}.
Variable build : world → string → V * world.
Variable step : T → string → T.
Variable get_data : T → list (string * V).
Variable get_world : T → world.
Hypothesis build_same_input : ∀ w1 w2 c,
  same_input w1 w2 →
  (build w1 c).1 = (build w2 c).1 ∧ same_input w1 (build w2 c).2.
Hypothesis step_data : ∀ st c,
  get_data (step st c) = dict_set c (build (get_world st) c).1 (get_data st).
Hypothesis step_world : ∀ st c,
  get_world (step st c) = (build (get_world st) c).2.

(** A loading loop leaves one entry per country, in the order of the
    list, each the builder's result for that country alone. *)
Lemma loading_loop (w0 : world) (countries : list string) (st : T) :
  NoDup countries → same_input w0 (get_world st) →
  (∀ c, c ∈ countries → c ∉ (get_data st).*1) →
  get_data (foldl step st countries)
  = get_data st ++ ((fun c => (c, (build w0 c).1)) <$> countries)
  ∧ same_input w0 (get_world (foldl step st countries)).
Proof.
  intros Hnd. revert st.
  induction Hnd as [|c countries Hc Hnd IH]; intros st Hw Hfresh.
  - simpl. by rewrite app_nil_r.
  - simpl. destruct (build_same_input w0 (get_world st) c Hw) as [Hv Hw'].
    destruct (IH (step st c)) as [Hdata Hworld].
    + by rewrite step_world.
    + intros c' Hc'. rewrite step_data, dict_set_fresh
        by (apply Hfresh; left).
      rewrite fmap_app. simpl. intros [?|Hin]%elem_of_app.
      * by apply (Hfresh c'); [right|].
      * apply list_elem_of_singleton in Hin. by subst.
    + split; [|done]. rewrite Hdata, step_data, dict_set_fresh
        by (apply Hfresh; left).
      rewrite <- app_assoc. simpl. by rewrite Hv.
Qed.

End loading.

Lemma build_daily_same_input (window_size : Z) (w1 w2 : world) (c : string) :
  same_input w1 w2 →
  (load_and_process_data w1 (country_file c) window_size).1
  = (load_and_process_data w2 (country_file c) window_size).1
  ∧ same_input w1 (load_and_process_data w2 (country_file c) window_size).2.
Proof. apply load_and_process_data_same_input. Qed.

(** ** [plot_daily_raw_activity] *)

Lemma load_raw_country_data (st : list (string * daily_series) * Z * Z * world)
    (c : string) :
  (load_raw_country st c).1.1.1
  = dict_set c (load_and_process_data st.2 (country_file c) 7).1 st.1.1.1
  ∧ (load_raw_country st c).2
    = (load_and_process_data st.2 (country_file c) 7).2.
Proof.
  destruct st as [[[all_data mc] mu] w]. unfold load_raw_country, country_file.
  simpl. by destruct (load_and_process_data w _ 7).
Qed.

Lemma load_raw_countries_data (w : world) (countries : list string) :
  NoDup countries →
  (load_raw_countries w countries).1.1.1
  = (fun c => (c, country_series w 7 c)) <$> countries.
Proof.
  intros Hnd. unfold load_raw_countries.
  apply (loading_loop
           (fun w c => load_and_process_data w (country_file c) 7)
           load_raw_country (fun st => st.1.1.1) (fun st => st.2)
           (build_daily_same_input 7)
           (fun st c => proj1 (load_raw_country_data st c))
           (fun st c => proj2 (load_raw_country_data st c))
           w countries ([], 0, 0, w) Hnd (same_input_refl w)).
  intros c _. simpl. apply not_elem_of_nil.
Qed.




(** ** Charts: the files saved *)

Lemma saved_files_app (cs1 cs2 : list call) :
  saved_files (cs1 ++ cs2) = saved_files cs1 ++ saved_files cs2.
Proof. apply omap_app. Qed.

Lemma saved_files_cons (c : call) (cs : list call) :
  match c with Savefig _ => False | _ => True end →
  saved_files (c :: cs) = saved_files cs.
Proof. by destruct c. Qed.

Lemma saved_files_highlight (show_highlight : bool) (a b : datetime) :
  saved_files (highlight show_highlight a b) = [].
Proof. by destruct show_highlight. Qed.

Lemma saved_files_concat {A : Type} (f : A → list call) (g : A → string)
    (P : A → Prop) `{!∀ x, Decision (P x)} (l : list A) :
  (∀ x, x ∈ l → saved_files (f x) = if decide (P x) then [g x] else []) →
  saved_files (concat (f <$> l)) = g <$> filter P l.
Proof.
  induction l as [|x l IH]; intros Hf; [done|].
  rewrite fmap_cons. cbn [concat]. rewrite saved_files_app, filter_cons.
  rewrite Hf by left. rewrite IH by (intros; apply Hf; by right).
  by destruct (decide (P x)).
Qed.

(** The loop over the countries of a comparative chart: a series for each
    country with data, and whether there was one. *)
Lemma comparative_fold {A : Type} (P : A → Prop) `{!∀ x, Decision (P x)}
    (plot : A → call) (step : list call * bool → A → list call * bool)
    (l : list A) (cs : list call) (b : bool) :
  (∀ cs b x, x ∈ l →
     step (cs, b) x
     = if decide (P x) then (cs ++ [plot x], true) else (cs, b)) →
  foldl step (cs, b) l
  = (cs ++ (plot <$> filter P l), b || bool_decide (Exists P l)).
Proof.
  revert cs b. induction l as [|x l IH]; intros cs b Hstep.
  - cbn [foldl]. rewrite filter_nil, fmap_nil, app_nil_r.
    rewrite bool_decide_eq_false_2 by (by intros ?%Exists_nil).
    by rewrite orb_false_r.
  - cbn [foldl]. rewrite Hstep by left. rewrite filter_cons.
    destruct (decide (P x)) as [HP|HP].
    + rewrite IH by (intros; apply Hstep; by right).
      rewrite fmap_cons, <- app_assoc. cbn [app]. f_equal.
      rewrite (bool_decide_eq_true_2 (Exists P (x :: l)))
        by (by apply Exists_cons_hd).
      by rewrite orb_true_r.
    + rewrite IH by (intros; apply Hstep; by right).
      f_equal. f_equal. apply bool_decide_ext. rewrite Exists_cons. tauto.
Qed.

Lemma saved_files_plots {A : Type} (plot : A → call) (l : list A) :
  (∀ x, match plot x with Savefig _ => False | _ => True end) →
  saved_files (plot <$> l) = [].
Proof.
  intros Hplot. induction l as [|x l IH]; [done|].
  rewrite fmap_cons. unfold saved_files in *. cbn [omap].
  specialize (Hplot x). destruct (plot x); try done; exact IH.
Qed.

Lemma filter_with_days (w : world) (window_size : Z) (countries : list string) :
  filter with_days
    ((fun c => (c, country_series w window_size c)) <$> countries)
  = (fun c => (c, country_series w window_size c))
    <$> filter (has_days w window_size) countries.
Proof.
  induction countries as [|c countries IH]; [done|].
  rewrite fmap_cons, !filter_cons, IH. unfold with_days, has_days. simpl.
  by destruct (decide (fechas (country_series w window_size c) ≠ [])).
Qed.

Lemma Exists_with_days (w : world) (window_size : Z) (countries : list string) :
  Exists with_days
    ((fun c => (c, country_series w window_size c)) <$> countries)
  ↔ Exists (has_days w window_size) countries.
Proof. rewrite Exists_fmap. done. Qed.

(** ** [plot_daily_raw_activity]: the figures *)

Lemma raw_individual_plot_saved (a b : datetime) (output_dir : string)
    (show_highlight : bool) (item : string * daily_series) :
  aligned item.2 →
  saved_files (raw_individual_plot a b output_dir show_highlight item)
  = if decide (with_days item)
    then [path_join output_dir (item.1 +:+ "_commits_raw.png")] else [].
Proof.
  destruct item as [country r]. intros (Hc & _).
  destruct (decide (with_days (country, r))) as [Hd|Hd];
    unfold with_days in Hd; simpl in *.
  - destruct (fechas r) as [|d ds]; [done|].
    destruct (raw_commits r) as [|x l]; [done|].
    rewrite !saved_files_cons by done.
    rewrite !saved_files_app, saved_files_highlight. done.
  - destruct (fechas r) as [|d ds]; [done|]. exfalso. by apply Hd.
Qed.

Lemma raw_comparative_series_spec (all_data : list (string * daily_series)) :
  Forall (fun item => aligned item.2) all_data →
  raw_comparative_series all_data
  = ((fun item : string * daily_series =>
        Plot (fechas item.2) (float_of_int <$> raw_commits item.2))
     <$> filter with_days all_data,
     bool_decide (Exists with_days all_data)).
Proof.
  intros Hall. unfold raw_comparative_series.
  rewrite (comparative_fold with_days
    (fun item : string * daily_series =>
       Plot (fechas item.2) (float_of_int <$> raw_commits item.2))); [done|].
  intros cs b [country r] Hin. rewrite Forall_forall in Hall.
  destruct (Hall _ Hin) as (Hc & _).
  destruct (decide (with_days (country, r))) as [Hd|Hd];
    unfold with_days in Hd; simpl in *.
  - destruct (fechas r) as [|d ds]; [done|]. by destruct (raw_commits r).
  - destruct (fechas r) as [|d ds]; [|exfalso; by apply Hd].
    by destruct (raw_commits r).
Qed.

Lemma raw_comparative_plot_saved (all_data : list (string * daily_series))
    (a b : datetime) (mc : Z) (output_dir : string) (show_highlight : bool) :
  Forall (fun item => aligned item.2) all_data →
  saved_files (raw_comparative_plot all_data a b mc output_dir show_highlight)
  = if decide (Exists with_days all_data)
    then [path_join output_dir "comparacion_commits_raw.png"] else [].
Proof.
  intros Hall. unfold raw_comparative_plot.
  rewrite raw_comparative_series_spec by done.
  rewrite !saved_files_app, saved_files_plots by done.
  destruct (decide (Exists with_days all_data)) as [He|He].
  - rewrite bool_decide_eq_true_2 by done.
    rewrite saved_files_app, saved_files_highlight. done.
  - by rewrite bool_decide_eq_false_2.
Qed.

Lemma country_series_aligned (w : world) (window_size : Z)
    (countries : list string) :
  Forall (fun item : string * daily_series => aligned item.2)
    ((fun c => (c, country_series w window_size c)) <$> countries).
Proof.
  apply Forall_fmap, Forall_forall. intros c _. simpl.
  apply load_and_process_data_aligned.
Qed.

(** X17. [plot_daily_raw_activity], given two highlight dates that parse
    and a list of distinct countries, raises nothing and saves one figure
    [<country>_commits_raw.png] for each country whose file yields a
    non-empty series, in the order of the list, and then the comparative
    figure if there was at least one such country.  A country whose file
    is missing, malformed or without records gets no figure and keeps no
    other country from getting its own. *)
Theorem raw_figures_saved (w : world) (countries : list string)
    (highlight_start highlight_end output_dir : string)
    (show_highlight : bool) (a b : datetime) :
  NoDup countries →
  strptime_ymd highlight_start = Ok a →
  strptime_ymd highlight_end = Ok b →
  (plot_daily_raw_activity w countries highlight_start highlight_end
     output_dir show_highlight).1.2 = Ok tt
  ∧ saved_files
      (plot_daily_raw_activity w countries highlight_start highlight_end
         output_dir show_highlight).1.1
    = ((fun c => path_join output_dir (c +:+ "_commits_raw.png"))
       <$> filter (has_days w 7) countries)
      ++ (if decide (Exists (has_days w 7) countries)
          then [path_join output_dir "comparacion_commits_raw.png"]
          else []).
Proof.
  intros Hnd Ha Hb. unfold plot_daily_raw_activity. rewrite Ha, Hb.
  pose proof (load_raw_countries_data w countries Hnd) as Hdata.
  destruct (load_raw_countries w countries) as [[[all_data mc] mu] w'].
  simpl in Hdata. subst all_data. simpl. split; [done|].
  rewrite saved_files_app.
  rewrite (saved_files_concat _
    (fun item => path_join output_dir (item.1 +:+ "_commits_raw.png"))
    with_days).
  2:{ intros item Hitem. apply raw_individual_plot_saved.
      pose proof (country_series_aligned w 7 countries) as Hal.
      rewrite Forall_forall in Hal. by apply Hal. }
  rewrite raw_comparative_plot_saved by apply country_series_aligned.
  rewrite filter_with_days, <- list_fmap_compose. f_equal.
  destruct (decide (Exists with_days _)) as [He|He];
    destruct (decide (Exists (has_days w 7) countries)) as [He'|He'];
    try done; by rewrite Exists_with_days in He.
Qed.

Lemma raw_figures_saved_witness :
  saved_files
    (plot_daily_raw_activity
       (single_file "../data/India_data.json" two_days true)
       ["Bangladesh"; "India"] "2024-07-17" "2024-07-24" "out" true).1.1
  = ["out/India_commits_raw.png"; "out/comparacion_commits_raw.png"].
Proof.
  destruct (raw_figures_saved
    (single_file "../data/India_data.json" two_days true)
    ["Bangladesh"; "India"] "2024-07-17" "2024-07-24" "out" true
    (mk_date 2024 7 17) (mk_date 2024 7 24)) as [_ ->].
  - repeat constructor; set_solver.
  - reflexivity.
  - reflexivity.
  - vm_compute. reflexivity.
Defined.


(** ** [plot_daily_activity]: the figures *)

Lemma daily_column_length (r : daily_series) (data_key : daily_column) :
  aligned r → length (daily_column_of r data_key) = length (fechas r).
Proof.
  intros (Hc & Hu & Hca & Hua).
  destruct data_key; simpl; by rewrite ?length_fmap.
Qed.

Lemma create_individual_plot_saved (a b : datetime) (data_key : daily_column)
    (filename_suffix output_dir : string) (show_highlight : bool)
    (item : string * daily_series) :
  aligned item.2 →
  saved_files (create_individual_plot a b data_key filename_suffix output_dir
                 show_highlight item)
  = if decide (with_days item)
    then [path_join output_dir
            (item.1 +:+ "_" +:+ filename_suffix +:+ ".png")]
    else [].
Proof.
  destruct item as [country r]. intros Hal.
  pose proof (daily_column_length r data_key Hal) as Hlen.
  unfold create_individual_plot.
  destruct (decide (with_days (country, r))) as [Hd|Hd];
    unfold with_days in Hd; simpl in *.
  - destruct (fechas r) as [|d ds]; [done|].
    destruct (daily_column_of r data_key) as [|x l]; [done|].
    rewrite !saved_files_cons by done.
    rewrite !saved_files_app, saved_files_highlight. done.
  - destruct (fechas r) as [|d ds]; [done|]. exfalso. by apply Hd.
Qed.

Lemma comparative_series_spec (all_data : list (string * daily_series))
    (data_key : daily_column) :
  Forall (fun item => aligned item.2) all_data →
  comparative_series all_data data_key
  = ((fun item : string * daily_series =>
        Plot (fechas item.2) (daily_column_of item.2 data_key))
     <$> filter with_days all_data,
     bool_decide (Exists with_days all_data)).
Proof.
  intros Hall. unfold comparative_series.
  rewrite (comparative_fold with_days
    (fun item : string * daily_series =>
       Plot (fechas item.2) (daily_column_of item.2 data_key))); [done|].
  intros cs b [country r] Hin. rewrite Forall_forall in Hall.
  pose proof (daily_column_length r data_key (Hall _ Hin)) as Hlen.
  destruct (decide (with_days (country, r))) as [Hd|Hd];
    unfold with_days in Hd; simpl in *.
  - destruct (fechas r) as [|d ds]; [done|].
    by destruct (daily_column_of r data_key).
  - destruct (fechas r) as [|d ds]; [|exfalso; by apply Hd].
    by destruct (daily_column_of r data_key).
Qed.

Lemma create_comparative_plot_saved (all_data : list (string * daily_series))
    (a b : datetime) (data_key : daily_column) (max_value : pyfloat)
    (filename output_dir : string) (show_highlight : bool) :
  Forall (fun item => aligned item.2) all_data →
  saved_files (create_comparative_plot all_data a b data_key max_value
                 filename output_dir show_highlight)
  = if decide (Exists with_days all_data)
    then [path_join output_dir (filename +:+ ".png")] else [].
Proof.
  intros Hall. unfold create_comparative_plot.
  rewrite comparative_series_spec by done.
  rewrite !saved_files_app, saved_files_plots by done.
  destruct (decide (Exists with_days all_data)) as [He|He].
  - rewrite bool_decide_eq_true_2 by done.
    rewrite saved_files_app, saved_files_highlight. done.
  - by rewrite bool_decide_eq_false_2.
Qed.

Lemma load_daily_country_data (window_size : Z)
    (st : list (string * daily_series) * pyfloat * pyfloat * world)
    (c : string) :
  (load_daily_country window_size st c).1.1.1
  = dict_set c (load_and_process_data st.2 (country_file c) window_size).1
      st.1.1.1
  ∧ (load_daily_country window_size st c).2
    = (load_and_process_data st.2 (country_file c) window_size).2.
Proof.
  destruct st as [[[all_data mc] mu] w].
  unfold load_daily_country, country_file. simpl.
  by destruct (load_and_process_data w _ window_size).
Qed.

Lemma load_daily_countries_data (w : world) (window_size : Z)
    (countries : list string) :
  NoDup countries →
  (foldl (load_daily_country window_size)
     ([], float_of_int 0, float_of_int 0, w) countries).1.1.1
  = (fun c => (c, country_series w window_size c)) <$> countries.
Proof.
  intros Hnd.
  apply (loading_loop
           (fun w c => load_and_process_data w (country_file c) window_size)
           (load_daily_country window_size)
           (fun st => st.1.1.1) (fun st => st.2)
           (build_daily_same_input window_size)
           (fun st c => proj1 (load_daily_country_data window_size st c))
           (fun st c => proj2 (load_daily_country_data window_size st c))
           w countries ([], float_of_int 0, float_of_int 0, w) Hnd
           (same_input_refl w)).
  intros c _. simpl. apply not_elem_of_nil.
Qed.

(** X18. [plot_daily_activity], given two highlight dates that parse and
    a list of distinct countries, raises nothing and saves through
    [create_individual_plots] one figure [<country>_commits_diarios.png]
    for each country whose file yields a non-empty series, in the order
    of the list, and then through [create_comparative_plot] the figure
    [comparacion_commits_diarios.png] if there was at least one such
    country; this for every window size. *)
Theorem daily_figures_saved (w : world) (countries : list string)
    (highlight_start highlight_end : string) (window_size : Z)
    (output_dir : string) (show_highlight : bool) (a b : datetime) :
  NoDup countries →
  strptime_ymd highlight_start = Ok a →
  strptime_ymd highlight_end = Ok b →
  (plot_daily_activity w countries highlight_start highlight_end
     window_size output_dir show_highlight).1.2 = Ok tt
  ∧ saved_files
      (plot_daily_activity w countries highlight_start highlight_end
         window_size output_dir show_highlight).1.1
    = ((fun c => path_join output_dir (c +:+ "_commits_diarios.png"))
       <$> filter (has_days w window_size) countries)
      ++ (if decide (Exists (has_days w window_size) countries)
          then [path_join output_dir "comparacion_commits_diarios.png"]
          else []).
Proof.
  intros Hnd Ha Hb. unfold plot_daily_activity. rewrite Ha, Hb.
  pose proof (load_daily_countries_data w window_size countries Hnd) as Hdata.
  destruct (foldl (load_daily_country window_size) _ countries)
    as [[[all_data mc] mu] w'].
  simpl in Hdata. subst all_data. simpl. split; [done|].
  rewrite saved_files_app. unfold create_individual_plots.
  rewrite (saved_files_concat _
    (fun item => path_join output_dir (item.1 +:+ "_commits_diarios.png"))
    with_days).
  2:{ intros item Hitem.
      rewrite create_individual_plot_saved; [done|].
      pose proof (country_series_aligned w window_size countries) as Hal.
      rewrite Forall_forall in Hal. by apply Hal. }
  rewrite create_comparative_plot_saved by apply country_series_aligned.
  rewrite filter_with_days, <- list_fmap_compose. f_equal.
  destruct (decide (Exists with_days _)) as [He|He];
    destruct (decide (Exists (has_days w window_size) countries)) as [He'|He'];
    try done; by rewrite Exists_with_days in He.
Qed.

Lemma daily_figures_saved_witness :
  saved_files
    (plot_daily_activity
       (single_file "../data/India_data.json" two_days true)
       ["India"; "Philippines"] "2024-07-17" "2024-07-24" 7 "out" false).1.1
  = ["out/India_commits_diarios.png"; "out/comparacion_commits_diarios.png"].
Proof.
  destruct (daily_figures_saved
    (single_file "../data/India_data.json" two_days true)
    ["India"; "Philippines"] "2024-07-17" "2024-07-24" 7 "out" false
    (mk_date 2024 7 17) (mk_date 2024 7 24)) as [_ ->].
  - repeat constructor; set_solver.
  - reflexivity.
  - reflexivity.
  - vm_compute. reflexivity.
Defined.

(** ** [plot_weekly_activity] *)

Lemma load_weekly_countries_empty (countries : list string)
    (st : list (string * weekly_series) * Z * Z * world) :
  Forall (fun item => item.2 = empty_weekly) st.1.1.1 →
  Forall (fun item => item.2 = empty_weekly)
    (foldl load_weekly_country st countries).1.1.1.
Proof.
  revert st. induction countries as [|c countries IH]; intros st Hst; [done|].
  simpl. apply IH. destruct st as [[[all_data mc] mu] w].
  unfold load_weekly_country.
  pose proof (calculate_weekly_data_empty w
                (path_join data_dir (c +:+ "_data.json"))) as He.
  destruct (calculate_weekly_data w _) as [cd w']. simpl in *. subst cd.
  apply Forall_forall. intros item [->|Hin]%elem_of_dict_set; [done|].
  rewrite Forall_forall in Hst. by apply Hst.
Qed.

Lemma create_weekly_individual_plots_empty
    (all_data : list (string * weekly_series)) (hs he : string)
    (data_key : weekly_column) (filename_suffix output_dir : string)
    (show_highlight : bool) :
  Forall (fun item => item.2 = empty_weekly) all_data →
  (create_weekly_individual_plots all_data hs he data_key filename_suffix
     output_dir show_highlight).2 = Ok tt
  ∧ Forall is_notice
      (create_weekly_individual_plots all_data hs he data_key filename_suffix
         output_dir show_highlight).1.
Proof.
  unfold create_weekly_individual_plots.
  induction 1 as [|[country r] all_data Hr _ [IH1 IH2]]; [by split|].
  simpl in Hr. subst r. cbn [for_each_call foldr].
  fold (for_each_call
          (create_weekly_individual_plot hs he data_key filename_suffix
             output_dir show_highlight) all_data).
  unfold create_weekly_individual_plot at 1 3. simpl.
  split; [done|]. by constructor.
Qed.

Lemma create_weekly_comparative_plot_empty
    (all_data : list (string * weekly_series)) (hs he : string)
    (data_key : weekly_column) (max_value : Z) (filename : string)
    (ref : option weekly_series) (output_dir : string) (show_highlight : bool) :
  Forall (fun item => item.2 = empty_weekly) all_data →
  (create_weekly_comparative_plot all_data hs he data_key max_value filename
     ref output_dir show_highlight).2 = Ok tt
  ∧ Forall is_notice
      (create_weekly_comparative_plot all_data hs he data_key max_value
         filename ref output_dir show_highlight).1.
Proof.
  intros Hall. unfold create_weekly_comparative_plot.
  assert (weekly_comparative_series all_data data_key = ([], false)) as ->.
  { unfold weekly_comparative_series. generalize (@nil call).
    induction Hall as [|[country r] all_data Hr _ IH]; intros cs; [done|].
    simpl in Hr. subst r. simpl. apply IH. }
  simpl. split; [done|]. by repeat constructor.
Qed.

Lemma and_then_notice (o1 o2 : outcome) :
  o1.2 = Ok tt → Forall is_notice o1.1 →
  o2.2 = Ok tt → Forall is_notice o2.1 →
  (and_then o1 o2).2 = Ok tt ∧ Forall is_notice (and_then o1 o2).1.
Proof.
  destruct o1 as [cs1 r1], o2 as [cs2 r2]. simpl.
  intros -> H1 -> H2. simpl. split; [done|]. by apply Forall_app.
Qed.

Lemma plot_weekly_activity_notices (w : world) (countries : list string)
    (highlight_week_start highlight_week_end output_dir : string)
    (show_highlight : bool) :
  (plot_weekly_activity w countries highlight_week_start highlight_week_end
     output_dir show_highlight).1.2 = Ok tt
  ∧ Forall is_notice
      (plot_weekly_activity w countries highlight_week_start
         highlight_week_end output_dir show_highlight).1.1.
Proof.
  unfold plot_weekly_activity.
  pose proof (load_weekly_countries_empty countries ([], 0, 0, w)
                ltac:(constructor)) as Hall.
  destruct (foldl load_weekly_country _ countries)
    as [[[all_data mc] mu] w'].
  simpl in Hall. cbn [fst snd].
  apply and_then_notice; [done|by repeat constructor|..].
  all: repeat (apply and_then_notice
               || apply create_weekly_individual_plots_empty
               || apply create_weekly_comparative_plot_empty); done.
Qed.

(** X19. [plot_weekly_activity] never draws a series and never saves a
    figure: for every list of countries, whatever their files hold and
    whatever the highlighted weeks, it raises nothing and every call it
    makes is [makedirs], the opening or closing of a figure, or a [print]
    (of the "No hay datos" lines). *)
Theorem weekly_plots_draw_nothing (w : world) (countries : list string)
    (highlight_week_start highlight_week_end output_dir : string)
    (show_highlight : bool) :
  (plot_weekly_activity w countries highlight_week_start highlight_week_end
     output_dir show_highlight).1.2 = Ok tt
  ∧ Forall is_notice
      (plot_weekly_activity w countries highlight_week_start
         highlight_week_end output_dir show_highlight).1.1
  ∧ saved_files
      (plot_weekly_activity w countries highlight_week_start
         highlight_week_end output_dir show_highlight).1.1 = [].
Proof.
  destruct (plot_weekly_activity_notices w countries highlight_week_start
              highlight_week_end output_dir show_highlight)
    as [Hok Hnotice].
  split; [done|]. split; [done|].
  induction Hnotice as [|c cs Hc _ IH]; [done|].
  by destruct c.
Qed.

(** ** [plot_percentage_change] *)

Lemma py_max_float_spec (a : Q) (rest : list pyfloat) :
  Forall is_num rest →
  ∃ m : Q, py_max float_gt (Num a) rest = Num m
           ∧ (a <= m)%Q ∧ Forall (float_le m) rest.
Proof.
  unfold py_max. intros Hrest. revert a.
  induction Hrest as [|x rest [b ->] _ IH]; intros a.
  - exists a. split; [done|]. split; [lra|constructor].
  - cbn [foldl float_gt]. destruct (Qle_bool b a) eqn:Hba; cbn [negb].
    + apply Qle_bool_iff in Hba. destruct (IH a) as (m & Hm & Ham & Hall).
      exists m. split; [done|]. split; [done|].
      constructor; [|done]. exists b. split; [done|lra].
    + assert (¬ (b <= a)%Q) as Hnle
        by (rewrite <- Qle_bool_iff; congruence).
      destruct (IH b) as (m & Hm & Hbm & Hall).
      exists m. split; [done|]. split; [lra|].
      constructor; [|done]. by exists b.
Qed.

Lemma py_min_float_spec (a : Q) (rest : list pyfloat) :
  Forall is_num rest →
  ∃ m : Q, py_min float_lt (Num a) rest = Num m
           ∧ (m <= a)%Q ∧ Forall (float_ge m) rest.
Proof.
  unfold py_min. intros Hrest. revert a.
  induction Hrest as [|x rest [b ->] _ IH]; intros a.
  - exists a. split; [done|]. split; [lra|constructor].
  - cbn [foldl float_lt float_gt].
    destruct (Qle_bool a b) eqn:Hab; cbn [negb].
    + apply Qle_bool_iff in Hab. destruct (IH a) as (m & Hm & Ham & Hall).
      exists m. split; [done|]. split; [done|].
      constructor; [|done]. exists b. split; [done|lra].
    + assert (¬ (a <= b)%Q) as Hnle
        by (rewrite <- Qle_bool_iff; congruence).
      destruct (IH b) as (m & Hm & Hbm & Hall).
      exists m. split; [done|]. split; [lra|].
      constructor; [|done]. by exists b.
Qed.

Lemma rolling_average_numbers (l : list Q) (w : Z) :
  1 ≤ w → Forall is_num (calculate_rolling_average l w).
Proof.
  intros Hw. apply rolling_average_Forall with (P := fun _ => True);
    [|done|by apply Forall_true].
  intros [|x win] Hne _; [done|]. by eexists.
Qed.

Lemma country_series_numbers (w : world) (window_size : Z) (json_file : string) :
  1 ≤ window_size →
  Forall is_num
    (commits_rolling_avg (load_and_process_data w json_file window_size).1).
Proof.
  intros Hw. unfold load_and_process_data.
  destruct (load_and_process_body w json_file window_size) as [r|e] eqn:Hb;
    [|constructor].
  apply load_and_process_body_shape in Hb as (_ & _ & _ & _ & [Hrc _] & _).
  cbn [fst]. rewrite Hrc. by apply rolling_average_numbers.
Qed.

Lemma percentage_change_numbers (cd : daily_series) (r : pct_series) :
  aligned cd → Forall is_num (commits_rolling_avg cd) →
  percentage_change cd = Ok r → Forall is_num (pct_change r).
Proof.
  intros Hal Hnum Hr.
  destruct (percentage_change_of_aligned cd Hal) as (p & Hp & _ & _ & Hsteps).
  rewrite Hr in Hp. injection Hp as <-.
  apply Forall_lookup_2. intros i y Hy. apply Hsteps in Hy as [-> Hi].
  rewrite Forall_lookup in Hnum.
  destruct (lookup_lt_is_Some_2 _ _ Hi) as [t Ht].
  destruct (lookup_lt_is_Some_2 _ i (Nat.lt_succ_l _ _ Hi)) as [y Hy].
  rewrite (list_lookup_total_correct _ _ _ Ht),
    (list_lookup_total_correct _ _ _ Hy).
  destruct (Hnum _ _ Ht) as [qt ->]. destruct (Hnum _ _ Hy) as [qy ->].
  destruct (day_change_cases qt qy) as (c & Hc & _). by exists c.
Qed.

(** The loading loop of [plot_percentage_change] raises nothing. *)
Lemma load_pct_country_ok (window_size : Z)
    (st : list (string * pct_series) * pyfloat * pyfloat * list call * world)
    (c : string) :
  (load_pct_country window_size st c).2 = Ok tt.
Proof.
  destruct st as [[[[all_data lo] hi] printed] w]. unfold load_pct_country.
  pose proof (load_and_process_data_aligned w
                (path_join data_dir (c +:+ "_data.json")) window_size) as Hal.
  destruct (load_and_process_data w _ window_size) as [cd w'].
  cbn [fst] in Hal.
  destruct (percentage_change_of_aligned cd Hal) as (p & Hp & _).
  rewrite Hp. destruct (fechas cd); [done|].
  destruct (commits_rolling_avg cd); [done|].
  by destruct (pct_change p).
Qed.

Lemma load_pct_countries_ok (window_size : Z) (countries : list string)
    (st : list (string * pct_series) * pyfloat * pyfloat * list call * world) :
  (load_pct_countries window_size countries st).2 = Ok tt.
Proof.
  revert st. induction countries as [|c countries IH]; intros st; [done|].
  cbn [load_pct_countries].
  pose proof (load_pct_country_ok window_size st c) as Hc.
  destruct (load_pct_country window_size st c) as [st' [[]|e]]; [|done].
  apply IH.
Qed.

Lemma pct_limits_widen (lo hi lo' hi' : Q) (ys : list pyfloat) :
  (lo' <= lo)%Q → (hi <= hi')%Q →
  Forall (fun y => float_ge lo y ∧ float_le hi y) ys →
  Forall (fun y => float_ge lo' y ∧ float_le hi' y) ys.
Proof.
  intros Hlo Hhi Hys. eapply Forall_impl; [exact Hys|].
  intros y [(q & -> & Hq) (q' & [= <-] & Hq')].
  split; exists q; (split; [done|lra]).
Qed.

Lemma load_pct_country_limits (window_size : Z)
    (st : list (string * pct_series) * pyfloat * pyfloat * list call * world)
    (c : string) :
  1 ≤ window_size → pct_limits_ok st →
  pct_limits_ok (load_pct_country window_size st c).1.
Proof.
  intros Hw (lo & hi & Hlo & Hhi & Hlo0 & Hhi0 & Hall).
  destruct st as [[[[all_data lo'] hi'] printed] w]. cbn [fst snd] in *.
  subst lo' hi'. unfold load_pct_country.
  pose proof (load_and_process_data_aligned w
                (path_join data_dir (c +:+ "_data.json")) window_size) as Hal.
  pose proof (country_series_numbers w window_size
                (path_join data_dir (c +:+ "_data.json")) Hw) as Hnum.
  destruct (load_and_process_data w _ window_size) as [cd w'].
  cbn [fst] in Hal, Hnum.
  assert (pct_limits_ok
            (dict_set c (mk_pct [] []) all_data, Num lo, Num hi,
             printed ++ [PrintLine ("No hay suficientes datos para " +:+ c
                                    +:+ " después del filtrado.")], w'))
    as Hempty.
  { exists lo, hi. cbn [fst snd]. repeat (split; [done|]).
    apply Forall_forall. intros item [->|Hin]%elem_of_dict_set;
      [constructor|]. rewrite Forall_forall in Hall. by apply Hall. }
  destruct (fechas cd) as [|d ds] eqn:Hf; [done|].
  destruct (commits_rolling_avg cd) as [|a avg] eqn:Ha; [done|].
  rewrite <- Ha in Hnum.
  destruct (percentage_change cd) as [r|e] eqn:Hr;
    [|exists lo, hi; by cbn [fst snd]].
  pose proof (percentage_change_numbers cd r Hal Hnum Hr) as Hrn.
  destruct (pct_change r) as [|x l] eqn:Hpc.
  - exists lo, hi. cbn [fst snd]. repeat (split; [done|]).
    apply Forall_forall. intros item [->|Hin]%elem_of_dict_set.
    + simpl. rewrite Hpc. constructor.
    + rewrite Forall_forall in Hall. by apply Hall.
  - apply Forall_cons in Hrn as [[qx ->] Hl].
    destruct (py_min_float_spec qx l Hl) as (mn & -> & Hmn & Hmnall).
    destruct (py_max_float_spec qx l Hl) as (mx & -> & Hmx & Hmxall).
    destruct (py_min_float_spec lo [Num mn] ltac:(repeat constructor; by eexists))
      as (lo2 & -> & Hlo2 & Hlo2all).
    destruct (py_max_float_spec hi [Num mx] ltac:(repeat constructor; by eexists))
      as (hi2 & -> & Hhi2 & Hhi2all).
    apply Forall_cons in Hlo2all as [(? & [= <-] & Hlomn) _].
    apply Forall_cons in Hhi2all as [(? & [= <-] & Hhimx) _].
    exists lo2, hi2. cbn [fst snd]. split; [done|]. split; [done|].
    split; [lra|]. split; [lra|].
    apply Forall_forall. intros item [->|Hin]%elem_of_dict_set.
    + simpl. rewrite Hpc. constructor.
      * split; exists qx; (split; [done|lra]).
      * apply Forall_forall. intros y Hy.
        rewrite Forall_forall in Hmnall, Hmxall.
        destruct (Hmnall _ Hy) as (q & -> & Hq1).
        destruct (Hmxall _ Hy) as (q' & [= <-] & Hq2).
        split; exists q; (split; [done|lra]).
    + rewrite Forall_forall in Hall.
      by apply (pct_limits_widen lo hi), Hall.
Qed.

Lemma load_pct_countries_limits (window_size : Z) (countries : list string)
    (st : list (string * pct_series) * pyfloat * pyfloat * list call * world) :
  1 ≤ window_size → pct_limits_ok st →
  pct_limits_ok (load_pct_countries window_size countries st).1.
Proof.
  intros Hw. revert st.
  induction countries as [|c countries IH]; intros st Hst; [done|].
  cbn [load_pct_countries].
  pose proof (load_pct_country_limits window_size st c Hw Hst) as Hc.
  destruct (load_pct_country window_size st c) as [st' [[]|e]]; [|done].
  by apply IH.
Qed.



(** ** The script *)

Lemma plot_daily_raw_activity_ok (w : world) (countries : list string)
    (hs he output_dir : string) (show_highlight : bool) (a b : datetime) :
  strptime_ymd hs = Ok a → strptime_ymd he = Ok b →
  (plot_daily_raw_activity w countries hs he output_dir show_highlight).1.2
  = Ok tt.
Proof.
  intros Ha Hb. unfold plot_daily_raw_activity. rewrite Ha, Hb.
  by destruct (load_raw_countries w countries) as [[[? ?] ?] ?].
Qed.

Lemma plot_daily_activity_ok (w : world) (countries : list string)
    (hs he : string) (window_size : Z) (output_dir : string)
    (show_highlight : bool) (a b : datetime) :
  strptime_ymd hs = Ok a → strptime_ymd he = Ok b →
  (plot_daily_activity w countries hs he window_size output_dir
     show_highlight).1.2 = Ok tt.
Proof.
  intros Ha Hb. unfold plot_daily_activity. rewrite Ha, Hb.
  by destruct (foldl _ _ countries) as [[[? ?] ?] ?].
Qed.

Lemma and_then_ok (a b : outcome) :
  a.2 = Ok tt → b.2 = Ok tt → and_then a b = (a.1 ++ b.1, Ok tt).
Proof. destruct a as [cs r], b as [cs' r']. simpl. by intros -> ->. Qed.

Lemma for_each_call_ok {A : Type} (f : A → outcome) (l : list A) :
  (∀ x, x ∈ l → (f x).2 = Ok tt) →
  for_each_call f l = (concat ((fun x => (f x).1) <$> l), Ok tt).
Proof.
  unfold for_each_call. induction l as [|x l IH]; intros Hf; [done|].
  cbn [foldr]. rewrite IH by (intros; apply Hf; by right).
  rewrite and_then_ok; [done|apply Hf; left|done].
Qed.

Lemma set_ylim_numbers (bottom top : pyfloat) :
  is_num bottom → is_num top →
  set_ylim bottom top = ([SetYlim bottom top], Ok tt).
Proof. by intros [a ->] [b ->]. Qed.

(** With changes that are numbers the chart of a country is drawn to the
    end, and saved when there is a change to show. *)
Lemma pct_individual_plot_numbers (a b : datetime) (output_dir : string)
    (show_highlight : bool) (item : string * pct_series) :
  Forall is_num (pct_change item.2) →
  (pct_individual_plot a b output_dir show_highlight item).2 = Ok tt
  ∧ saved_files (pct_individual_plot a b output_dir show_highlight item).1
    = match fechas_pct item.2, pct_change item.2 with
      | [], _ | _, [] => []
      | _, _ => [path_join output_dir (item.1 +:+ "_cambio_porcentual.png")]
      end.
Proof.
  destruct item as [country r]. cbn [fst snd]. intros Hnum.
  unfold pct_individual_plot.
  destruct (fechas_pct r) as [|d ds]; [done|].
  destruct (pct_change r) as [|x l]; [done|].
  apply Forall_cons in Hnum as [[qx ->] Hl].
  destruct (py_min_float_spec qx l Hl) as (mn & -> & _).
  destruct (py_max_float_spec qx l Hl) as (mx & -> & _).
  rewrite set_ylim_numbers by (by eexists).
  rewrite (and_then_ok (_, _) (_, _)) by done.
  rewrite and_then_ok by done. cbn [fst snd]. split; [done|].
  rewrite !saved_files_app, saved_files_highlight. reflexivity.
Qed.

Lemma pct_comparative_plot_numbers (all_data : list (string * pct_series))
    (a b : datetime) (lo hi : pyfloat) (output_dir : string)
    (show_highlight : bool) :
  is_num lo → is_num hi →
  (pct_comparative_plot all_data a b lo hi output_dir show_highlight).2
  = Ok tt
  ∧ saved_files
      (pct_comparative_plot all_data a b lo hi output_dir show_highlight).1
    = saved_files (pct_comparative_series all_data).1
      ++ (if (pct_comparative_series all_data).2
          then [path_join output_dir "comparacion_cambio_porcentual.png"]
          else []).
Proof.
  intros [qlo ->] [qhi ->]. unfold pct_comparative_plot.
  destruct (pct_comparative_series all_data) as [series has_data].
  cbn [fst snd]. destruct has_data.
  - rewrite set_ylim_numbers by (by eexists).
    rewrite (and_then_ok (_, _) (_, _)) by done.
    rewrite (and_then_ok ([Axhline] ++ _, _)) by done.
    rewrite (and_then_ok (_, _) (_, _)) by done.
    rewrite and_then_ok by done. cbn [fst snd]. split; [done|].
    rewrite !saved_files_app, saved_files_highlight. reflexivity.
  - rewrite (and_then_ok (_, _) (_, _)) by done.
    rewrite and_then_ok by done. cbn [fst snd]. split; [done|].
    rewrite !saved_files_app. reflexivity.
Qed.

(** With a window of at least 1 every limit handed to [set_ylim] is a
    number: [plot_percentage_change] runs to its end, and its calls are
    those of the loading loop, of the chart of each country and of the
    comparative chart. *)
Lemma plot_percentage_change_calls (w : world) (countries : list string)
    (hs he : string) (window_size : Z) (show_highlight : bool)
    (output_dir : string) (a b : datetime) :
  1 ≤ window_size → strptime_ymd hs = Ok a → strptime_ymd he = Ok b →
  let st := load_pct_countries window_size countries
              ([], float_of_int 0, float_of_int 0, [], w) in
  (plot_percentage_change w countries hs he window_size show_highlight
     output_dir).1
  = ([Makedirs output_dir] ++ st.1.1.2
     ++ concat ((fun item =>
                   (pct_individual_plot a b output_dir show_highlight item).1)
                <$> st.1.1.1.1.1)
     ++ (pct_comparative_plot st.1.1.1.1.1 a b st.1.1.1.1.2 st.1.1.1.2
           output_dir show_highlight).1,
     Ok tt)
  ∧ Forall (fun item : string * pct_series =>
              Forall is_num (pct_change item.2)) st.1.1.1.1.1.
Proof.
  intros Hw Ha Hb st. subst st. unfold plot_percentage_change.
  rewrite Ha, Hb.
  pose proof (load_pct_countries_ok window_size countries
                ([], float_of_int 0, float_of_int 0, [], w)) as Hok.
  pose proof (load_pct_countries_limits window_size countries
                ([], float_of_int 0, float_of_int 0, [], w) Hw) as Hlim.
  destruct (load_pct_countries window_size countries _)
    as [[[[[all_data lo'] hi'] printed] w'] res].
  cbn [fst snd] in *. subst res.
  destruct Hlim as (lo & hi & Hlo & Hhi & _ & _ & Hall).
  { exists 0%Q, 0%Q. cbn [fst snd]. repeat (split; [done|]). constructor. }
  cbn [fst snd] in *. subst lo' hi'.
  assert (Forall (fun item : string * pct_series =>
                    Forall is_num (pct_change item.2)) all_data) as Hnum.
  { eapply Forall_impl; [exact Hall|]. intros item Hitem.
    eapply Forall_impl; [exact Hitem|].
    intros y [(q & -> & _) _]. by exists q. }
  split; [|done].
  destruct (pct_comparative_plot_numbers all_data a b (Num lo) (Num hi)
              output_dir show_highlight) as [Hc _]; [by eexists..|].
  rewrite for_each_call_ok.
  2:{ intros item Hitem. apply pct_individual_plot_numbers.
      rewrite Forall_forall in Hnum. by apply Hnum. }
  rewrite (and_then_ok (concat _, _)) by done.
  rewrite and_then_ok by done. cbn [fst snd].
  by rewrite <- !app_assoc.
Qed.

Lemma plot_percentage_change_ok (w : world) (countries : list string)
    (hs he : string) (window_size : Z) (show_highlight : bool)
    (output_dir : string) (a b : datetime) :
  1 ≤ window_size → strptime_ymd hs = Ok a → strptime_ymd he = Ok b →
  (plot_percentage_change w countries hs he window_size show_highlight
     output_dir).1.2 = Ok tt.
Proof.
  intros Hw Ha Hb.
  destruct (plot_percentage_change_calls w countries hs he window_size
              show_highlight output_dir a b Hw Ha Hb) as [-> _].
  done.
Qed.

Lemma run_then_ok (before : outcome * world) (f : world → outcome * world) :
  before.1.2 = Ok tt → (∀ w, (f w).1.2 = Ok tt) →
  (run_then before f).1.2 = Ok tt.
Proof.
  destruct before as [[cs r] w]. simpl. intros -> Hf.
  specialize (Hf w). by destruct (f w) as [[cs' r'] w'].
Qed.

(** X21. Run as a script, the program is not stopped by its data: for
    every state of the three input files - missing, malformed or holding
    any records - the four plotting functions run to the end with the
    settings of [__main__] and no exception leaves the data processing;
    with the window of 7 no limit handed to [set_ylim] is [nan]. *)
Theorem main_never_raises (w : world) : (main w).1.2 = Ok tt.
Proof.
  unfold main. cbv zeta.
  repeat (apply run_then_ok; [|intros ?]); try done.
  - by apply (plot_daily_raw_activity_ok _ _ _ _ _ _
                (mk_date 2024 7 17) (mk_date 2024 7 24)).
  - by apply (plot_daily_activity_ok _ _ _ _ _ _ _
                (mk_date 2024 7 17) (mk_date 2024 7 24)).
  - by apply (plot_daily_activity_ok _ _ _ _ _ _ _
                (mk_date 2024 7 17) (mk_date 2024 7 24)).
  - by apply (plot_percentage_change_ok _ _ _ _ _ _ _
                (mk_date 2024 7 17) (mk_date 2024 7 24)).
  - apply plot_weekly_activity_notices.
Qed.

(** ** Date strings: printing is injective *)

(** Two runs of digits, each followed by [-], that make the same string
    are the same run. *)
Lemma digits_dash_inj (a1 a2 r1 r2 : string) :
  all_digits a1 = true → all_digits a2 = true →
  a1 +:+ String "-" r1 = a2 +:+ String "-" r2 → a1 = a2 ∧ r1 = r2.
Proof.
  revert a2. induction a1 as [|c1 a1 IH]; intros [|c2 a2] H1 H2 Heq.
  - by injection Heq as ->.
  - injection Heq as <- _. done.
  - injection Heq as -> _. done.
  - change (String c1 (a1 +:+ String "-" r1)
            = String c2 (a2 +:+ String "-" r2)) in Heq.
    injection Heq as -> Heq. simpl in H1, H2.
    apply andb_true_iff in H1 as [_ H1]. apply andb_true_iff in H2 as [_ H2].
    destruct (IH a2 H1 H2 Heq) as [-> ->]. done.
Qed.

(** [int] skips a leading zero. *)
Lemma py_int_leading_zero (c : ascii) (s : string) :
  is_digit c = true → py_int (String "0" (String c s)) = py_int (String c s).
Proof.
  intros Hc. unfold py_int, NilZero.int_of_string.
  assert (Ascii.eqb c "-" = false) as Hne.
  { apply Ascii.eqb_neq. intros ->. done. }
  rewrite Hne. change (Ascii.eqb "0" "-") with false. cbv iota.
  change (NilZero.uint_of_string (String "0" (String c s)))
    with (match NilZero.uint_of_string (String c s) with
          | Some d => Some (Decimal.D0 d)
          | None => None
          end).
  by destruct (NilZero.uint_of_string (String c s)).
Qed.

Lemma py_int_zeros (n : nat) (c : ascii) (s : string) :
  is_digit c = true → py_int (zeros n +:+ String c s) = py_int (String c s).
Proof.
  intros Hc. induction n as [|n IH]; [done|].
  change (zeros (S n) +:+ String c s)
    with (String "0" (zeros n +:+ String c s)).
  destruct n as [|n].
  - by apply py_int_leading_zero.
  - change (zeros (S n) +:+ String c s)
      with (String "0" (zeros n +:+ String c s)) in *.
    by rewrite py_int_leading_zero.
Qed.

Lemma py_int_zfill (w : nat) (n : Z) :
  0 ≤ n → py_int (zfill w (py_str n)) = Ok n.
Proof.
  intros Hn. unfold zfill.
  pose proof (all_digits_py_str n Hn) as Hd.
  pose proof (py_int_py_str n) as Hi.
  destruct (py_str n) as [|c s]; [done|].
  simpl in Hd. apply andb_true_iff in Hd as [Hc _].
  by rewrite py_int_zeros.
Qed.

Lemma all_digits_zfill (w : nat) (n : Z) :
  0 ≤ n → all_digits (zfill w (py_str n)) = true.
Proof.
  intros Hn. unfold zfill.
  by rewrite all_digits_app, all_digits_zeros, all_digits_py_str.
Qed.

Lemma strftime_ymd_inj (pads : bool) (d1 d2 : datetime) :
  valid_date d1 = true → valid_date d2 = true →
  strftime_ymd pads d1 = strftime_ymd pads d2 → d1 = d2.
Proof.
  intros (Hy1 & Hm1 & Hd1)%valid_date_spec (Hy2 & Hm2 & Hd2)%valid_date_spec.
  unfold strftime_ymd.
  set (Y1 := if pads then zfill 4 (py_str (year d1)) else py_str (year d1)).
  set (Y2 := if pads then zfill 4 (py_str (year d2)) else py_str (year d2)).
  assert (all_digits Y1 = true ∧ py_int Y1 = Ok (year d1)) as [HY1 HI1].
  { unfold Y1. destruct pads.
    - split; [apply all_digits_zfill|apply py_int_zfill]; lia.
    - split; [apply all_digits_py_str; lia|apply py_int_py_str]. }
  assert (all_digits Y2 = true ∧ py_int Y2 = Ok (year d2)) as [HY2 HI2].
  { unfold Y2. destruct pads.
    - split; [apply all_digits_zfill|apply py_int_zfill]; lia.
    - split; [apply all_digits_py_str; lia|apply py_int_py_str]. }
  clearbody Y1 Y2.
  change ("-" +:+ ?x) with (String "-" x).
  intros Heq.
  apply digits_dash_inj in Heq as [HY Heq]; [|done..].
  change (zfill 2 (py_str (month d1)) +:+ String "-" (zfill 2 (py_str (day d1)))
          = zfill 2 (py_str (month d2))
            +:+ String "-" (zfill 2 (py_str (day d2)))) in Heq.
  apply digits_dash_inj in Heq as [HM HD];
    [|apply all_digits_zfill; lia..].
  assert (year d1 = year d2) as Hy by congruence.
  assert (month d1 = month d2) as Hm.
  { pose proof (py_int_zfill 2 (month d1) ltac:(lia)) as H1.
    pose proof (py_int_zfill 2 (month d2) ltac:(lia)) as H2. congruence. }
  assert (day d1 = day d2) as Hd.
  { pose proof (py_int_zfill 2 (day d1) ltac:(lia)) as H1.
    pose proof (py_int_zfill 2 (day d2) ltac:(lia)) as H2. congruence. }
  destruct d1, d2. simpl in *. by subst.
Qed.

(** ** DailySeriesBuilder: the total is kept *)

Lemma sum_Z_cons (x : Z) (l : list Z) : sum_Z (x :: l) = x + sum_Z l.
Proof. done. Qed.

Lemma sum_commits_accumulate (keys : list string) (k u : string) (n : Z)
    (t : tables) :
  NoDup keys →
  sum_Z (commits_at (accumulate k u n t) <$> keys)
  = sum_Z (commits_at t <$> keys) + (if decide (k ∈ keys) then n else 0).
Proof.
  induction 1 as [|s keys Hs Hnd IH].
  - rewrite decide_False by apply not_elem_of_nil. done.
  - rewrite !fmap_cons, !sum_Z_cons, IH, commits_at_accumulate.
    destruct (decide (k = s)) as [->|Hne].
    + rewrite (decide_False (P := s ∈ keys)) by done.
      rewrite decide_True by left. lia.
    + destruct (decide (k ∈ keys)) as [Hin|Hnin].
      * rewrite decide_True by (by right). lia.
      * rewrite decide_False; [lia|].
        by intros [?|?]%elem_of_cons.
Qed.

Lemma sum_commits_tally (keys : list string) (recs : list triple) (t : tables) :
  NoDup keys → (∀ r : triple, r ∈ recs → r.1.1 ∈ keys) →
  sum_Z (commits_at (tally recs t) <$> keys)
  = sum_Z (commits_at t <$> keys) + sum_Z ((fun r : triple => r.2) <$> recs).
Proof.
  intros Hnd. revert t.
  induction recs as [|[[k u] n] recs IH]; intros t Hkeys.
  - rewrite fmap_nil. change (tally [] t) with t.
    change (sum_Z []) with 0. lia.
  - cbn [tally foldl]. fold (tally recs (accumulate k u n t)).
    rewrite IH by (intros; apply Hkeys; by right).
    rewrite sum_commits_accumulate by done.
    rewrite decide_True by (apply (Hkeys (k, u, n)); left).
    rewrite fmap_cons, sum_Z_cons. simpl. lia.
Qed.

Lemma filled_count_commits_at (pads : bool) (t : tables) (d : datetime) :
  filled_count pads t d = commits_at t (strftime_ymd pads d).
Proof.
  unfold filled_count. destruct (decide _) as [|Hnin]; [done|].
  apply not_elem_of_dom_1 in Hnin. unfold commits_at. by rewrite Hnin.
Qed.

Lemma daily_series_total (w : world) (json_file : string)
    (window_size : Z) (data : json) (recs : list triple) :
  files w json_file = Parsed data →
  triples daily_key data = Ok recs →
  (∀ r : triple, r ∈ recs → canonical (pads_year w) r.1.1 = true) →
  (∀ r : triple, r ∈ recs → strptime_ymd r.1.1 ≠ Ok MAXDATE) →
  sum_Z (raw_commits (load_and_process_data w json_file window_size).1)
  = sum_Z ((fun r : triple => r.2) <$> recs).
Proof.
  intros Hfile Hrecs Hcan Hmax.
  set (t := tally recs no_tables).
  assert (aggregate_daily data = Ok t) as Ht
    by (by rewrite aggregate_daily_generic, aggregate_triples, Hrecs).
  assert (∀ k, k ∈ dom (commits_by t) ↔ ∃ u n, (k, u, n) ∈ recs) as Hdom.
  { intros k. unfold t. rewrite dom_tally. simpl. rewrite dom_empty_L.
    split; [intros [?|?]; [set_solver|done]|by right]. }
  destruct (decide (recs = [])) as [Hnil|Hnn].
  { unfold load_and_process_data, load_and_process_body, read_json.
    rewrite Hfile. simpl. rewrite Ht. unfold t. rewrite Hnil. done. }
  assert (∃ r0 : triple, r0 ∈ recs) as [r0 Hr0]
    by (destruct recs as [|r0 ?]; [done|exists r0; left]).
  destruct (daily_series_completed w json_file window_size data t Hfile Ht)
    as (klo & khi & lo & hi & Hklo & Hkhi & Hlo & Hhi & Hrange & _ & Hlen
        & _ & Hdays).
  { intros k (u & n & Hin)%Hdom. apply (Hcan _ Hin). }
  { intros Hempty. destruct r0 as [[k u] n].
    assert (k ∈ dom (commits_by t)) as Hk by (apply Hdom; by exists u, n).
    rewrite Hempty in Hk. by apply elem_of_empty in Hk. }
  { left. intros (u & n & Hin)%Hdom. apply (Hmax _ Hin). simpl.
    apply strptime_strftime_MAXDATE. }
  set (r := (load_and_process_data w json_file window_size).1) in *.
  set (pads := pads_year w) in *.
  pose proof (load_and_process_data_aligned w json_file window_size)
    as (Hal & _). fold r in Hal.
  assert (raw_commits r = commits_at t <$> (strftime_ymd pads <$> fechas r))
    as ->.
  { apply list_eq. intros i. rewrite <- list_fmap_compose, list_lookup_fmap.
    destruct (fechas r !! i) as [d|] eqn:Hd.
    - destruct (Hdays i d Hd) as (_ & _ & -> & _). simpl.
      by rewrite filled_count_commits_at.
    - simpl. apply lookup_ge_None. apply lookup_ge_None in Hd. lia. }
  assert (valid_date lo = true) as Hvlo by (by eapply strptime_ymd_valid).
  assert (valid_date hi = true) as Hvhi by (by eapply strptime_ymd_valid).
  unfold t at 1. rewrite sum_commits_tally.
  - assert (sum_Z (commits_at no_tables <$> (strftime_ymd pads <$> fechas r))
            = 0) as ->; [|lia].
    apply sum_Z_zero, Forall_fmap, Forall_forall. intros k _. simpl.
    unfold commits_at. simpl. by rewrite lookup_empty.
  - apply NoDup_fmap_2_strong.
    + intros d1 d2 [i1 H1]%list_elem_of_lookup [i2 H2]%list_elem_of_lookup.
      destruct (Hdays _ _ H1) as (Hv1 & _). destruct (Hdays _ _ H2) as (Hv2 & _).
      by apply strftime_ymd_inj.
    + apply NoDup_alt. intros i j d Hi Hj.
      destruct (Hdays _ _ Hi) as (_ & Ho1 & _).
      destruct (Hdays _ _ Hj) as (_ & Ho2 & _). lia.
  - intros [[k u] n] Hin. simpl.
    destruct (canonical_date_of_key pads k (Hcan _ Hin)) as (Hk & Hvk & Hsk).
    assert (k ∈ dom (commits_by t)) as Hkdom by (apply Hdom; by exists u, n).
    destruct (Hrange k (date_of_key k) Hkdom Hk) as [Hle1 Hle2].
    rewrite date_leb_toordinal in Hle1, Hle2 by done.
    apply Z.leb_le in Hle1, Hle2.
    set (i := Z.to_nat (toordinal (date_of_key k) - toordinal lo)).
    destruct (lookup_lt_is_Some_2 (fechas r) i) as [d Hd]; [lia|].
    destruct (Hdays i d Hd) as (Hvd & Hod & _).
    assert (d = date_of_key k) as -> by (apply toordinal_inj; [done..|lia]).
    apply list_elem_of_fmap. exists (date_of_key k).
    split; [done|]. by eapply list_elem_of_lookup_2.
Qed.

(** X22. Completing the range neither loses nor invents commits: for an
    input whose records all parse, with date keys written as the program
    writes dates and none on 9999-12-31, the raw commit counts of the
    daily series add up to the sum of all the counts in the file. *)
Theorem daily_series_keeps_total (w : world) (json_file : string)
    (window_size : Z) (data : json) (recs : list triple) :
  files w json_file = Parsed data →
  triples daily_key data = Ok recs →
  (∀ r : triple, r ∈ recs → canonical (pads_year w) r.1.1 = true) →
  (∀ r : triple, r ∈ recs → strptime_ymd r.1.1 ≠ Ok MAXDATE) →
  sum_Z (raw_commits (load_and_process_data w json_file window_size).1)
  = sum_Z ((fun r : triple => r.2) <$> recs).
Proof. apply daily_series_total. Qed.

Lemma daily_series_keeps_total_witness :
  sum_Z (raw_commits
           (load_and_process_data (single_file "a.json" two_days_and_zero true)
              "a.json" 7).1)
  = 5.
Proof.
  rewrite (daily_series_keeps_total _ _ _ two_days_and_zero
             [("2024-01-01", "alice", 3); ("2024-01-03", "alice", 2);
              ("2024-01-02", "bob", 0)]).
  - reflexivity.
  - reflexivity.
  - vm_compute. reflexivity.
  - intros r Hr. repeat (apply elem_of_cons in Hr as [->|Hr]);
      [vm_compute; reflexivity..|by apply elem_of_nil in Hr].
  - intros r Hr. repeat (apply elem_of_cons in Hr as [->|Hr]);
      [vm_compute; discriminate..|by apply elem_of_nil in Hr].
Defined.

(** ** [plot_percentage_change]: the figures *)

Lemma changes_of_aligned (cd : daily_series) :
  aligned cd →
  percentage_change cd = Ok (changes_of cd)
  ∧ fechas_pct (changes_of cd) = drop 1 (fechas cd)
  ∧ length (pct_change (changes_of cd)) = length (fechas_pct (changes_of cd)).
Proof.
  intros Hal. unfold changes_of.
  destruct (percentage_change_of_aligned cd Hal) as (p & -> & Hf & Hl & _).
  done.
Qed.

Lemma load_pct_countries_foldl (window_size : Z) (countries : list string)
    (st : list (string * pct_series) * pyfloat * pyfloat * list call * world) :
  load_pct_countries window_size countries st
  = (foldl (fun st c => (load_pct_country window_size st c).1) st countries,
     Ok tt).
Proof.
  revert st. induction countries as [|c countries IH]; intros st; [done|].
  cbn [load_pct_countries foldl].
  pose proof (load_pct_country_ok window_size st c) as Hc.
  destruct (load_pct_country window_size st c) as [st' [[]|e]]; [|done].
  apply IH.
Qed.

Lemma load_pct_country_data (window_size : Z)
    (st : list (string * pct_series) * pyfloat * pyfloat * list call * world)
    (c : string) :
  (load_pct_country window_size st c).1.1.1.1.1
  = dict_set c
      (changes_of
         (load_and_process_data st.2 (country_file c) window_size).1)
      st.1.1.1.1
  ∧ (load_pct_country window_size st c).1.2
    = (load_and_process_data st.2 (country_file c) window_size).2.
Proof.
  destruct st as [[[[all_data lo] hi] printed] w].
  unfold load_pct_country, country_file. cbn [fst snd].
  pose proof (load_and_process_data_aligned w
                (path_join data_dir (c +:+ "_data.json")) window_size) as Hal.
  destruct (load_and_process_data w _ window_size) as [cd w'].
  cbn [fst snd] in *.
  destruct (changes_of_aligned cd Hal) as (Hp & _).
  assert (fechas cd = [] ∨ commits_rolling_avg cd = [] →
          changes_of cd = mk_pct [] []) as Hempty.
  { intros Hor. unfold changes_of, percentage_change.
    destruct Hor as [-> | ->]; [done|]. by destruct (fechas cd). }
  destruct (fechas cd) as [|d ds] eqn:Hf.
  { rewrite Hempty by (by left). done. }
  destruct (commits_rolling_avg cd) as [|a avg] eqn:Ha.
  { rewrite Hempty by (by right). done. }
  rewrite Hp. by destruct (pct_change (changes_of cd)).
Qed.

Lemma build_changes_same_input (window_size : Z) (w1 w2 : world) (c : string) :
  same_input w1 w2 →
  (changes_of (load_and_process_data w1 (country_file c) window_size).1,
   (load_and_process_data w1 (country_file c) window_size).2).1
  = (changes_of (load_and_process_data w2 (country_file c) window_size).1,
     (load_and_process_data w2 (country_file c) window_size).2).1
  ∧ same_input w1
      (changes_of (load_and_process_data w2 (country_file c) window_size).1,
       (load_and_process_data w2 (country_file c) window_size).2).2.
Proof.
  intros Hw. cbn [fst snd].
  destruct (load_and_process_data_same_input w1 w2 (country_file c)
              window_size Hw) as [-> Hs].
  done.
Qed.

Lemma load_pct_countries_data (w : world) (window_size : Z)
    (countries : list string) :
  NoDup countries →
  (load_pct_countries window_size countries
     ([], float_of_int 0, float_of_int 0, [], w)).1.1.1.1.1
  = (fun c => (c, changes_of (country_series w window_size c))) <$> countries.
Proof.
  intros Hnd. rewrite load_pct_countries_foldl. cbn [fst].
  apply (loading_loop
           (fun w c =>
              (changes_of
                 (load_and_process_data w (country_file c) window_size).1,
               (load_and_process_data w (country_file c) window_size).2))
           (fun st c => (load_pct_country window_size st c).1)
           (fun st => st.1.1.1.1) (fun st => st.2)
           (build_changes_same_input window_size)
           (fun st c => proj1 (load_pct_country_data window_size st c))
           (fun st c => proj2 (load_pct_country_data window_size st c))
           w countries ([], float_of_int 0, float_of_int 0, [], w) Hnd
           (same_input_refl w)).
  intros c _. simpl. apply not_elem_of_nil.
Qed.

Lemma pct_individual_plot_saved (a b : datetime) (output_dir : string)
    (show_highlight : bool) (item : string * pct_series) :
  Forall is_num (pct_change item.2) →
  length (pct_change item.2) = length (fechas_pct item.2) →
  saved_files (pct_individual_plot a b output_dir show_highlight item).1
  = if decide (with_changes item)
    then [path_join output_dir (item.1 +:+ "_cambio_porcentual.png")]
    else [].
Proof.
  intros Hnum Hlen.
  destruct (pct_individual_plot_numbers a b output_dir show_highlight item
              Hnum) as [_ ->].
  destruct item as [country r].
  destruct (decide (with_changes (country, r))) as [Hd|Hd];
    unfold with_changes in Hd; simpl in *.
  - destruct (pct_change r) as [|x l]; [done|].
    by destruct (fechas_pct r) as [|d ds].
  - destruct (pct_change r) as [|x l]; [|exfalso; by apply Hd].
    by destruct (fechas_pct r).
Qed.

Lemma pct_comparative_series_spec (all_data : list (string * pct_series)) :
  Forall (fun item : string * pct_series =>
            length (pct_change item.2) = length (fechas_pct item.2)) all_data →
  pct_comparative_series all_data
  = ((fun item : string * pct_series =>
        Plot (fechas_pct item.2) (pct_change item.2))
     <$> filter with_changes all_data,
     bool_decide (Exists with_changes all_data)).
Proof.
  intros Hall. unfold pct_comparative_series.
  rewrite (comparative_fold with_changes
    (fun item : string * pct_series =>
       Plot (fechas_pct item.2) (pct_change item.2))); [done|].
  intros cs b [country r] Hin. rewrite Forall_forall in Hall.
  pose proof (Hall _ Hin) as Hlen.
  destruct (decide (with_changes (country, r))) as [Hd|Hd];
    unfold with_changes in Hd; simpl in *.
  - destruct (pct_change r) as [|x l]; [done|].
    by destruct (fechas_pct r).
  - destruct (pct_change r) as [|x l]; [|exfalso; by apply Hd].
    by destruct (fechas_pct r).
Qed.

Lemma pct_comparative_plot_saved (all_data : list (string * pct_series))
    (a b : datetime) (lo hi : pyfloat) (output_dir : string)
    (show_highlight : bool) :
  is_num lo → is_num hi →
  Forall (fun item : string * pct_series =>
            length (pct_change item.2) = length (fechas_pct item.2)) all_data →
  saved_files (pct_comparative_plot all_data a b lo hi output_dir
                 show_highlight).1
  = if decide (Exists with_changes all_data)
    then [path_join output_dir "comparacion_cambio_porcentual.png"] else [].
Proof.
  intros Hlo Hhi Hall.
  destruct (pct_comparative_plot_numbers all_data a b lo hi output_dir
              show_highlight Hlo Hhi) as [_ ->].
  rewrite pct_comparative_series_spec by done. cbn [fst snd].
  rewrite saved_files_plots by done. cbn [app].
  destruct (decide (Exists with_changes all_data)) as [He|He].
  - by rewrite bool_decide_eq_true_2.
  - by rewrite bool_decide_eq_false_2.
Qed.

Lemma with_changes_two_days (w : world) (window_size : Z) (c : string) :
  with_changes (c, changes_of (country_series w window_size c))
  ↔ has_two_days w window_size c.
Proof.
  unfold with_changes, has_two_days, country_series. simpl.
  destruct (changes_of_aligned _
              (load_and_process_data_aligned w (country_file c) window_size))
    as (_ & Hf & Hl).
  rewrite Hf, length_drop in Hl.
  destruct (pct_change _) as [|x l]; simpl in Hl.
  - split; [done|lia].
  - split; [lia|done].
Qed.

Lemma saved_files_prints (cs : list call) :
  Forall (fun c => match c with PrintLine _ => True | _ => False end) cs →
  saved_files cs = [].
Proof.
  induction 1 as [|c cs Hc _ IH]; [done|]. by destruct c.
Qed.

Lemma load_pct_country_printed (window_size : Z)
    (st : list (string * pct_series) * pyfloat * pyfloat * list call * world)
    (c : string) :
  saved_files st.1.2 = [] →
  saved_files (load_pct_country window_size st c).1.1.2 = [].
Proof.
  destruct st as [[[[all_data lo] hi] printed] w]. cbn [fst snd].
  intros Hp. unfold load_pct_country.
  destruct (load_and_process_data w _ window_size) as [cd w'].
  destruct (fechas cd);
    [cbn [fst snd]; by rewrite saved_files_app, Hp|].
  destruct (commits_rolling_avg cd);
    [cbn [fst snd]; by rewrite saved_files_app, Hp|].
  destruct (percentage_change _) as [r|e]; [|done].
  by destruct (pct_change r).
Qed.

Lemma load_pct_countries_printed (window_size : Z) (countries : list string)
    (st : list (string * pct_series) * pyfloat * pyfloat * list call * world) :
  saved_files st.1.2 = [] →
  saved_files (load_pct_countries window_size countries st).1.1.2 = [].
Proof.
  rewrite load_pct_countries_foldl. cbn [fst]. revert st.
  induction countries as [|c countries IH]; intros st Hst; [done|].
  cbn [foldl]. apply IH. by apply load_pct_country_printed.
Qed.

(** X23. [plot_percentage_change], given a window of at least 1,
    highlight dates that parse and a list of distinct countries, raises
    nothing and saves one figure [<country>_cambio_porcentual.png] for
    each country whose daily series has at least two days, in the order
    of the list, and then the comparative figure if there was such a
    country.  A country with a single day of activity has no change to
    show and gets no figure.  (With a window below 1 the changes are
    [nan] and [set_ylim] refuses them.) *)
Theorem pct_figures_saved (w : world) (countries : list string)
    (highlight_start highlight_end : string) (window_size : Z)
    (show_highlight : bool) (output_dir : string) (a b : datetime) :
  1 ≤ window_size →
  NoDup countries →
  strptime_ymd highlight_start = Ok a →
  strptime_ymd highlight_end = Ok b →
  (plot_percentage_change w countries highlight_start highlight_end
     window_size show_highlight output_dir).1.2 = Ok tt
  ∧ saved_files
      (plot_percentage_change w countries highlight_start highlight_end
         window_size show_highlight output_dir).1.1
    = ((fun c => path_join output_dir (c +:+ "_cambio_porcentual.png"))
       <$> filter (has_two_days w window_size) countries)
      ++ (if decide (Exists (has_two_days w window_size) countries)
          then [path_join output_dir "comparacion_cambio_porcentual.png"]
          else []).
Proof.
  intros Hw Hnd Ha Hb.
  destruct (plot_percentage_change_calls w countries highlight_start
              highlight_end window_size show_highlight output_dir a b
              Hw Ha Hb) as [-> Hnum].
  pose proof (load_pct_countries_data w window_size countries Hnd) as Hdata.
  pose proof (load_pct_countries_limits window_size countries
                ([], float_of_int 0, float_of_int 0, [], w) Hw) as Hlim.
  pose proof (load_pct_countries_printed window_size countries
                ([], float_of_int 0, float_of_int 0, [], w) eq_refl) as Hpr.
  destruct (load_pct_countries window_size countries _)
    as [[[[[all_data lo'] hi'] printed] w'] res].
  destruct Hlim as (lo & hi & Hlo & Hhi & _).
  { exists 0%Q, 0%Q. cbn [fst snd]. repeat (split; [done|]). constructor. }
  cbn [fst snd] in *. subst all_data lo' hi'. split; [done|].
  assert (Forall (fun item : string * pct_series =>
                    length (pct_change item.2) = length (fechas_pct item.2))
            ((fun c => (c, changes_of (country_series w window_size c)))
             <$> countries)) as Hall.
  { apply Forall_fmap, Forall_forall. intros c _. simpl.
    apply changes_of_aligned, load_and_process_data_aligned. }
  rewrite !saved_files_app, Hpr.
  change (saved_files [Makedirs output_dir]) with (@nil string). cbn [app].
  rewrite (saved_files_concat _
    (fun item => path_join output_dir (item.1 +:+ "_cambio_porcentual.png"))
    with_changes).
  2:{ intros item Hitem. rewrite Forall_forall in Hall, Hnum.
      apply pct_individual_plot_saved; [by apply Hnum|by apply Hall]. }
  rewrite pct_comparative_plot_saved by (done || by eexists).
  assert (filter with_changes
            ((fun c => (c, changes_of (country_series w window_size c)))
             <$> countries)
          = (fun c => (c, changes_of (country_series w window_size c)))
            <$> filter (has_two_days w window_size) countries) as ->.
  { clear. induction countries as [|c countries IH]; [done|].
    rewrite fmap_cons, !filter_cons, IH.
    pose proof (with_changes_two_days w window_size c) as Hiff.
    destruct (decide (with_changes _)) as [H1|H1];
      destruct (decide (has_two_days w window_size c)) as [H2|H2];
      try done; tauto. }
  rewrite <- list_fmap_compose. f_equal.
  assert (Exists with_changes
            ((fun c => (c, changes_of (country_series w window_size c)))
             <$> countries)
          ↔ Exists (has_two_days w window_size) countries) as Hex.
  { rewrite Exists_fmap, !Exists_exists.
    split; intros (c & Hc & H); exists c; (split; [done|]);
      by apply (with_changes_two_days w window_size c). }
  destruct (decide (Exists with_changes _)) as [He|He];
    destruct (decide (Exists (has_two_days w window_size) countries))
      as [He'|He']; try done; tauto.
Qed.

Lemma pct_figures_saved_witness :
  saved_files
    (plot_percentage_change india_and_bangladesh
       ["Bangladesh"; "India"] "2024-07-17" "2024-07-24" 7 true "out").1.1
  = ["out/India_cambio_porcentual.png";
     "out/comparacion_cambio_porcentual.png"].
Proof.
  destruct (pct_figures_saved india_and_bangladesh
    ["Bangladesh"; "India"] "2024-07-17" "2024-07-24" 7 true "out"
    (mk_date 2024 7 17) (mk_date 2024 7 24)) as [_ ->].
  - lia.
  - repeat constructor; set_solver.
  - reflexivity.
  - reflexivity.
  - vm_compute. reflexivity.
Defined.

(** ** [plot_percentage_change] with a window below 1 *)

Lemma country_series_nan (w : world) (window_size : Z) (c : string) :
  window_size ≤ 0 →
  Forall (fun y => y = NaN)
    (commits_rolling_avg (country_series w window_size c)).
Proof.
  intros Hw. unfold country_series, load_and_process_data.
  destruct (load_and_process_body w (country_file c) window_size)
    as [r|e] eqn:Hb; [|constructor].
  apply load_and_process_body_shape in Hb as (_ & _ & _ & _ & [Hrc _] & _).
  cbn [fst]. rewrite Hrc, rolling_average_nonpositive_window by done.
  apply Forall_forall. by intros y [-> _]%elem_of_replicate.
Qed.

Lemma changes_nan (w : world) (window_size : Z) (c : string) :
  window_size ≤ 0 →
  Forall (fun y => y = NaN)
    (pct_change (changes_of (country_series w window_size c))).
Proof.
  intros Hw. pose proof (country_series_nan w window_size c Hw) as Hnan.
  pose proof (load_and_process_data_aligned w (country_file c) window_size)
    as Hal.
  fold (country_series w window_size c) in Hal.
  destruct (percentage_change_of_aligned _ Hal) as (p & Hp & _ & _ & Hsteps).
  unfold changes_of. rewrite Hp.
  apply Forall_lookup_2. intros i y Hy. apply Hsteps in Hy as [-> Hi].
  rewrite Forall_lookup in Hnan.
  destruct (lookup_lt_is_Some_2 _ _ Hi) as [t Ht].
  destruct (lookup_lt_is_Some_2 _ i (Nat.lt_succ_l _ _ Hi)) as [y Hy].
  rewrite (list_lookup_total_correct _ _ _ Ht),
    (list_lookup_total_correct _ _ _ Hy).
  by rewrite (Hnan _ _ Ht), (Hnan _ _ Hy).
Qed.

Lemma py_min_nan (rest : list pyfloat) : py_min float_lt NaN rest = NaN.
Proof. unfold py_min. induction rest as [|x rest IH]; [done|]. exact IH. Qed.

(** A chart whose changes are [nan] is opened and drawn, and then
    [set_ylim] raises: nothing is saved. *)
Lemma pct_individual_plot_nan (a b : datetime) (output_dir : string)
    (show_highlight : bool) (item : string * pct_series) :
  with_changes item →
  length (pct_change item.2) = length (fechas_pct item.2) →
  Forall (fun y => y = NaN) (pct_change item.2) →
  (pct_individual_plot a b output_dir show_highlight item).2
  = Raise ValueError
  ∧ saved_files (pct_individual_plot a b output_dir show_highlight item).1
    = [].
Proof.
  destruct item as [country r]. unfold with_changes. cbn [fst snd].
  intros Hne Hlen Hnan. unfold pct_individual_plot.
  destruct (pct_change r) as [|x l]; [done|].
  destruct (fechas_pct r) as [|d ds]; [done|].
  apply Forall_cons in Hnan as [-> _]. rewrite py_min_nan.
  cbn [float_sub set_ylim and_then fst snd]. split; [done|].
  by rewrite !saved_files_app, saved_files_highlight.
Qed.

Lemma pct_individual_plot_skipped (a b : datetime) (output_dir : string)
    (show_highlight : bool) (item : string * pct_series) :
  ¬ with_changes item →
  pct_individual_plot a b output_dir show_highlight item = ([], Ok tt).
Proof.
  destruct item as [country r]. unfold with_changes. cbn [snd].
  intros Hno. unfold pct_individual_plot.
  destruct (pct_change r) as [|x l]; [|by destruct Hno].
  by destruct (fechas_pct r).
Qed.

(** A loop is stopped by the first element that raises. *)
Lemma for_each_call_raises {A : Type} (f : A → outcome) (P : A → Prop)
    `{!∀ x, Decision (P x)} (e : exn) (l : list A) :
  (∀ x, x ∈ l → ¬ P x → f x = ([], Ok tt)) →
  (∀ x, x ∈ l → P x → (f x).2 = Raise e ∧ saved_files (f x).1 = []) →
  Exists P l →
  (for_each_call f l).2 = Raise e ∧ saved_files (for_each_call f l).1 = [].
Proof.
  unfold for_each_call. intros Hskip Hraise Hex.
  induction l as [|x l IH]; [by apply Exists_nil in Hex|].
  cbn [foldr].
  destruct (decide (P x)) as [HP|HP].
  - destruct (Hraise x) as [Hr Hs]; [left|done|].
    destruct (f x) as [cs r]. cbn [fst snd] in *. by subst r.
  - rewrite (Hskip x) by (done || left).
    apply Exists_cons in Hex as [?|Hex]; [done|].
    destruct IH as [Hr Hs]; [intros; apply Hskip; by try right
                            |intros; apply Hraise; by try right|done|].
    destruct (foldr _ _ l) as [cs r]. cbn [fst snd] in *. by subst r.
Qed.

(** X25. With a window below 1 [plot_percentage_change] cannot draw: the
    rolling averages are [nan], so is every percentage change, and the
    limits of the first chart that has changes to show are [nan].  Given
    highlight dates that parse and distinct countries of which one has a
    daily series of at least two days, [set_ylim] raises [ValueError] in
    the chart of the first such country and the function ends there,
    with no figure saved. *)
Theorem pct_nonpositive_window_raises (w : world) (countries : list string)
    (highlight_start highlight_end : string) (window_size : Z)
    (show_highlight : bool) (output_dir : string) (a b : datetime) :
  window_size ≤ 0 →
  NoDup countries →
  strptime_ymd highlight_start = Ok a →
  strptime_ymd highlight_end = Ok b →
  Exists (has_two_days w window_size) countries →
  (plot_percentage_change w countries highlight_start highlight_end
     window_size show_highlight output_dir).1.2 = Raise ValueError
  ∧ saved_files
      (plot_percentage_change w countries highlight_start highlight_end
         window_size show_highlight output_dir).1.1 = [].
Proof.
  intros Hw Hnd Ha Hb Hex. unfold plot_percentage_change. rewrite Ha, Hb.
  pose proof (load_pct_countries_data w window_size countries Hnd) as Hdata.
  pose proof (load_pct_countries_ok window_size countries
                ([], float_of_int 0, float_of_int 0, [], w)) as Hok.
  pose proof (load_pct_countries_printed window_size countries
                ([], float_of_int 0, float_of_int 0, [], w) eq_refl) as Hpr.
  destruct (load_pct_countries window_size countries _)
    as [[[[[all_data lo] hi] printed] w'] res].
  cbn [fst snd] in *. subst res all_data.
  destruct (for_each_call_raises
              (pct_individual_plot a b output_dir show_highlight)
              with_changes ValueError
              ((fun c => (c, changes_of (country_series w window_size c)))
               <$> countries)) as [Hr Hs].
  - intros item _. apply pct_individual_plot_skipped.
  - intros item (c & -> & _)%list_elem_of_fmap Hitem.
    apply pct_individual_plot_nan; [done| |by apply changes_nan].
    apply changes_of_aligned, load_and_process_data_aligned.
  - rewrite Exists_fmap, Exists_exists.
    apply Exists_exists in Hex as (c & Hc & Htwo). exists c.
    split; [done|]. by apply with_changes_two_days.
  - destruct (for_each_call _ _) as [cs r]. cbn [fst snd] in *. subst r.
    cbn [and_then fst snd]. split; [done|].
    rewrite !saved_files_app, Hpr, Hs. reflexivity.
Qed.

Lemma pct_nonpositive_window_raises_witness :
  (plot_percentage_change india_and_bangladesh ["Bangladesh"; "India"]
     "2024-07-17" "2024-07-24" 0 true "out").1.2 = Raise ValueError
  ∧ saved_files
      (plot_percentage_change india_and_bangladesh ["Bangladesh"; "India"]
         "2024-07-17" "2024-07-24" 0 true "out").1.1 = [].
Proof.
  apply (pct_nonpositive_window_raises india_and_bangladesh
           ["Bangladesh"; "India"] "2024-07-17" "2024-07-24" 0 true "out"
           (mk_date 2024 7 17) (mk_date 2024 7 24)).
  - lia.
  - repeat constructor; set_solver.
  - reflexivity.
  - reflexivity.
  - apply Exists_cons. right. apply Exists_cons. left.
    unfold has_two_days. vm_compute. lia.
Defined.

(** ** The file of a country *)

Lemma string_length_app (s1 s2 : string) :
  String.length (s1 +:+ s2) = (String.length s1 + String.length s2)%nat.
Proof.
  induction s1 as [|c s1 IH]; [done|].
  change (String c s1 +:+ s2) with (String c (s1 +:+ s2)). simpl.
  by rewrite IH.
Qed.

Lemma string_app_inv_tail (s1 s2 t : string) :
  s1 +:+ t = s2 +:+ t → s1 = s2.
Proof.
  revert s2. induction s1 as [|c1 s1 IH]; intros [|c2 s2] Heq.
  - done.
  - apply (f_equal String.length) in Heq.
    change ("" +:+ t) with t in Heq.
    rewrite string_length_app in Heq. simpl in Heq. lia.
  - apply (f_equal String.length) in Heq.
    change ("" +:+ t) with t in Heq.
    rewrite string_length_app in Heq. simpl in Heq. lia.
  - change (String c1 (s1 +:+ t) = String c2 (s2 +:+ t)) in Heq.
    injection Heq as -> Heq. f_equal. by apply IH.
Qed.

Lemma string_app_inv_head (s t1 t2 : string) :
  s +:+ t1 = s +:+ t2 → t1 = t2.
Proof.
  induction s as [|c s IH]; [done|].
  change (String c (s +:+ t1) = String c (s +:+ t2) → t1 = t2).
  intros Heq. injection Heq as Heq. by apply IH.
Qed.

Lemma country_file_eq (country : string) :
  country_file country
  = (if starts_with "/" country then "" else "../data/")
    +:+ country +:+ "_data.json".
Proof.
  unfold country_file, path_join, data_dir.
  destruct country as [|c country]; [done|].
  change (String c country +:+ "_data.json")
    with (String c (country +:+ "_data.json")).
  cbn [starts_with]. destruct (decide ("/"%char = c)) as [<-|Hne]; done.
Qed.

(** X24. Two different countries never read the same file: the path
    [os.path.join(data_dir, f"{country}_data.json")] determines the
    country, also for a name that starts with a slash, for which the
    data directory is dropped from the path. *)
Theorem country_file_distinct (c1 c2 : string) :
  c1 ≠ c2 → country_file c1 ≠ country_file c2.
Proof.
  intros Hc Hfile. apply Hc. clear Hc. revert Hfile.
  rewrite !country_file_eq.
  destruct (starts_with "/" c1) eqn:H1, (starts_with "/" c2) eqn:H2.
  - intros Heq.
    change (c1 +:+ "_data.json" = c2 +:+ "_data.json") in Heq.
    by apply string_app_inv_tail in Heq.
  - destruct c1 as [|x1 c1]; [done|]. cbn [starts_with] in H1.
    destruct (decide ("/"%char = x1)) as [<-|Hne]; [|done].
    intros Heq. cbn in Heq. discriminate Heq.
  - destruct c2 as [|x2 c2]; [done|]. cbn [starts_with] in H2.
    destruct (decide ("/"%char = x2)) as [<-|Hne]; [|done].
    intros Heq. cbn in Heq. discriminate Heq.
  - intros Heq%string_app_inv_head. by apply string_app_inv_tail in Heq.
Qed.

Lemma country_file_distinct_witness :
  country_file "/India" ≠ country_file "India".
Proof.
  apply (country_file_distinct "/India" "India"). discriminate.
Defined.
